(** * ExpTrackerBot: the webhook controller and its collaborators

    A shallow embedding of [handleWebhook] (webhook controller), of the
    service wrappers it calls ([wahaService], [geminiService],
    [actualService]) and of the JavaScript built-ins they rely on. Where
    the sources hold two revisions of a file, the later one is embedded:
    the controller with the budgeting integration and the three intents,
    and the language-model service with [processBalanceQuery].

    - JavaScript strings are byte strings holding UTF-8 text;
      [toLowerCase] and the white space that [parseFloat] skips are read
      off its code points.
    - JavaScript numbers are IEEE-754 binary64 values ([PrimFloat.float]).
    - The outside world (gateway, language model, budgeting server, clock,
      and the locale data behind [Intl.NumberFormat]) is an [Env]: the
      answer of each library call, a value or a rejection.
      The [WebhookEvent] collection is part of the state and always
      answers; the expiry of its records after a day is not modelled.
    - The handler runs in a state-and-exception monad over [State]: the
      idempotency collection, the [isInitialized] flag of the budgeting
      client, the request-local variable [finalResponse], and the log of
      the library calls issued so far.
    - The promises given to [Promise.all] are started in order, each up to
      its library call; a rejection is reported as that of the leftmost
      rejected promise. *)

From Stdlib Require Import ZArith String Ascii List Floats DecimalString DecimalPos.
From stdpp Require Import gmap strings list.

Local Open Scope string_scope.

(** ** JavaScript built-ins *)
Module JS.

(** *** Text

    A string holds its text in UTF-8. [String.prototype.toLowerCase] works
    on the code points of the text: each is replaced by its lowercase
    mapping in the Unicode Character Database, which is one code point,
    but for [U+0130], which becomes [U+0069 U+0307], and for [U+03A3],
    which becomes [U+03C2] at the end of a word ([Final_Sigma] of
    SpecialCasing.txt) and [U+03C3] elsewhere; no mapping depends on a
    locale. The tables are those of Unicode 14. A byte that is not part of
    a well-formed sequence is left as it is. *)
Inductive Char := CodePoint (c : N) | Octet (b : ascii).

Definition continuation (b : ascii) : option N :=
  let n := N_of_ascii b in
  if ((128 <=? n) && (n <? 192))%N then Some (n - 128)%N else None.

(** The code point at the head of [s], and what follows it. *)
Definition decodeOne (s : string) : option (N * string) :=
  match s with
  | String a r =>
      let n := N_of_ascii a in
      if (n <? 128)%N then Some (n, r)
      else if (n <? 192)%N then None
      else if (n <? 224)%N then
        match r with
        | String b r1 =>
            match continuation b with
            | Some x =>
                let c := ((n - 192) * 64 + x)%N in
                if (128 <=? c)%N then Some (c, r1) else None
            | None => None
            end
        | _ => None
        end
      else if (n <? 240)%N then
        match r with
        | String b (String b' r2) =>
            match continuation b, continuation b' with
            | Some x, Some y =>
                let c := (((n - 224) * 64 + x) * 64 + y)%N in
                if (2048 <=? c)%N then Some (c, r2) else None
            | _, _ => None
            end
        | _ => None
        end
      else if (n <? 248)%N then
        match r with
        | String b (String b' (String b'' r3)) =>
            match continuation b, continuation b', continuation b'' with
            | Some x, Some y, Some z =>
                let c := ((((n - 240) * 64 + x) * 64 + y) * 64 + z)%N in
                if ((65536 <=? c) && (c <=? 1114111))%N then Some (c, r3) else None
            | _, _, _ => None
            end
        | _ => None
        end
      else None
  | EmptyString => None
  end.

Fixpoint decodeFuel (fuel : nat) (s : string) : list Char :=
  match fuel, s with
  | S k, String a r =>
      match decodeOne s with
      | Some (c, t) => CodePoint c :: decodeFuel k t
      | None => Octet a :: decodeFuel k r
      end
  | _, _ => []
  end.

Definition decode (s : string) : list Char := decodeFuel (String.length s) s.

Definition encodeOne (c : N) : string :=
  let byte n := ascii_of_N n in
  let tail n := byte (128 + n mod 64)%N in
  if (c <? 128)%N then String (byte c) ""
  else if (c <? 2048)%N then String (byte (192 + c / 64)%N) (String (tail c) "")
  else if (c <? 65536)%N then
    String (byte (224 + c / 4096)%N) (String (tail (c / 64)%N) (String (tail c) ""))
  else
    String (byte (240 + c / 262144)%N)
      (String (tail (c / 4096)%N) (String (tail (c / 64)%N) (String (tail c) ""))).

Fixpoint encode (l : list Char) : string :=
  match l with
  | [] => ""
  | CodePoint c :: r => encodeOne c ++ encode r
  | Octet b :: r => String b (encode r)
  end.

(** The simple lowercase mappings: [(first, last, step, target)] maps
    [first + k * step <= last] to [target + k * step]. *)
Definition lowercaseMappings : list (N * N * N * N) :=
  [(0x41, 0x5A, 1, 0x61); (0xC0, 0xD6, 1, 0xE0); (0xD8, 0xDE, 1, 0xF8);
   (0x100, 0x12E, 2, 0x101); (0x132, 0x136, 2, 0x133); (0x139, 0x147, 2, 0x13A);
   (0x14A, 0x176, 2, 0x14B); (0x178, 0x178, 1, 0xFF); (0x179, 0x17D, 2, 0x17A);
   (0x181, 0x181, 1, 0x253); (0x182, 0x184, 2, 0x183); (0x186, 0x186, 1, 0x254);
   (0x187, 0x187, 1, 0x188); (0x189, 0x18A, 1, 0x256); (0x18B, 0x18B, 1, 0x18C);
   (0x18E, 0x18E, 1, 0x1DD); (0x18F, 0x18F, 1, 0x259); (0x190, 0x190, 1, 0x25B);
   (0x191, 0x191, 1, 0x192); (0x193, 0x193, 1, 0x260); (0x194, 0x194, 1, 0x263);
   (0x196, 0x196, 1, 0x269); (0x197, 0x197, 1, 0x268); (0x198, 0x198, 1, 0x199);
   (0x19C, 0x19C, 1, 0x26F); (0x19D, 0x19D, 1, 0x272); (0x19F, 0x19F, 1, 0x275);
   (0x1A0, 0x1A4, 2, 0x1A1); (0x1A6, 0x1A6, 1, 0x280); (0x1A7, 0x1A7, 1, 0x1A8);
   (0x1A9, 0x1A9, 1, 0x283); (0x1AC, 0x1AC, 1, 0x1AD); (0x1AE, 0x1AE, 1, 0x288);
   (0x1AF, 0x1AF, 1, 0x1B0); (0x1B1, 0x1B2, 1, 0x28A); (0x1B3, 0x1B5, 2, 0x1B4);
   (0x1B7, 0x1B7, 1, 0x292); (0x1B8, 0x1B8, 1, 0x1B9); (0x1BC, 0x1BC, 1, 0x1BD);
   (0x1C4, 0x1C4, 1, 0x1C6); (0x1C5, 0x1C5, 1, 0x1C6); (0x1C7, 0x1C7, 1, 0x1C9);
   (0x1C8, 0x1C8, 1, 0x1C9); (0x1CA, 0x1CA, 1, 0x1CC); (0x1CB, 0x1DB, 2, 0x1CC);
   (0x1DE, 0x1EE, 2, 0x1DF); (0x1F1, 0x1F1, 1, 0x1F3); (0x1F2, 0x1F4, 2, 0x1F3);
   (0x1F6, 0x1F6, 1, 0x195); (0x1F7, 0x1F7, 1, 0x1BF); (0x1F8, 0x21E, 2, 0x1F9);
   (0x220, 0x220, 1, 0x19E); (0x222, 0x232, 2, 0x223); (0x23A, 0x23A, 1, 0x2C65);
   (0x23B, 0x23B, 1, 0x23C); (0x23D, 0x23D, 1, 0x19A); (0x23E, 0x23E, 1, 0x2C66);
   (0x241, 0x241, 1, 0x242); (0x243, 0x243, 1, 0x180); (0x244, 0x244, 1, 0x289);
   (0x245, 0x245, 1, 0x28C); (0x246, 0x24E, 2, 0x247); (0x370, 0x372, 2, 0x371);
   (0x376, 0x376, 1, 0x377); (0x37F, 0x37F, 1, 0x3F3); (0x386, 0x386, 1, 0x3AC);
   (0x388, 0x38A, 1, 0x3AD); (0x38C, 0x38C, 1, 0x3CC); (0x38E, 0x38F, 1, 0x3CD);
   (0x391, 0x3A1, 1, 0x3B1); (0x3A3, 0x3AB, 1, 0x3C3); (0x3CF, 0x3CF, 1, 0x3D7);
   (0x3D8, 0x3EE, 2, 0x3D9); (0x3F4, 0x3F4, 1, 0x3B8); (0x3F7, 0x3F7, 1, 0x3F8);
   (0x3F9, 0x3F9, 1, 0x3F2); (0x3FA, 0x3FA, 1, 0x3FB); (0x3FD, 0x3FF, 1, 0x37B);
   (0x400, 0x40F, 1, 0x450); (0x410, 0x42F, 1, 0x430); (0x460, 0x480, 2, 0x461);
   (0x48A, 0x4BE, 2, 0x48B); (0x4C0, 0x4C0, 1, 0x4CF); (0x4C1, 0x4CD, 2, 0x4C2);
   (0x4D0, 0x52E, 2, 0x4D1); (0x531, 0x556, 1, 0x561); (0x10A0, 0x10C5, 1, 0x2D00);
   (0x10C7, 0x10C7, 1, 0x2D27); (0x10CD, 0x10CD, 1, 0x2D2D); (0x13A0, 0x13EF, 1, 0xAB70);
   (0x13F0, 0x13F5, 1, 0x13F8); (0x1C90, 0x1CBA, 1, 0x10D0); (0x1CBD, 0x1CBF, 1, 0x10FD);
   (0x1E00, 0x1E94, 2, 0x1E01); (0x1E9E, 0x1E9E, 1, 0xDF); (0x1EA0, 0x1EFE, 2, 0x1EA1);
   (0x1F08, 0x1F0F, 1, 0x1F00); (0x1F18, 0x1F1D, 1, 0x1F10); (0x1F28, 0x1F2F, 1, 0x1F20);
   (0x1F38, 0x1F3F, 1, 0x1F30); (0x1F48, 0x1F4D, 1, 0x1F40); (0x1F59, 0x1F5F, 2, 0x1F51);
   (0x1F68, 0x1F6F, 1, 0x1F60); (0x1F88, 0x1F8F, 1, 0x1F80); (0x1F98, 0x1F9F, 1, 0x1F90);
   (0x1FA8, 0x1FAF, 1, 0x1FA0); (0x1FB8, 0x1FB9, 1, 0x1FB0); (0x1FBA, 0x1FBB, 1, 0x1F70);
   (0x1FBC, 0x1FBC, 1, 0x1FB3); (0x1FC8, 0x1FCB, 1, 0x1F72); (0x1FCC, 0x1FCC, 1, 0x1FC3);
   (0x1FD8, 0x1FD9, 1, 0x1FD0); (0x1FDA, 0x1FDB, 1, 0x1F76); (0x1FE8, 0x1FE9, 1, 0x1FE0);
   (0x1FEA, 0x1FEB, 1, 0x1F7A); (0x1FEC, 0x1FEC, 1, 0x1FE5); (0x1FF8, 0x1FF9, 1, 0x1F78);
   (0x1FFA, 0x1FFB, 1, 0x1F7C); (0x1FFC, 0x1FFC, 1, 0x1FF3); (0x2126, 0x2126, 1, 0x3C9);
   (0x212A, 0x212A, 1, 0x6B); (0x212B, 0x212B, 1, 0xE5); (0x2132, 0x2132, 1, 0x214E);
   (0x2160, 0x216F, 1, 0x2170); (0x2183, 0x2183, 1, 0x2184); (0x24B6, 0x24CF, 1, 0x24D0);
   (0x2C00, 0x2C2F, 1, 0x2C30); (0x2C60, 0x2C60, 1, 0x2C61); (0x2C62, 0x2C62, 1, 0x26B);
   (0x2C63, 0x2C63, 1, 0x1D7D); (0x2C64, 0x2C64, 1, 0x27D); (0x2C67, 0x2C6B, 2, 0x2C68);
   (0x2C6D, 0x2C6D, 1, 0x251); (0x2C6E, 0x2C6E, 1, 0x271); (0x2C6F, 0x2C6F, 1, 0x250);
   (0x2C70, 0x2C70, 1, 0x252); (0x2C72, 0x2C72, 1, 0x2C73); (0x2C75, 0x2C75, 1, 0x2C76);
   (0x2C7E, 0x2C7F, 1, 0x23F); (0x2C80, 0x2CE2, 2, 0x2C81); (0x2CEB, 0x2CED, 2, 0x2CEC);
   (0x2CF2, 0x2CF2, 1, 0x2CF3); (0xA640, 0xA66C, 2, 0xA641); (0xA680, 0xA69A, 2, 0xA681);
   (0xA722, 0xA72E, 2, 0xA723); (0xA732, 0xA76E, 2, 0xA733); (0xA779, 0xA77B, 2, 0xA77A);
   (0xA77D, 0xA77D, 1, 0x1D79); (0xA77E, 0xA786, 2, 0xA77F); (0xA78B, 0xA78B, 1, 0xA78C);
   (0xA78D, 0xA78D, 1, 0x265); (0xA790, 0xA792, 2, 0xA791); (0xA796, 0xA7A8, 2, 0xA797);
   (0xA7AA, 0xA7AA, 1, 0x266); (0xA7AB, 0xA7AB, 1, 0x25C); (0xA7AC, 0xA7AC, 1, 0x261);
   (0xA7AD, 0xA7AD, 1, 0x26C); (0xA7AE, 0xA7AE, 1, 0x26A); (0xA7B0, 0xA7B0, 1, 0x29E);
   (0xA7B1, 0xA7B1, 1, 0x287); (0xA7B2, 0xA7B2, 1, 0x29D); (0xA7B3, 0xA7B3, 1, 0xAB53);
   (0xA7B4, 0xA7C2, 2, 0xA7B5); (0xA7C4, 0xA7C4, 1, 0xA794); (0xA7C5, 0xA7C5, 1, 0x282);
   (0xA7C6, 0xA7C6, 1, 0x1D8E); (0xA7C7, 0xA7C9, 2, 0xA7C8); (0xA7D0, 0xA7D0, 1, 0xA7D1);
   (0xA7D6, 0xA7D8, 2, 0xA7D7); (0xA7F5, 0xA7F5, 1, 0xA7F6); (0xFF21, 0xFF3A, 1, 0xFF41);
   (0x10400, 0x10427, 1, 0x10428); (0x104B0, 0x104D3, 1, 0x104D8);
   (0x10570, 0x1057A, 1, 0x10597); (0x1057C, 0x1058A, 1, 0x105A3);
   (0x1058C, 0x10592, 1, 0x105B3); (0x10594, 0x10595, 1, 0x105BB);
   (0x10C80, 0x10CB2, 1, 0x10CC0); (0x118A0, 0x118BF, 1, 0x118C0);
   (0x16E40, 0x16E5F, 1, 0x16E60); (0x1E900, 0x1E921, 1, 0x1E922)]%N.

(** The code points with the property [Cased]. *)
Definition casedRanges : list (N * N) :=
  [(0x41, 0x5A); (0x61, 0x7A); (0xAA, 0xAA); (0xB5, 0xB5); (0xBA, 0xBA); (0xC0, 0xD6);
   (0xD8, 0xF6); (0xF8, 0x1BA); (0x1BC, 0x1BF); (0x1C4, 0x293); (0x295, 0x2B8);
   (0x2C0, 0x2C1); (0x2E0, 0x2E4); (0x345, 0x345); (0x370, 0x373); (0x376, 0x377);
   (0x37A, 0x37D); (0x37F, 0x37F); (0x386, 0x386); (0x388, 0x38A); (0x38C, 0x38C);
   (0x38E, 0x3A1); (0x3A3, 0x3F5); (0x3F7, 0x481); (0x48A, 0x52F); (0x531, 0x556);
   (0x560, 0x588); (0x10A0, 0x10C5); (0x10C7, 0x10C7); (0x10CD, 0x10CD);
   (0x10D0, 0x10FA); (0x10FD, 0x10FF); (0x13A0, 0x13F5); (0x13F8, 0x13FD);
   (0x1C80, 0x1C88); (0x1C90, 0x1CBA); (0x1CBD, 0x1CBF); (0x1D00, 0x1DBF);
   (0x1E00, 0x1F15); (0x1F18, 0x1F1D); (0x1F20, 0x1F45); (0x1F48, 0x1F4D);
   (0x1F50, 0x1F57); (0x1F59, 0x1F59); (0x1F5B, 0x1F5B); (0x1F5D, 0x1F5D);
   (0x1F5F, 0x1F7D); (0x1F80, 0x1FB4); (0x1FB6, 0x1FBC); (0x1FBE, 0x1FBE);
   (0x1FC2, 0x1FC4); (0x1FC6, 0x1FCC); (0x1FD0, 0x1FD3); (0x1FD6, 0x1FDB);
   (0x1FE0, 0x1FEC); (0x1FF2, 0x1FF4); (0x1FF6, 0x1FFC); (0x2071, 0x2071);
   (0x207F, 0x207F); (0x2090, 0x209C); (0x2102, 0x2102); (0x2107, 0x2107);
   (0x210A, 0x2113); (0x2115, 0x2115); (0x2119, 0x211D); (0x2124, 0x2124);
   (0x2126, 0x2126); (0x2128, 0x2128); (0x212A, 0x212D); (0x212F, 0x2134);
   (0x2139, 0x2139); (0x213C, 0x213F); (0x2145, 0x2149); (0x214E, 0x214E);
   (0x2160, 0x217F); (0x2183, 0x2184); (0x24B6, 0x24E9); (0x2C00, 0x2CE4);
   (0x2CEB, 0x2CEE); (0x2CF2, 0x2CF3); (0x2D00, 0x2D25); (0x2D27, 0x2D27);
   (0x2D2D, 0x2D2D); (0xA640, 0xA66D); (0xA680, 0xA69D); (0xA722, 0xA787);
   (0xA78B, 0xA78E); (0xA790, 0xA7CA); (0xA7D0, 0xA7D1); (0xA7D3, 0xA7D3);
   (0xA7D5, 0xA7D9); (0xA7F5, 0xA7F6); (0xA7F8, 0xA7FA); (0xAB30, 0xAB5A);
   (0xAB5C, 0xAB68); (0xAB70, 0xABBF); (0xFB00, 0xFB06); (0xFB13, 0xFB17);
   (0xFF21, 0xFF3A); (0xFF41, 0xFF5A); (0x10400, 0x1044F); (0x104B0, 0x104D3);
   (0x104D8, 0x104FB); (0x10570, 0x1057A); (0x1057C, 0x1058A); (0x1058C, 0x10592);
   (0x10594, 0x10595); (0x10597, 0x105A1); (0x105A3, 0x105B1); (0x105B3, 0x105B9);
   (0x105BB, 0x105BC); (0x10780, 0x10780); (0x10783, 0x10785); (0x10787, 0x107B0);
   (0x107B2, 0x107BA); (0x10C80, 0x10CB2); (0x10CC0, 0x10CF2); (0x118A0, 0x118DF);
   (0x16E40, 0x16E7F); (0x1D400, 0x1D454); (0x1D456, 0x1D49C); (0x1D49E, 0x1D49F);
   (0x1D4A2, 0x1D4A2); (0x1D4A5, 0x1D4A6); (0x1D4A9, 0x1D4AC); (0x1D4AE, 0x1D4B9);
   (0x1D4BB, 0x1D4BB); (0x1D4BD, 0x1D4C3); (0x1D4C5, 0x1D505); (0x1D507, 0x1D50A);
   (0x1D50D, 0x1D514); (0x1D516, 0x1D51C); (0x1D51E, 0x1D539); (0x1D53B, 0x1D53E);
   (0x1D540, 0x1D544); (0x1D546, 0x1D546); (0x1D54A, 0x1D550); (0x1D552, 0x1D6A5);
   (0x1D6A8, 0x1D6C0); (0x1D6C2, 0x1D6DA); (0x1D6DC, 0x1D6FA); (0x1D6FC, 0x1D714);
   (0x1D716, 0x1D734); (0x1D736, 0x1D74E); (0x1D750, 0x1D76E); (0x1D770, 0x1D788);
   (0x1D78A, 0x1D7A8); (0x1D7AA, 0x1D7C2); (0x1D7C4, 0x1D7CB); (0x1DF00, 0x1DF09);
   (0x1DF0B, 0x1DF1E); (0x1E900, 0x1E943); (0x1F130, 0x1F149); (0x1F150, 0x1F169);
   (0x1F170, 0x1F189)]%N.

(** The code points with the property [Case_Ignorable]. *)
Definition caseIgnorableRanges : list (N * N) :=
  [(0x27, 0x27); (0x2E, 0x2E); (0x3A, 0x3A); (0x5E, 0x5E); (0x60, 0x60); (0xA8, 0xA8);
   (0xAD, 0xAD); (0xAF, 0xAF); (0xB4, 0xB4); (0xB7, 0xB8); (0x2B0, 0x36F);
   (0x374, 0x375); (0x37A, 0x37A); (0x384, 0x385); (0x387, 0x387); (0x483, 0x489);
   (0x559, 0x559); (0x55F, 0x55F); (0x591, 0x5BD); (0x5BF, 0x5BF); (0x5C1, 0x5C2);
   (0x5C4, 0x5C5); (0x5C7, 0x5C7); (0x5F4, 0x5F4); (0x600, 0x605); (0x610, 0x61A);
   (0x61C, 0x61C); (0x640, 0x640); (0x64B, 0x65F); (0x670, 0x670); (0x6D6, 0x6DD);
   (0x6DF, 0x6E8); (0x6EA, 0x6ED); (0x70F, 0x70F); (0x711, 0x711); (0x730, 0x74A);
   (0x7A6, 0x7B0); (0x7EB, 0x7F5); (0x7FA, 0x7FA); (0x7FD, 0x7FD); (0x816, 0x82D);
   (0x859, 0x85B); (0x888, 0x888); (0x890, 0x891); (0x898, 0x89F); (0x8C9, 0x902);
   (0x93A, 0x93A); (0x93C, 0x93C); (0x941, 0x948); (0x94D, 0x94D); (0x951, 0x957);
   (0x962, 0x963); (0x971, 0x971); (0x981, 0x981); (0x9BC, 0x9BC); (0x9C1, 0x9C4);
   (0x9CD, 0x9CD); (0x9E2, 0x9E3); (0x9FE, 0x9FE); (0xA01, 0xA02); (0xA3C, 0xA3C);
   (0xA41, 0xA42); (0xA47, 0xA48); (0xA4B, 0xA4D); (0xA51, 0xA51); (0xA70, 0xA71);
   (0xA75, 0xA75); (0xA81, 0xA82); (0xABC, 0xABC); (0xAC1, 0xAC5); (0xAC7, 0xAC8);
   (0xACD, 0xACD); (0xAE2, 0xAE3); (0xAFA, 0xAFF); (0xB01, 0xB01); (0xB3C, 0xB3C);
   (0xB3F, 0xB3F); (0xB41, 0xB44); (0xB4D, 0xB4D); (0xB55, 0xB56); (0xB62, 0xB63);
   (0xB82, 0xB82); (0xBC0, 0xBC0); (0xBCD, 0xBCD); (0xC00, 0xC00); (0xC04, 0xC04);
   (0xC3C, 0xC3C); (0xC3E, 0xC40); (0xC46, 0xC48); (0xC4A, 0xC4D); (0xC55, 0xC56);
   (0xC62, 0xC63); (0xC81, 0xC81); (0xCBC, 0xCBC); (0xCBF, 0xCBF); (0xCC6, 0xCC6);
   (0xCCC, 0xCCD); (0xCE2, 0xCE3); (0xD00, 0xD01); (0xD3B, 0xD3C); (0xD41, 0xD44);
   (0xD4D, 0xD4D); (0xD62, 0xD63); (0xD81, 0xD81); (0xDCA, 0xDCA); (0xDD2, 0xDD4);
   (0xDD6, 0xDD6); (0xE31, 0xE31); (0xE34, 0xE3A); (0xE46, 0xE4E); (0xEB1, 0xEB1);
   (0xEB4, 0xEBC); (0xEC6, 0xEC6); (0xEC8, 0xECD); (0xF18, 0xF19); (0xF35, 0xF35);
   (0xF37, 0xF37); (0xF39, 0xF39); (0xF71, 0xF7E); (0xF80, 0xF84); (0xF86, 0xF87);
   (0xF8D, 0xF97); (0xF99, 0xFBC); (0xFC6, 0xFC6); (0x102D, 0x1030); (0x1032, 0x1037);
   (0x1039, 0x103A); (0x103D, 0x103E); (0x1058, 0x1059); (0x105E, 0x1060);
   (0x1071, 0x1074); (0x1082, 0x1082); (0x1085, 0x1086); (0x108D, 0x108D);
   (0x109D, 0x109D); (0x10FC, 0x10FC); (0x135D, 0x135F); (0x1712, 0x1714);
   (0x1732, 0x1733); (0x1752, 0x1753); (0x1772, 0x1773); (0x17B4, 0x17B5);
   (0x17B7, 0x17BD); (0x17C6, 0x17C6); (0x17C9, 0x17D3); (0x17D7, 0x17D7);
   (0x17DD, 0x17DD); (0x180B, 0x180F); (0x1843, 0x1843); (0x1885, 0x1886);
   (0x18A9, 0x18A9); (0x1920, 0x1922); (0x1927, 0x1928); (0x1932, 0x1932);
   (0x1939, 0x193B); (0x1A17, 0x1A18); (0x1A1B, 0x1A1B); (0x1A56, 0x1A56);
   (0x1A58, 0x1A5E); (0x1A60, 0x1A60); (0x1A62, 0x1A62); (0x1A65, 0x1A6C);
   (0x1A73, 0x1A7C); (0x1A7F, 0x1A7F); (0x1AA7, 0x1AA7); (0x1AB0, 0x1ACE);
   (0x1B00, 0x1B03); (0x1B34, 0x1B34); (0x1B36, 0x1B3A); (0x1B3C, 0x1B3C);
   (0x1B42, 0x1B42); (0x1B6B, 0x1B73); (0x1B80, 0x1B81); (0x1BA2, 0x1BA5);
   (0x1BA8, 0x1BA9); (0x1BAB, 0x1BAD); (0x1BE6, 0x1BE6); (0x1BE8, 0x1BE9);
   (0x1BED, 0x1BED); (0x1BEF, 0x1BF1); (0x1C2C, 0x1C33); (0x1C36, 0x1C37);
   (0x1C78, 0x1C7D); (0x1CD0, 0x1CD2); (0x1CD4, 0x1CE0); (0x1CE2, 0x1CE8);
   (0x1CED, 0x1CED); (0x1CF4, 0x1CF4); (0x1CF8, 0x1CF9); (0x1D2C, 0x1D6A);
   (0x1D78, 0x1D78); (0x1D9B, 0x1DFF); (0x1FBD, 0x1FBD); (0x1FBF, 0x1FC1);
   (0x1FCD, 0x1FCF); (0x1FDD, 0x1FDF); (0x1FED, 0x1FEF); (0x1FFD, 0x1FFE);
   (0x200B, 0x200F); (0x2018, 0x2019); (0x2024, 0x2024); (0x2027, 0x2027);
   (0x202A, 0x202E); (0x2060, 0x2064); (0x2066, 0x206F); (0x2071, 0x2071);
   (0x207F, 0x207F); (0x2090, 0x209C); (0x20D0, 0x20F0); (0x2C7C, 0x2C7D);
   (0x2CEF, 0x2CF1); (0x2D6F, 0x2D6F); (0x2D7F, 0x2D7F); (0x2DE0, 0x2DFF);
   (0x2E2F, 0x2E2F); (0x3005, 0x3005); (0x302A, 0x302D); (0x3031, 0x3035);
   (0x303B, 0x303B); (0x3099, 0x309E); (0x30FC, 0x30FE); (0xA015, 0xA015);
   (0xA4F8, 0xA4FD); (0xA60C, 0xA60C); (0xA66F, 0xA672); (0xA674, 0xA67D);
   (0xA67F, 0xA67F); (0xA69C, 0xA69F); (0xA6F0, 0xA6F1); (0xA700, 0xA721);
   (0xA770, 0xA770); (0xA788, 0xA78A); (0xA7F2, 0xA7F4); (0xA7F8, 0xA7F9);
   (0xA802, 0xA802); (0xA806, 0xA806); (0xA80B, 0xA80B); (0xA825, 0xA826);
   (0xA82C, 0xA82C); (0xA8C4, 0xA8C5); (0xA8E0, 0xA8F1); (0xA8FF, 0xA8FF);
   (0xA926, 0xA92D); (0xA947, 0xA951); (0xA980, 0xA982); (0xA9B3, 0xA9B3);
   (0xA9B6, 0xA9B9); (0xA9BC, 0xA9BD); (0xA9CF, 0xA9CF); (0xA9E5, 0xA9E6);
   (0xAA29, 0xAA2E); (0xAA31, 0xAA32); (0xAA35, 0xAA36); (0xAA43, 0xAA43);
   (0xAA4C, 0xAA4C); (0xAA70, 0xAA70); (0xAA7C, 0xAA7C); (0xAAB0, 0xAAB0);
   (0xAAB2, 0xAAB4); (0xAAB7, 0xAAB8); (0xAABE, 0xAABF); (0xAAC1, 0xAAC1);
   (0xAADD, 0xAADD); (0xAAEC, 0xAAED); (0xAAF3, 0xAAF4); (0xAAF6, 0xAAF6);
   (0xAB5B, 0xAB5F); (0xAB69, 0xAB6B); (0xABE5, 0xABE5); (0xABE8, 0xABE8);
   (0xABED, 0xABED); (0xFB1E, 0xFB1E); (0xFBB2, 0xFBC2); (0xFE00, 0xFE0F);
   (0xFE13, 0xFE13); (0xFE20, 0xFE2F); (0xFE52, 0xFE52); (0xFE55, 0xFE55);
   (0xFEFF, 0xFEFF); (0xFF07, 0xFF07); (0xFF0E, 0xFF0E); (0xFF1A, 0xFF1A);
   (0xFF3E, 0xFF3E); (0xFF40, 0xFF40); (0xFF70, 0xFF70); (0xFF9E, 0xFF9F);
   (0xFFE3, 0xFFE3); (0xFFF9, 0xFFFB); (0x101FD, 0x101FD); (0x102E0, 0x102E0);
   (0x10376, 0x1037A); (0x10780, 0x10785); (0x10787, 0x107B0); (0x107B2, 0x107BA);
   (0x10A01, 0x10A03); (0x10A05, 0x10A06); (0x10A0C, 0x10A0F); (0x10A38, 0x10A3A);
   (0x10A3F, 0x10A3F); (0x10AE5, 0x10AE6); (0x10D24, 0x10D27); (0x10EAB, 0x10EAC);
   (0x10F46, 0x10F50); (0x10F82, 0x10F85); (0x11001, 0x11001); (0x11038, 0x11046);
   (0x11070, 0x11070); (0x11073, 0x11074); (0x1107F, 0x11081); (0x110B3, 0x110B6);
   (0x110B9, 0x110BA); (0x110BD, 0x110BD); (0x110C2, 0x110C2); (0x110CD, 0x110CD);
   (0x11100, 0x11102); (0x11127, 0x1112B); (0x1112D, 0x11134); (0x11173, 0x11173);
   (0x11180, 0x11181); (0x111B6, 0x111BE); (0x111C9, 0x111CC); (0x111CF, 0x111CF);
   (0x1122F, 0x11231); (0x11234, 0x11234); (0x11236, 0x11237); (0x1123E, 0x1123E);
   (0x112DF, 0x112DF); (0x112E3, 0x112EA); (0x11300, 0x11301); (0x1133B, 0x1133C);
   (0x11340, 0x11340); (0x11366, 0x1136C); (0x11370, 0x11374); (0x11438, 0x1143F);
   (0x11442, 0x11444); (0x11446, 0x11446); (0x1145E, 0x1145E); (0x114B3, 0x114B8);
   (0x114BA, 0x114BA); (0x114BF, 0x114C0); (0x114C2, 0x114C3); (0x115B2, 0x115B5);
   (0x115BC, 0x115BD); (0x115BF, 0x115C0); (0x115DC, 0x115DD); (0x11633, 0x1163A);
   (0x1163D, 0x1163D); (0x1163F, 0x11640); (0x116AB, 0x116AB); (0x116AD, 0x116AD);
   (0x116B0, 0x116B5); (0x116B7, 0x116B7); (0x1171D, 0x1171F); (0x11722, 0x11725);
   (0x11727, 0x1172B); (0x1182F, 0x11837); (0x11839, 0x1183A); (0x1193B, 0x1193C);
   (0x1193E, 0x1193E); (0x11943, 0x11943); (0x119D4, 0x119D7); (0x119DA, 0x119DB);
   (0x119E0, 0x119E0); (0x11A01, 0x11A0A); (0x11A33, 0x11A38); (0x11A3B, 0x11A3E);
   (0x11A47, 0x11A47); (0x11A51, 0x11A56); (0x11A59, 0x11A5B); (0x11A8A, 0x11A96);
   (0x11A98, 0x11A99); (0x11C30, 0x11C36); (0x11C38, 0x11C3D); (0x11C3F, 0x11C3F);
   (0x11C92, 0x11CA7); (0x11CAA, 0x11CB0); (0x11CB2, 0x11CB3); (0x11CB5, 0x11CB6);
   (0x11D31, 0x11D36); (0x11D3A, 0x11D3A); (0x11D3C, 0x11D3D); (0x11D3F, 0x11D45);
   (0x11D47, 0x11D47); (0x11D90, 0x11D91); (0x11D95, 0x11D95); (0x11D97, 0x11D97);
   (0x11EF3, 0x11EF4); (0x13430, 0x13438); (0x16AF0, 0x16AF4); (0x16B30, 0x16B36);
   (0x16B40, 0x16B43); (0x16F4F, 0x16F4F); (0x16F8F, 0x16F9F); (0x16FE0, 0x16FE1);
   (0x16FE3, 0x16FE4); (0x1AFF0, 0x1AFF3); (0x1AFF5, 0x1AFFB); (0x1AFFD, 0x1AFFE);
   (0x1BC9D, 0x1BC9E); (0x1BCA0, 0x1BCA3); (0x1CF00, 0x1CF2D); (0x1CF30, 0x1CF46);
   (0x1D167, 0x1D169); (0x1D173, 0x1D182); (0x1D185, 0x1D18B); (0x1D1AA, 0x1D1AD);
   (0x1D242, 0x1D244); (0x1DA00, 0x1DA36); (0x1DA3B, 0x1DA6C); (0x1DA75, 0x1DA75);
   (0x1DA84, 0x1DA84); (0x1DA9B, 0x1DA9F); (0x1DAA1, 0x1DAAF); (0x1E000, 0x1E006);
   (0x1E008, 0x1E018); (0x1E01B, 0x1E021); (0x1E023, 0x1E024); (0x1E026, 0x1E02A);
   (0x1E130, 0x1E13D); (0x1E2AE, 0x1E2AE); (0x1E2EC, 0x1E2EF); (0x1E8D0, 0x1E8D6);
   (0x1E944, 0x1E94B); (0x1F3FB, 0x1F3FF); (0xE0001, 0xE0001); (0xE0020, 0xE007F);
   (0xE0100, 0xE01EF)]%N.

Fixpoint inRanges (c : N) (l : list (N * N)) : bool :=
  match l with
  | (first, last) :: r =>
      if (c <? first)%N then false
      else if (c <=? last)%N then true else inRanges c r
  | [] => false
  end.

Definition cased (c : N) : bool := inRanges c casedRanges.
Definition caseIgnorable (c : N) : bool := inRanges c caseIgnorableRanges.

Fixpoint simpleLowercase (c : N) (l : list (N * N * N * N)) : N :=
  match l with
  | (first, last, step, target) :: r =>
      if (c <? first)%N then c
      else if ((c <=? last) && ((c - first) mod step =? 0))%N then (target + (c - first))%N
      else simpleLowercase c r
  | [] => c
  end.

(** The nearest character that is not case-ignorable is a cased letter. *)
Fixpoint meetsCased (l : list Char) : bool :=
  match l with
  | CodePoint c :: r => if caseIgnorable c then meetsCased r else cased c
  | _ => false
  end.

(** [before] holds the characters already passed, the nearest first. *)
Fixpoint lowerAfter (before l : list Char) : list Char :=
  match l with
  | [] => []
  | x :: r =>
      match x with
      | CodePoint c =>
          if (c =? 0x3A3)%N then
            [CodePoint (if (meetsCased before && negb (meetsCased r))%bool
                        then 0x3C2 else 0x3C3)%N]
          else if (c =? 0x130)%N then [CodePoint 0x69%N; CodePoint 0x307%N]
          else [CodePoint (simpleLowercase c lowercaseMappings)]
      | Octet _ => [x]
      end ++ lowerAfter (x :: before) r
  end.

(** [String.prototype.toLowerCase] *)
Definition toLowerCase (s : string) : string := encode (lowerAfter [] (decode s)).

(** [Array.prototype.find]: the first element that satisfies [p], or
    [undefined]. *)
Fixpoint find {A} (p : A → bool) (l : list A) : option A :=
  match l with
  | [] => None
  | x :: r => if p x then Some x else find p r
  end.

(** [Array.prototype.join]. *)
Fixpoint join (sep : string) (l : list string) : string :=
  match l with
  | [] => ""
  | [x] => x
  | x :: r => x ++ sep ++ join sep r
  end.

(** Truthiness of a string value: every string but the empty one. *)
Definition truthy (s : string) : bool :=
  match s with EmptyString => false | _ => true end.

(** [s.split(c)[0]]: the part of [s] before the first [c]. *)
Fixpoint splitHead (c : ascii) (s : string) : string :=
  match s with
  | EmptyString => EmptyString
  | String a r => if Ascii.eqb a c then EmptyString else String a (splitHead c r)
  end.

(** [s.slice(0, n)] for [0 <= n]. *)
Definition slice0 (n : nat) (s : string) : string := String.substring 0 n s.

(** *** Numbers

    [parseFloat]: leading white space and line terminators are skipped
    (tab to carriage return, the space separators of Unicode, [U+2028],
    [U+2029] and [U+FEFF]), the longest prefix that is a
    [StrDecimalLiteral] is read, and its exact decimal value is rounded to
    the nearest binary64 (ties to even); [NaN] when there is no such
    prefix. *)
Definition isDigit (c : ascii) : bool :=
  let n := nat_of_ascii c in (Nat.leb 48 n && Nat.leb n 57)%bool.

Definition isWhite (c : N) : bool :=
  (((9 <=? c) && (c <=? 13)) || (c =? 0x20) || (c =? 0xA0) || (c =? 0x1680)
   || ((0x2000 <=? c) && (c <=? 0x200A)) || (c =? 0x2028) || (c =? 0x2029)
   || (c =? 0x202F) || (c =? 0x205F) || (c =? 0x3000) || (c =? 0xFEFF))%N.

Fixpoint trimStartFuel (fuel : nat) (s : string) : string :=
  match fuel with
  | S k =>
      match decodeOne s with
      | Some (c, r) => if isWhite c then trimStartFuel k r else s
      | None => s
      end
  | O => s
  end.

Definition trimStart (s : string) : string := trimStartFuel (String.length s) s.

(** The leading run of decimal digits and what follows it. *)
Fixpoint spanDigits (s : string) : list ascii * string :=
  match s with
  | String c r =>
      if isDigit c then let '(d, t) := spanDigits r in (c :: d, t) else ([], s)
  | EmptyString => ([], s)
  end.

Definition digitsValue (d : list ascii) : Z :=
  fold_left (fun acc c => acc * 10 + Z.of_nat (nat_of_ascii c - 48))%Z d 0%Z.

(** An optional sign: [true] for a minus. *)
Definition takeSign (s : string) : bool * string :=
  match s with
  | String "-" r => (true, r)
  | String "+" r => (false, r)
  | _ => (false, s)
  end.

(** The value of an [ExponentPart] at the head of [s], 0 when there is none. *)
Definition exponentPart (s : string) : Z :=
  match s with
  | String c r =>
      if (Ascii.eqb c "e" || Ascii.eqb c "E")%bool then
        let '(neg, r') := takeSign r in
        match spanDigits r' with
        | ([], _) => 0%Z
        | (d, _) => if neg then (- digitsValue d)%Z else digitsValue d
        end
      else 0%Z
  | EmptyString => 0%Z
  end.

(** [m * 10 ^ e], correctly rounded. *)
Definition decimalToFloat (neg : bool) (m e : Z) : float :=
  SF2Prim
    match m with
    | Zpos p =>
        if (0 <=? e)%Z then binary_round prec emax neg (p * Z.to_pos (10 ^ e)) 0
        else
          let '(q, e', l) := SFdiv_core_binary prec emax m 0 (10 ^ (- e)) 0 in
          binary_round_aux prec emax neg q e' l
    | _ => S754_zero neg
    end.

Definition parseFloat (s : string) : float :=
  let '(neg, t) := takeSign (trimStart s) in
  if String.prefix "Infinity" t then (if neg then neg_infinity else infinity)
  else
    let '(ip, t1) := spanDigits t in
    let '(fp, t2) :=
      match t1 with
      | String "." r => spanDigits r
      | _ => ([], t1)
      end in
    match ip, fp with
    | [], [] => nan
    | _, _ =>
        decimalToFloat neg (digitsValue (ip ++ fp))
          (exponentPart t2 - Z.of_nat (length fp))
    end.

(** [Math.abs], unary minus, [*] and [/] are the binary64 operations. *)
Definition Math_abs : float → float := PrimFloat.abs.
Definition neg : float → float := PrimFloat.opp.
Definition times : float → float → float := PrimFloat.mul.
Definition divide : float → float → float := PrimFloat.div.

End JS.

(** ** Data model *)

(** Entities of the budgeting backend (the [@typedef]s of
    [actual.service.js]); only the fields the controller reads. *)
Module Account.
Record t := { id : string; name : string; closed : bool }.
End Account.

Module Category.
Record t := { id : string; name : string }.
End Category.

Module Payee.
Record t := { id : string; name : string; transfer_acct : option string }.
End Payee.

(** A category of a budget month, amounts in minor units. *)
Module BudgetCategory.
Record t := { name : string; budgeted : float; spent : float; balance : float }.
End BudgetCategory.

Module CategoryGroup.
Record t := { name : string; is_income : bool; categories : list BudgetCategory.t }.
End CategoryGroup.

(** The object [getBudgetMonth] resolves to, as a map from its array-valued
    property names to their values; reading a property it does not have
    gives [undefined]. *)
Abbreviation BudgetMonth := (gmap string (list CategoryGroup.t)).

(** The budgeting API names the groups of a month [categoryGroups] (the
    property the summary branch of the controller reads). *)
Definition budgetMonthOf (groups : list CategoryGroup.t) : BudgetMonth :=
  {[ "categoryGroups" := groups ]}.

(** [intentZodSchema] *)
Inductive Intent := transaction | question | query_balance.
Inductive TransactionDetail := expense | income | transfer.

(** [transactionZodSchema]; [payee] is [z.string().nullable()]. *)
Record TransactionData := {
  description : string;
  amount : string;
  category : string;
  payee : option string;
  source_account_name : string;
  message_to_user : string }.

(** [balanceQueryZodSchema]; [name] is [z.string().nullable()]. *)
Inductive QueryType := account | budget | summary.
Record QueryData := { query_type : QueryType; name : option string }.

(** The transaction objects handed to [addTransactions]: the union of the
    properties of the three object literals of the controller, [None] for a
    property the literal does not have (for [payee_name], also for [null]). *)
Module Transaction.
Record t := {
  date : string;
  amount : float;
  payee : option string;
  payee_name : option string;
  notes : string;
  category : option string;
  cleared : bool }.
End Transaction.

(** The validated request body: [event] is required, [payload] and its [id]
    are optional. *)
Record Payload := { id : option string; from : string; to : string; body : string }.
Record Request := { event : string; payload : option Payload }.

(** What is thrown: the [ApiError] of the services, a [TypeError] of the
    language, or the rejection of a library call as it is. *)
Inductive Error :=
| ApiError (statusCode : Z) (message : string)
| TypeError (message : string)
| LibraryError (message : string).

(** What the request ends with: the response [res.status(..).send({ status })]
    of the controller, or an error handed to the request-level error
    handler. *)
Inductive Outcome :=
| Sent (statusCode : Z) (status : string)
| Failed (error : Error).

(** ** The outside world *)

(** The answer of a library call: a value, or a rejection with its
    [error.message]. *)
Inductive Reply (A : Type) := Resolved (a : A) | Rejected (message : string).
Arguments Resolved {A} a.
Arguments Rejected {A} message.

Record Env := {
  (** [new Date().toISOString()] *)
  nowISO : string;
  (** [new Intl.NumberFormat('id-ID', { style: 'currency', currency: 'IDR' })
      .format]: symbol, spacing, grouping and fraction digits come from the
      locale data of the runtime *)
  intl_formatCurrency : float → string;
  (** the gateway: [POST /api/sendSeen], [POST /api/sendText] *)
  waha_sendSeen : string → Reply unit;
  waha_sendText : string → option string → Reply unit;
  (** the language model: the parsed JSON of [generateContent] *)
  gemini_intent : string → Reply (Intent * TransactionDetail);
  gemini_transaction : string → list string → list string → Reply TransactionData;
  gemini_balanceQuery : string → list string → list string → Reply QueryData;
  gemini_answer : string → Reply string;
  (** [@actual-app/api] *)
  actual_init : Reply unit;
  actual_downloadBudget : Reply unit;
  actual_shutdown : Reply unit;
  actual_getAccounts : Reply (list Account.t);
  actual_getCategories : Reply (list Category.t);
  actual_getPayees : Reply (list Payee.t);
  actual_getAccountBalance : string → Reply float;
  actual_getBudgetMonth : string → Reply BudgetMonth;
  actual_addTransactions : string → list Transaction.t → bool → Reply (list string) }.

(** The library calls a request issues, in order. *)
Inductive Call :=
| DbFindOne (eventId : string)
| DbCreate (eventId : string)
| WahaSendSeen (chatId : string)
| WahaSendText (chatId : string) (text : option string)
| GeminiIntent (text : string)
| GeminiTransaction (text : string) (accountNames categoryNames : list string)
| GeminiBalanceQuery (text : string) (accountNames categoryNames : list string)
| GeminiAnswer (text : string)
| ActualInit
| ActualDownloadBudget
| ActualShutdown
| ActualGetAccounts
| ActualGetCategories
| ActualGetPayees
| ActualGetAccountBalance (accountId : string)
| ActualGetBudgetMonth (month : string)
| ActualAddTransactions (accountId : string) (transactions : list Transaction.t)
    (runTransfers : bool).

Definition isSendText (c : Call) : bool :=
  match c with WahaSendText _ _ => true | _ => false end.

(** ** State and control *)

Record State := {
  (** the [eventId]s of the [WebhookEvent] collection *)
  events : gset string;
  (** [let isInitialized] of [actual.service.js] *)
  isInitialized : bool;
  (** [let finalResponse] of the running request, [None] for [undefined] *)
  finalResponse : option string;
  (** the library calls issued so far, oldest first *)
  calls : list Call }.

Inductive Completion (A : Type) := Normal (a : A) | Throw (e : Error).
Arguments Normal {A} a.
Arguments Throw {A} e.

Definition M (A : Type) : Type := State → Completion A * State.

Definition ret {A} (a : A) : M A := fun s => (Normal a, s).
Definition throw {A} (e : Error) : M A := fun s => (Throw e, s).

Definition bind {A B} (m : M A) (k : A → M B) : M B :=
  fun s =>
    match m s with
    | (Normal a, s') => k a s'
    | (Throw e, s') => (Throw e, s')
    end.

Declare Scope js_scope.
Delimit Scope js_scope with js.
Notation "'let*' x ':=' c 'in' k" := (bind c (fun x => k))
  (at level 10, x pattern, c at level 100, k at level 200) : js_scope.
Notation "c ';;;' k" := (bind c (fun _ => k))
  (at level 100, k at level 200, right associativity) : js_scope.
Local Open Scope js_scope.

(** Issue a library call: it is logged. *)
Definition call (c : Call) : M unit :=
  fun s => (Normal tt,
            {| events := events s; isInitialized := isInitialized s;
               finalResponse := finalResponse s; calls := calls s ++ [c] |}).

Definition getInitialized : M bool := fun s => (Normal (isInitialized s), s).

Definition setInitialized (b : bool) : M unit :=
  fun s => (Normal tt,
            {| events := events s; isInitialized := b;
               finalResponse := finalResponse s; calls := calls s |}).

(** [finalResponse = v] *)
Definition assign (v : option string) : M unit :=
  fun s => (Normal tt,
            {| events := events s; isInitialized := isInitialized s;
               finalResponse := v; calls := calls s |}).

Definition getFinalResponse : M (option string) :=
  fun s => (Normal (finalResponse s), s).

(** [try { body } catch (error) { handler } finally { finalizer }] *)
Definition tryCatchFinally {A} (body : M A) (handler : Error → M A)
    (finalizer : M unit) : M A :=
  fun s =>
    let '(r, s1) :=
      match body s with
      | (Normal a, s') => (Normal a, s')
      | (Throw e, s') => handler e s'
      end in
    match finalizer s1 with
    | (Normal _, s2) => (r, s2)
    | (Throw e, s2) => (Throw e, s2)
    end.

(** Start an async call without awaiting it: it runs up to its library
    call, and its completion is kept for [Promise.all]. *)
Definition start {A} (m : M A) : M (Completion A) :=
  fun s => let '(r, s') := m s in (Normal r, s').

(** [await Promise.all(promises)]: the values in order; when some promise
    rejected, the rejection of the leftmost one. *)
Fixpoint awaitAll {A} (l : list (Completion A)) : M (list A) :=
  match l with
  | [] => ret []
  | Normal a :: r => let* v := awaitAll r in ret (a :: v)
  | Throw e :: _ => throw e
  end.

Fixpoint startAll {A B} (f : A → M B) (l : list A) : M (list (Completion B)) :=
  match l with
  | [] => ret []
  | x :: r => let* p := start (f x) in let* ps := startAll f r in ret (p :: ps)
  end.

(** ** The idempotency collection ([WebhookEvent]) *)

(** [WebhookEvent.findOne({ eventId })]: is there a record? *)
Definition findOne (eventId : string) : M bool :=
  call (DbFindOne eventId) ;;;
  fun s => (Normal (bool_decide (eventId ∈ events s)), s).

(** [WebhookEvent.create({ eventId })] *)
Definition create (eventId : string) : M unit :=
  call (DbCreate eventId) ;;;
  fun s => (Normal tt,
            {| events := {[ eventId ]} ∪ events s; isInitialized := isInitialized s;
               finalResponse := finalResponse s; calls := calls s |}).

(** ** Services *)

Definition INTERNAL_SERVER_ERROR : Z := 500.
Definition OK : Z := 200.

(** Await a library call; a rejection is rethrown as the [ApiError] whose
    message is [prefix] followed by the rejection's message. *)
Definition awaitOrApiError {A} (r : Reply A) (prefix : string) : M A :=
  match r with
  | Resolved a => ret a
  | Rejected m => throw (ApiError INTERNAL_SERVER_ERROR (prefix ++ m))
  end.

Module wahaService.
Section WithEnv.
Variable env : Env.

Definition sendTextMessage (to : string) (message : option string) : M unit :=
  call (WahaSendText to message) ;;;
  awaitOrApiError (waha_sendText env to message) "WAHA API Error: ".

(** A failure is logged as a warning and swallowed. *)
Definition sendSeen (chatId : string) : M unit :=
  call (WahaSendSeen chatId) ;;;
  match waha_sendSeen env chatId with
  | Resolved _ => ret tt
  | Rejected _ => ret tt
  end.
End WithEnv.
End wahaService.

Module geminiService.
Section WithEnv.
Variable env : Env.

Definition inList (x : string) (l : list string) : bool :=
  existsb (String.eqb x) l.

Definition determineIntent (text : string) : M (Intent * TransactionDetail) :=
  call (GeminiIntent text) ;;;
  awaitOrApiError (gemini_intent env text) "Gemini API Error (determineIntent): ".

(** [category] and [source_account_name] are [z.enum]s of the names
    passed in: a value outside them fails the schema (the text after the
    prefix stands for Zod's message). *)
Definition processTransaction (text : string) (accountNames categoryNames : list string)
    : M TransactionData :=
  call (GeminiTransaction text accountNames categoryNames) ;;;
  let* data := awaitOrApiError (gemini_transaction env text accountNames categoryNames)
                 "Gemini API Error (processTransaction): " in
  if (inList (category data) categoryNames
      && inList (source_account_name data) accountNames)%bool
  then ret data
  else throw (ApiError INTERNAL_SERVER_ERROR
                "Gemini response validation error: Invalid enum value").

Definition processBalanceQuery (text : string) (accountNames categoryNames : list string)
    : M QueryData :=
  call (GeminiBalanceQuery text accountNames categoryNames) ;;;
  awaitOrApiError (gemini_balanceQuery env text accountNames categoryNames)
    "Gemini API Error (processBalanceQuery): ".

Definition getAnswer (text : string) : M string :=
  call (GeminiAnswer text) ;;;
  awaitOrApiError (gemini_answer env text) "Gemini API Error (getAnswer): ".
End WithEnv.
End geminiService.

Module actualService.
Section WithEnv.
Variable env : Env.

Definition init : M unit :=
  let* initialized := getInitialized in
  if initialized then ret tt
  else
    call ActualInit ;;;
    awaitOrApiError (actual_init env) "Actual API Init Error: " ;;;
    call ActualDownloadBudget ;;;
    awaitOrApiError (actual_downloadBudget env) "Actual API Init Error: " ;;;
    setInitialized true.

(** [if (!isInitialized) { await init(); }] *)
Definition ensureInitialized : M unit :=
  let* initialized := getInitialized in
  if initialized then ret tt else init.

Definition addTransactions (accountId : string) (transactions : list Transaction.t)
    : M (list string) :=
  ensureInitialized ;;;
  call (ActualAddTransactions accountId transactions false) ;;;
  awaitOrApiError (actual_addTransactions env accountId transactions false)
    "Actual API Error (addTransactions): ".

Definition getBudgetMonth (date : string) : M BudgetMonth :=
  ensureInitialized ;;;
  call (ActualGetBudgetMonth date) ;;;
  awaitOrApiError (actual_getBudgetMonth env date) "Actual API Error (getBudgetMonth): ".

Definition getAccounts : M (list Account.t) :=
  ensureInitialized ;;;
  call ActualGetAccounts ;;;
  awaitOrApiError (actual_getAccounts env) "Actual API Error (getAccounts): ".

Definition getCategories : M (list Category.t) :=
  ensureInitialized ;;;
  call ActualGetCategories ;;;
  awaitOrApiError (actual_getCategories env) "Actual API Error (getCategories): ".

Definition getPayees : M (list Payee.t) :=
  ensureInitialized ;;;
  call ActualGetPayees ;;;
  awaitOrApiError (actual_getPayees env) "Actual API Error (getPayees): ".

Definition getAccountBalance (accountId : string) : M float :=
  ensureInitialized ;;;
  call (ActualGetAccountBalance accountId) ;;;
  awaitOrApiError (actual_getAccountBalance env accountId)
    "Actual API Error (getAccountBalance): ".

(** A rejection of [actual.shutdown()] is not wrapped, and leaves the flag. *)
Definition shutdown : M unit :=
  call ActualShutdown ;;;
  match actual_shutdown env with
  | Resolved _ => setInitialized false
  | Rejected m => throw (LibraryError m)
  end.
End WithEnv.
End actualService.

(** ** The webhook controller *)

(** A double quote and a line feed, for the template literals. *)
Definition dq : string := String (ascii_of_nat 34) "".
Definition nl : string := String (ascii_of_nat 10) "".

(** [candidates.find((c) => c.name.toLowerCase() === name.toLowerCase())],
    the name comparison the controller repeats inline. *)
Definition resolveByName {A} (nameOf : A → string) (name : string)
    (candidates : list A) : option A :=
  JS.find (fun c => String.eqb (JS.toLowerCase (nameOf c)) (JS.toLowerCase name))
    candidates.

(** [payees.find((p) => p.transfer_acct === accountId)] *)
Definition transferPayeeOf (accountId : string) (payees : list Payee.t)
    : option Payee.t :=
  JS.find (fun p => match Payee.transfer_acct p with
                    | Some a => String.eqb a accountId
                    | None => false
                    end) payees.

Definition await {A} (c : Completion A) : M A :=
  match c with
  | Normal a => ret a
  | Throw e => throw e
  end.

(** The error of [x.toLowerCase()] when [x] is [null], and of
    [x.flatMap(..)], [x.forEach(..)] when [x] is [undefined]. *)
Definition nullToLowerCase : Error :=
  TypeError "Cannot read properties of null (reading 'toLowerCase')".
Definition undefinedFlatMap : Error :=
  TypeError "Cannot read properties of undefined (reading 'flatMap')".
Definition undefinedForEach : Error :=
  TypeError "Cannot read properties of undefined (reading 'forEach')".

Definition accountNotFound (name : string) : string :=
  "Sorry, I couldn't find an account named " ++ dq ++ name ++ dq ++ ".".

Definition destinationNotFound (payee : string) : string :=
  "Sorry, I couldn't find a destination account named " ++ dq ++ payee ++ dq
    ++ " for the transfer.".

Definition transferPayeeNotFound (accountName : string) : string :=
  "Sorry, I couldn't find the internal transfer payee for account " ++ dq
    ++ accountName ++ dq ++ ".".

Definition categoryNotFound (name : string) : string :=
  "Sorry, I couldn't find a category named " ++ dq ++ name ++ dq ++ ".".

Definition budgetCategoryNotFound (name : string) : string :=
  "Sorry, I couldn't find a budget category named " ++ dq ++ name ++ dq ++ ".".

Definition transactionFailure : string :=
  "Sorry, I encountered an error while processing your transaction with Actual Budget.".

Definition balanceFailure : string :=
  "Sorry, I had trouble fetching your balance information.".

(** [const amountInCents = parseFloat(transactionData.amount) * 100] *)
Definition amountInCentsOf (transactionData : TransactionData) : float :=
  JS.times (JS.parseFloat (amount transactionData)) 100.

Definition withdrawalOf (today : string) (amountInCents : float)
    (data : TransactionData) (destinationAccount : Account.t)
    (destinationTransferPayee : Payee.t) : Transaction.t :=
  {| Transaction.date := today;
     Transaction.amount := JS.neg (JS.Math_abs amountInCents);
     Transaction.payee := Some (Payee.id destinationTransferPayee);
     Transaction.payee_name := None;
     Transaction.notes :=
       if JS.truthy (description data) then description data
       else "Transfer to " ++ Account.name destinationAccount;
     Transaction.category := None;
     Transaction.cleared := false |}.

Definition depositOf (today : string) (amountInCents : float)
    (data : TransactionData) (sourceAccount : Account.t)
    (sourceTransferPayee : Payee.t) : Transaction.t :=
  {| Transaction.date := today;
     Transaction.amount := JS.Math_abs amountInCents;
     Transaction.payee := Some (Payee.id sourceTransferPayee);
     Transaction.payee_name := None;
     Transaction.notes :=
       if JS.truthy (description data) then description data
       else "Transfer from " ++ Account.name sourceAccount;
     Transaction.category := None;
     Transaction.cleared := false |}.

Definition newTransactionOf (today : string) (amountInCents : float)
    (transactionDetail : TransactionDetail) (data : TransactionData)
    (resolved : Category.t) : Transaction.t :=
  {| Transaction.date := today;
     Transaction.amount :=
       match transactionDetail with
       | income => JS.Math_abs amountInCents
       | _ => JS.neg (JS.Math_abs amountInCents)
       end;
     Transaction.payee := None;
     Transaction.payee_name := payee data;
     Transaction.notes := description data;
     Transaction.category := Some (Category.id resolved);
     Transaction.cleared := false |}.

Section Controller.
Variable env : Env.

(** [formatIDR]: a number as an IDR currency string; the source comment
    gives [150000 -> Rp 150.000,00]. *)
Definition formatIDR (amount : float) : string := intl_formatCurrency env amount.

(** [new Date().toISOString().split('T')[0]] and [.slice(0, 7)] *)
Definition today : string := JS.splitHead "T" (nowISO env).
Definition thisMonth : string := JS.slice0 7 (nowISO env).

(** Lines 116-184: resolve the names of the extraction and post. In the
    transfer case the callback of [accounts.find] runs at least once (the
    source account was found in [accounts]), so a [null] payee is
    dereferenced. *)
Definition recordTransaction (accounts : list Account.t) (categories : list Category.t)
    (payees : list Payee.t) (transactionDetail : TransactionDetail)
    (transactionData : TransactionData) : M unit :=
  match resolveByName Account.name (source_account_name transactionData) accounts with
  | None => assign (Some (accountNotFound (source_account_name transactionData)))
  | Some sourceAccount =>
      let amountInCents := amountInCentsOf transactionData in
      match transactionDetail with
      | transfer =>
          match payee transactionData with
          | None => throw nullToLowerCase
          | Some destinationName =>
          match resolveByName Account.name destinationName accounts with
          | None => assign (Some (destinationNotFound destinationName))
          | Some destinationAccount =>
              let sourceTransferPayee :=
                transferPayeeOf (Account.id sourceAccount) payees in
              let destinationTransferPayee :=
                transferPayeeOf (Account.id destinationAccount) payees in
              match destinationTransferPayee, sourceTransferPayee with
              | None, _ =>
                  assign (Some (transferPayeeNotFound (Account.name destinationAccount)))
              | Some _, None =>
                  assign (Some (transferPayeeNotFound (Account.name sourceAccount)))
              | Some dtp, Some stp =>
                  let withdrawal :=
                    withdrawalOf today amountInCents transactionData destinationAccount dtp in
                  let deposit :=
                    depositOf today amountInCents transactionData sourceAccount stp in
                  actualService.addTransactions env (Account.id sourceAccount) [withdrawal] ;;;
                  actualService.addTransactions env (Account.id destinationAccount) [deposit] ;;;
                  assign (Some (message_to_user transactionData))
              end
          end
          end
      | _ =>
          match resolveByName Category.name (category transactionData) categories with
          | None => assign (Some (categoryNotFound (category transactionData)))
          | Some resolved =>
              let newTransaction :=
                newTransactionOf today amountInCents transactionDetail transactionData
                  resolved in
              actualService.addTransactions env (Account.id sourceAccount) [newTransaction] ;;;
              assign (Some (message_to_user transactionData))
          end
      end
  end.

(** The [try] block of the [transaction] branch (lines 101-184). *)
Definition transactionTry (userInput : string) (transactionDetail : TransactionDetail)
    : M unit :=
  actualService.init env ;;;
  let* p1 := start (actualService.getAccounts env) in
  let* p2 := start (actualService.getCategories env) in
  let* p3 := start (actualService.getPayees env) in
  let* accounts := await p1 in
  let* categories := await p2 in
  let* payees := await p3 in
  let accountNames := map Account.name accounts in
  let categoryNames := map Category.name categories in
  let* transactionData :=
    geminiService.processTransaction env userInput accountNames categoryNames in
  recordTransaction accounts categories payees transactionDetail transactionData.

(** The [transaction] branch: [try], [catch] (assign the apology, rethrow)
    and [finally] (shut the session down). *)
Definition transactionBranch (userInput : string) (transactionDetail : TransactionDetail)
    : M unit :=
  tryCatchFinally (transactionTry userInput transactionDetail)
    (fun error => assign (Some transactionFailure) ;;; throw error)
    (actualService.shutdown env).

(** One line of the balance reply. *)
Definition balanceLine (acc : Account.t) (balance : float) : string :=
  "*" ++ Account.name acc ++ ":* " ++ formatIDR (JS.divide balance 100).

(** The callback of [accounts.map] in the all-accounts reply: [null] for a
    closed account. *)
Definition balancePromise (acc : Account.t) : M (option string) :=
  if negb (Account.closed acc) then
    let* balance := actualService.getAccountBalance env (Account.id acc) in
    ret (Some (balanceLine acc balance))
  else ret None.

(** [.filter(Boolean)] on strings and [null]s. *)
Definition filterBoolean (l : list (option string)) : list string :=
  omap (fun x => match x with
                 | Some s => if JS.truthy s then Some s else None
                 | None => None
                 end) l.

Definition budgetReply (c : BudgetCategory.t) : string :=
  let budgeted := formatIDR (JS.divide (BudgetCategory.budgeted c) 100) in
  let spent := formatIDR (JS.Math_abs (JS.divide (BudgetCategory.spent c) 100)) in
  let balance := formatIDR (JS.divide (BudgetCategory.balance c) 100) in
  "*📊 Budget for " ++ BudgetCategory.name c ++ ":*" ++ nl
    ++ "- *Budgeted:* " ++ budgeted ++ nl
    ++ "- *Spent:* " ++ spent ++ nl
    ++ "- *Remaining:* " ++ balance.

Definition summaryParts (groups : list CategoryGroup.t) : list string :=
  "*📊 Monthly Budget Summary:*"
  :: flat_map (fun group =>
       if negb (CategoryGroup.is_income group) then
         (nl ++ "*" ++ CategoryGroup.name group ++ "*")
         :: map (fun c => "- " ++ BudgetCategory.name c ++ ": "
                            ++ formatIDR (JS.divide (BudgetCategory.balance c) 100))
              (CategoryGroup.categories group)
       else []) groups.

(** [queryData.name && queryData.name.toLowerCase() !== 'all'] *)
Definition namesOneCategory (data : QueryData) : option string :=
  match name data with
  | Some n =>
      if (JS.truthy n && negb (String.eqb (JS.toLowerCase n) "all"))%bool
      then Some n else None
  | None => None
  end.

(** Lines 204-263: answer the extracted query. *)
Definition answerQuery (accounts : list Account.t) (queryData : QueryData) : M unit :=
  match query_type queryData with
  | account =>
      match name queryData with
      | None => throw nullToLowerCase
      | Some queried =>
          if String.eqb (JS.toLowerCase queried) "all" then
            let* balancePromises := startAll balancePromise accounts in
            let* settled := awaitAll balancePromises in
            let balanceLines := filterBoolean settled in
            assign (Some (JS.join nl ("*🏦 All Account Balances:*" :: balanceLines)))
          else
            match resolveByName Account.name queried accounts with
            | Some found =>
                let* balance :=
                  actualService.getAccountBalance env (Account.id found) in
                assign (Some (JS.join nl ["*🏦 Account Balance:*";
                                          balanceLine found balance]))
            | None => assign (Some (JS.join nl [accountNotFound queried]))
            end
      end
  | _ =>
      let* budgetData := actualService.getBudgetMonth env thisMonth in
      match namesOneCategory queryData with
      | Some queried =>
          match budgetData !! "categorGroups" with
          | None => throw undefinedFlatMap
          | Some groups =>
              match resolveByName BudgetCategory.name queried
                      (flat_map CategoryGroup.categories groups) with
              | Some found => assign (Some (budgetReply found))
              | None => assign (Some (budgetCategoryNotFound queried))
              end
          end
      | None =>
          match budgetData !! "categoryGroups" with
          | None => throw undefinedForEach
          | Some groups => assign (Some (JS.join nl (summaryParts groups)))
          end
      end
  end.

(** The [try] block of the [query_balance] branch (lines 195-263). *)
Definition queryTry (userInput : string) : M unit :=
  actualService.init env ;;;
  let* p1 := start (actualService.getAccounts env) in
  let* p2 := start (actualService.getCategories env) in
  let* accounts := await p1 in
  let* categories := await p2 in
  let accountNames := map Account.name accounts in
  let categoryNames := map Category.name categories in
  let* queryData :=
    geminiService.processBalanceQuery env userInput accountNames categoryNames in
  answerQuery accounts queryData.

Definition queryBranch (userInput : string) : M unit :=
  tryCatchFinally (queryTry userInput)
    (fun error => assign (Some balanceFailure) ;;; throw error)
    (actualService.shutdown env).

(** [req.body.event === 'message' && req.body.payload && req.body.payload.id]:
    the payload and its id when the condition holds. *)
Definition messageEvent (req : Request) : option (string * Payload) :=
  if String.eqb (event req) "message" then
    match payload req with
    | Some messagePayload =>
        match id messagePayload with
        | Some eventId =>
            if JS.truthy eventId then Some (eventId, messagePayload) else None
        | None => None
        end
    | None => None
    end
  else None.

(** Lines 98-275: the branch of the classified intent. *)
Definition dispatch (userInput : string) (intent : Intent)
    (transactionDetail : TransactionDetail) : M unit :=
  match intent with
  | transaction => transactionBranch userInput transactionDetail
  | query_balance => queryBranch userInput
  | question =>
      let* answer := geminiService.getAnswer env userInput in
      assign (Some answer)
  end.

(** What follows the idempotency check: acknowledge, classify, run the
    branch of the intent, deliver [finalResponse]. *)
Definition processMessage (messagePayload : Payload) : M unit :=
  wahaService.sendSeen env (from messagePayload) ;;;
  let userInput := body messagePayload in
  let* (intent, transactionDetail) := geminiService.determineIntent env userInput in
  assign None ;;;
  dispatch userInput intent transactionDetail ;;;
  let* reply := getFinalResponse in
  wahaService.sendTextMessage env (from messagePayload) reply.

(** The async function given to [catchAsync]. *)
Definition handler (req : Request) : M Outcome :=
  match messageEvent req with
  | Some (eventId, messagePayload) =>
      let* existingEvent := findOne eventId in
      if existingEvent then ret (Sent OK "duplicate_ignored")
      else
        create eventId ;;;
        processMessage messagePayload ;;;
        ret (Sent OK "received")
  | None => ret (Sent OK "received")
  end.

(** Modelled from the spec: [catchAsync] of [utils/catchAsync], which is
    not among the sources; an error the function raises is passed to the
    request-level error handler and the request is reported as failed. *)
Definition catchAsync (fn : Request → M Outcome) (req : Request) (s : State)
    : Outcome * State :=
  match fn req s with
  | (Normal o, s') => (o, s')
  | (Throw e, s') => (Failed e, s')
  end.

Definition handleWebhook : Request → State → Outcome * State := catchAsync handler.

End Controller.

(** ** Observations on a run *)

(** The [addTransactions] calls of a log: account and transactions. *)
Definition posted (cs : list Call) : list (string * list Transaction.t) :=
  omap (fun c => match c with
                 | ActualAddTransactions a ts _ => Some (a, ts)
                 | _ => None
                 end) cs.

(** The text messages of a log: chat and text. *)
Definition textsSent (cs : list Call) : list (string * option string) :=
  omap (fun c => match c with
                 | WahaSendText chat text => Some (chat, text)
                 | _ => None
                 end) cs.

(** The balance requests of a log: the accounts asked about. *)
Definition balancesAsked (cs : list Call) : list string :=
  omap (fun c => match c with
                 | ActualGetAccountBalance a => Some a
                 | _ => None
                 end) cs.

(** [s] with the calls [cs] issued after those it has. *)
Definition logged (cs : list Call) (s : State) : State :=
  {| events := events s; isInitialized := isInitialized s;
     finalResponse := finalResponse s; calls := calls s ++ cs |}.

(** The state once a new event is recorded. *)
Definition recorded (eventId : string) (s : State) : State :=
  {| events := {[ eventId ]} ∪ events s; isInitialized := isInitialized s;
     finalResponse := finalResponse s;
     calls := calls s ++ [DbFindOne eventId; DbCreate eventId] |}.

(** The state in which the branch of the intent starts: the event is
    recorded, the chat marked as seen, the intent asked for, and
    [finalResponse] declared. *)
Definition classified (eventId : string) (messagePayload : Payload) (s : State) : State :=
  {| events := {[ eventId ]} ∪ events s; isInitialized := isInitialized s;
     finalResponse := None;
     calls := calls s ++ [DbFindOne eventId; DbCreate eventId;
                          WahaSendSeen (from messagePayload);
                          GeminiIntent (body messagePayload)] |}.

(** The calls of [actualService.init] in state [s]. *)
Definition initCalls (s : State) : list Call :=
  if isInitialized s then [] else [ActualInit; ActualDownloadBudget].

(** No record of the collection has a falsy [eventId]. *)
Definition storeOk (s : State) : Prop := "" ∉ events s.

(** The budgeting server accepts the session and lists its accounts and
    categories. *)
Definition lists (env : Env) (accounts : list Account.t) (categories : list Category.t)
    : Prop :=
  actual_init env = Resolved tt ∧ actual_downloadBudget env = Resolved tt
  ∧ actual_getAccounts env = Resolved accounts
  ∧ actual_getCategories env = Resolved categories.

(** It lists its payees as well. *)
Definition serves (env : Env) (accounts : list Account.t) (categories : list Category.t)
    (payees : list Payee.t) : Prop :=
  lists env accounts categories ∧ actual_getPayees env = Resolved payees.

(** The query [data] comes back for [text]. *)
Definition queries (env : Env) (text : string) (accounts : list Account.t)
    (categories : list Category.t) (data : QueryData) : Prop :=
  gemini_balanceQuery env text (map Account.name accounts) (map Category.name categories)
    = Resolved data.

(** The lines of the all-accounts reply: one per open account, with its
    name and its balance in major units as the runtime formats it. *)
Definition openAccountLines (env : Env) (balances : string → float)
    (accounts : list Account.t) : list string :=
  map (fun acc => "*" ++ Account.name acc ++ ":* "
                    ++ intl_formatCurrency env (balances (Account.id acc) / 100)%float)
    (List.filter (fun acc => negb (Account.closed acc)) accounts).

(** ASCII text, and its lowercase: 32 is added to the bytes of [A-Z] and
    to no other. *)
Definition isAscii (s : string) : Prop :=
  Forall (fun b => (N_of_ascii b < 128)%N) (list_ascii_of_string s).

Definition lowerLatin (b : ascii) : ascii :=
  let n := N_of_ascii b in
  if ((65 <=? n) && (n <=? 90))%N then ascii_of_N (n + 32) else b.

(** A text of several lines: a line feed before each line but the first. *)
Definition lineFeed : string := String "010"%char "".

Definition linesOf (first : string) (rest : list string) : string :=
  first ++ fold_right (fun line text => String "010"%char (line ++ text)) "" rest.

(** [name] between double quotes, and what follows it. *)
Definition quoted (name rest : string) : string :=
  String "034"%char (name ++ String "034"%char rest).

(** The extraction [data] comes back for [text] and passes its schema. *)
Definition extracts (env : Env) (text : string) (accounts : list Account.t)
    (categories : list Category.t) (data : TransactionData) : Prop :=
  gemini_transaction env text (map Account.name accounts) (map Category.name categories)
    = Resolved data
  ∧ geminiService.inList (category data) (map Category.name categories) = true
  ∧ geminiService.inList (source_account_name data) (map Account.name accounts) = true.

(** The state in which [recordTransaction] starts: the session is open, the
    entities were fetched and the extraction asked for. *)
Definition extracted (text : string) (accounts : list Account.t)
    (categories : list Category.t) (s : State) : State :=
  {| events := events s; isInitialized := true; finalResponse := finalResponse s;
     calls := calls s ++ initCalls s
                ++ [ActualGetAccounts; ActualGetCategories; ActualGetPayees;
                    GeminiTransaction text (map Account.name accounts)
                      (map Category.name categories)] |}.

(** The state in which [answerQuery] starts. *)
Definition asked (text : string) (accounts : list Account.t)
    (categories : list Category.t) (s : State) : State :=
  {| events := events s; isInitialized := true; finalResponse := finalResponse s;
     calls := calls s ++ initCalls s
                ++ [ActualGetAccounts; ActualGetCategories;
                    GeminiBalanceQuery text (map Account.name accounts)
                      (map Category.name categories)] |}.

(** [s'] has the events of [s] and, among the calls that satisfy [P], the
    calls of [s]. *)
Definition same (P : Call → bool) (s s' : State) : Prop :=
  events s' = events s ∧ filter P (calls s') = filter P (calls s).

(** A computation that records no event and issues no call that
    satisfies [P]. *)
Definition keeps (P : Call → bool) {A} (m : M A) : Prop :=
  ∀ s, same P s (snd (m s)).

(** ** Sample data *)
Module Sample.
Definition cash := {| Account.id := "a1"; Account.name := "Cash"; Account.closed := false |}.
Definition gopay := {| Account.id := "a2"; Account.name := "Gopay"; Account.closed := false |}.
Definition old := {| Account.id := "a3"; Account.name := "Old"; Account.closed := true |}.
Definition accounts := [cash; gopay; old].

Definition food := {| Category.id := "c1"; Category.name := "Food & Drink" |}.
Definition groceries := {| Category.id := "c2"; Category.name := "Groceries" |}.
Definition categories := [food; groceries].

Definition cashTransfer :=
  {| Payee.id := "p1"; Payee.name := ""; Payee.transfer_acct := Some "a1" |}.
Definition gopayTransfer :=
  {| Payee.id := "p2"; Payee.name := ""; Payee.transfer_acct := Some "a2" |}.
Definition warung :=
  {| Payee.id := "p3"; Payee.name := "Warung"; Payee.transfer_acct := None |}.

Definition foodBudget :=
  {| BudgetCategory.name := "Food & Drink"; BudgetCategory.budgeted := 200000000;
     BudgetCategory.spent := (-1000000); BudgetCategory.balance := 199000000 |}.
Definition usual :=
  {| CategoryGroup.name := "Usual"; CategoryGroup.is_income := false;
     CategoryGroup.categories := [foodBudget] |}.

Definition balanceOf (accountId : string) : float :=
  if String.eqb accountId "a1" then 15000000 else (-250050).

(** [U+00A0], the no-break space. *)
Definition nbsp : string := String "194"%char (String "160"%char "").

(** The formatter of a runtime with current locale data, at the amounts of
    the samples: the symbol, a no-break space, dots between the thousands
    and two fraction digits after a comma. No other amount is formatted
    in a sample; they all get the text of [NaN]. *)
Definition rupiah (amount : float) : string :=
  if (amount =? 150000)%float then "Rp" ++ nbsp ++ "150.000,00"
  else if (amount =? -2500.5)%float then "-Rp" ++ nbsp ++ "2.500,50"
  else if (amount =? 1990000)%float then "Rp" ++ nbsp ++ "1.990.000,00"
  else "Rp" ++ nbsp ++ "NaN".

(** The formatter of a runtime whose locale data give the rupiah no
    fraction digits, at the one amount it is asked for. *)
Definition wholeRupiah (amount : float) : string :=
  if (amount =? 150000)%float then "Rp" ++ nbsp ++ "150.000"
  else "Rp" ++ nbsp ++ "NaN".

(** A world in which every library call resolves. *)
Definition world (classification : Intent * TransactionDetail) (payees : list Payee.t)
    (data : TransactionData) (query : QueryData) : Env :=
  {| nowISO := "2025-01-15T10:20:30.000Z";
     intl_formatCurrency := rupiah;
     waha_sendSeen := fun _ => Resolved tt;
     waha_sendText := fun _ _ => Resolved tt;
     gemini_intent := fun _ => Resolved classification;
     gemini_transaction := fun _ _ _ => Resolved data;
     gemini_balanceQuery := fun _ _ _ => Resolved query;
     gemini_answer := fun _ => Resolved "It is a budgeting assistant.";
     actual_init := Resolved tt;
     actual_downloadBudget := Resolved tt;
     actual_shutdown := Resolved tt;
     actual_getAccounts := Resolved accounts;
     actual_getCategories := Resolved categories;
     actual_getPayees := Resolved payees;
     actual_getAccountBalance := fun i => Resolved (balanceOf i);
     actual_getBudgetMonth := fun _ => Resolved (budgetMonthOf [usual]);
     actual_addTransactions := fun _ _ _ => Resolved [] |}.

(** The same world with a budgeting server that cannot be reached. *)
Definition unreachable (w : Env) : Env :=
  {| nowISO := nowISO w;
     intl_formatCurrency := intl_formatCurrency w;
     waha_sendSeen := waha_sendSeen w;
     waha_sendText := waha_sendText w;
     gemini_intent := gemini_intent w;
     gemini_transaction := gemini_transaction w;
     gemini_balanceQuery := gemini_balanceQuery w;
     gemini_answer := gemini_answer w;
     actual_init := Rejected "connect ECONNREFUSED";
     actual_downloadBudget := actual_downloadBudget w;
     actual_shutdown := actual_shutdown w;
     actual_getAccounts := actual_getAccounts w;
     actual_getCategories := actual_getCategories w;
     actual_getPayees := actual_getPayees w;
     actual_getAccountBalance := actual_getAccountBalance w;
     actual_getBudgetMonth := actual_getBudgetMonth w;
     actual_addTransactions := actual_addTransactions w |}.

(** The same world with a language model that does not answer. *)
Definition speechless (w : Env) : Env :=
  {| nowISO := nowISO w;
     intl_formatCurrency := intl_formatCurrency w;
     waha_sendSeen := waha_sendSeen w;
     waha_sendText := waha_sendText w;
     gemini_intent := fun _ => Rejected "503 Service Unavailable";
     gemini_transaction := gemini_transaction w;
     gemini_balanceQuery := gemini_balanceQuery w;
     gemini_answer := gemini_answer w;
     actual_init := actual_init w;
     actual_downloadBudget := actual_downloadBudget w;
     actual_shutdown := actual_shutdown w;
     actual_getAccounts := actual_getAccounts w;
     actual_getCategories := actual_getCategories w;
     actual_getPayees := actual_getPayees w;
     actual_getAccountBalance := actual_getAccountBalance w;
     actual_getBudgetMonth := actual_getBudgetMonth w;
     actual_addTransactions := actual_addTransactions w |}.

(** The same world with a budgeting session that cannot be closed. *)
Definition stuck (w : Env) : Env :=
  {| nowISO := nowISO w;
     intl_formatCurrency := intl_formatCurrency w;
     waha_sendSeen := waha_sendSeen w;
     waha_sendText := waha_sendText w;
     gemini_intent := gemini_intent w;
     gemini_transaction := gemini_transaction w;
     gemini_balanceQuery := gemini_balanceQuery w;
     gemini_answer := gemini_answer w;
     actual_init := actual_init w;
     actual_downloadBudget := actual_downloadBudget w;
     actual_shutdown := Rejected "budget file is locked";
     actual_getAccounts := actual_getAccounts w;
     actual_getCategories := actual_getCategories w;
     actual_getPayees := actual_getPayees w;
     actual_getAccountBalance := actual_getAccountBalance w;
     actual_getBudgetMonth := actual_getBudgetMonth w;
     actual_addTransactions := actual_addTransactions w |}.

(** The same world with a budgeting server that rejects every posting. *)
Definition readOnly (w : Env) : Env :=
  {| nowISO := nowISO w;
     intl_formatCurrency := intl_formatCurrency w;
     waha_sendSeen := waha_sendSeen w;
     waha_sendText := waha_sendText w;
     gemini_intent := gemini_intent w;
     gemini_transaction := gemini_transaction w;
     gemini_balanceQuery := gemini_balanceQuery w;
     gemini_answer := gemini_answer w;
     actual_init := actual_init w;
     actual_downloadBudget := actual_downloadBudget w;
     actual_shutdown := actual_shutdown w;
     actual_getAccounts := actual_getAccounts w;
     actual_getCategories := actual_getCategories w;
     actual_getPayees := actual_getPayees w;
     actual_getAccountBalance := actual_getAccountBalance w;
     actual_getBudgetMonth := actual_getBudgetMonth w;
     actual_addTransactions := fun _ _ _ => Rejected "budget is read-only" |}.

(** The same world with other answers to the balance requests and another
    formatter. *)
Definition withBalances (balances : string → Reply float) (format : float → string)
    (w : Env) : Env :=
  {| nowISO := nowISO w;
     intl_formatCurrency := format;
     waha_sendSeen := waha_sendSeen w;
     waha_sendText := waha_sendText w;
     gemini_intent := gemini_intent w;
     gemini_transaction := gemini_transaction w;
     gemini_balanceQuery := gemini_balanceQuery w;
     gemini_answer := gemini_answer w;
     actual_init := actual_init w;
     actual_downloadBudget := actual_downloadBudget w;
     actual_shutdown := actual_shutdown w;
     actual_getAccounts := actual_getAccounts w;
     actual_getCategories := actual_getCategories w;
     actual_getPayees := actual_getPayees w;
     actual_getAccountBalance := balances;
     actual_getBudgetMonth := actual_getBudgetMonth w;
     actual_addTransactions := actual_addTransactions w |}.

Definition coffee (amountText : string) (payeeName : option string) : TransactionData :=
  {| description := "kopi"; amount := amountText; category := "Food & Drink";
     payee := payeeName; source_account_name := "Cash";
     message_to_user := "Recorded." |}.

(** Worlds for the transaction branch: a transfer from Cash to Gopay, the
    same transfer when Gopay has no transfer payee, an income, an expense
    whose amount the model wrote with a minus sign, a transfer with no
    payee, and an expense while the budgeting server is down. *)
Definition transferWorld : Env :=
  world (transaction, transfer) [cashTransfer; gopayTransfer; warung]
    (coffee "20000" (Some "gopay")) {| query_type := account; name := None |}.
Definition missingPayeeWorld : Env :=
  world (transaction, transfer) [cashTransfer; warung]
    (coffee "20000" (Some "gopay")) {| query_type := account; name := None |}.

(** The same transfer when no account has a transfer payee, when Cash has
    none, and a transfer to an account the budget does not have. *)
Definition noTransferPayeeWorld : Env :=
  world (transaction, transfer) [warung]
    (coffee "20000" (Some "gopay")) {| query_type := account; name := None |}.
Definition missingSourcePayeeWorld : Env :=
  world (transaction, transfer) [gopayTransfer; warung]
    (coffee "20000" (Some "gopay")) {| query_type := account; name := None |}.
Definition unknownDestinationWorld : Env :=
  world (transaction, transfer) [cashTransfer; gopayTransfer; warung]
    (coffee "20000" (Some "Dana")) {| query_type := account; name := None |}.

(** A transfer that the model extracted with a minus sign, no description
    and the destination in capitals. *)
Definition unnamedTransfer : TransactionData :=
  {| description := ""; amount := "-20000"; category := "Food & Drink";
     payee := Some "GOPAY"; source_account_name := "Cash";
     message_to_user := "Moved." |}.
Definition minusTransferWorld : Env :=
  world (transaction, transfer) [cashTransfer; gopayTransfer; warung]
    unnamedTransfer {| query_type := account; name := None |}.
Definition incomeWorld : Env :=
  world (transaction, income) [warung]
    (coffee "5000000" (Some "Kantor")) {| query_type := account; name := None |}.
Definition minusWorld : Env :=
  world (transaction, expense) [warung]
    (coffee "-20000" (Some "Warung")) {| query_type := account; name := None |}.
Definition nullPayeeWorld : Env :=
  world (transaction, transfer) [cashTransfer; gopayTransfer]
    (coffee "20000" None) {| query_type := account; name := None |}.
Definition downWorld : Env :=
  unreachable (world (transaction, expense) [warung]
                 (coffee "20000" (Some "Warung"))
                 {| query_type := account; name := None |}).

Definition modelDownWorld : Env :=
  speechless (world (question, expense) [warung] (coffee "1" None)
                {| query_type := account; name := None |}).

Definition allAccounts : QueryData := {| query_type := account; name := Some "ALL" |}.
Definition foodQuery : QueryData := {| query_type := budget; name := Some "food & drink" |}.

(** Worlds for the balance branch: all balances, and the budget of one
    category. *)
Definition balanceWorld : Env :=
  world (query_balance, expense) [warung] (coffee "1" None) allAccounts.
Definition budgetWorld : Env :=
  world (query_balance, expense) [warung] (coffee "1" None) foodQuery.

(** All balances, when the server does not know the account Gopay, and
    when both open accounts hold 150000 rupiah and the runtime prints the
    rupiah without fraction digits. *)
Definition lostBalanceWorld : Env :=
  withBalances (fun accountId => if String.eqb accountId "a1" then Resolved 15000000%float
                                 else Rejected "No such account")
    rupiah balanceWorld.
Definition wholeRupiahWorld : Env :=
  withBalances (fun _ => Resolved 15000000%float) wholeRupiah balanceWorld.

Definition messagePayload : Payload :=
  {| id := Some "evt-1"; from := "628@c.us"; to := "bot@c.us"; body := "Beli kopi 20k dari Cash" |}.
Definition message : Request := {| event := "message"; payload := Some messagePayload |}.
Definition status : Request := {| event := "session.status"; payload := None |}.

Definition empty : State :=
  {| events := ∅; isInitialized := false; finalResponse := None; calls := [] |}.
Definition seen : State :=
  {| events := {[ "evt-1" ]}; isInitialized := false; finalResponse := None;
     calls := [] |}.
End Sample.

(** ** Further observations and scenarios *)

(** A computation that raises nothing but the [ApiError] with the status
    500. *)
Definition raisesApiError {A} (m : M A) : Prop :=
  ∀ s e s', m s = (Throw e, s') → ∃ message, e = ApiError 500 message.

(** [env] with another gateway answer to [POST /api/sendSeen]. *)
Definition withSendSeen (answer : string → Reply unit) (env : Env) : Env :=
  {| nowISO := nowISO env;
     intl_formatCurrency := intl_formatCurrency env;
     waha_sendSeen := answer;
     waha_sendText := waha_sendText env;
     gemini_intent := gemini_intent env;
     gemini_transaction := gemini_transaction env;
     gemini_balanceQuery := gemini_balanceQuery env;
     gemini_answer := gemini_answer env;
     actual_init := actual_init env;
     actual_downloadBudget := actual_downloadBudget env;
     actual_shutdown := actual_shutdown env;
     actual_getAccounts := actual_getAccounts env;
     actual_getCategories := actual_getCategories env;
     actual_getPayees := actual_getPayees env;
     actual_getAccountBalance := actual_getAccountBalance env;
     actual_getBudgetMonth := actual_getBudgetMonth env;
     actual_addTransactions := actual_addTransactions env |}.

(** [env] with another answer to [getBudgetMonth]. *)
Definition withBudgetMonth (answer : string → Reply BudgetMonth) (env : Env) : Env :=
  {| nowISO := nowISO env;
     intl_formatCurrency := intl_formatCurrency env;
     waha_sendSeen := waha_sendSeen env;
     waha_sendText := waha_sendText env;
     gemini_intent := gemini_intent env;
     gemini_transaction := gemini_transaction env;
     gemini_balanceQuery := gemini_balanceQuery env;
     gemini_answer := gemini_answer env;
     actual_init := actual_init env;
     actual_downloadBudget := actual_downloadBudget env;
     actual_shutdown := actual_shutdown env;
     actual_getAccounts := actual_getAccounts env;
     actual_getCategories := actual_getCategories env;
     actual_getPayees := actual_getPayees env;
     actual_getAccountBalance := actual_getAccountBalance env;
     actual_getBudgetMonth := answer;
     actual_addTransactions := actual_addTransactions env |}.

Definition isAddTransactions (c : Call) : bool :=
  match c with ActualAddTransactions _ _ _ => true | _ => false end.

(** ** The first revision of the controller and of the language-model
    service

    [handleWebhook] before the budgeting integration (the first part of the
    controller file) with the [geminiService] it was written against
    ([src/services/gemini.service.js]): two intents, an extraction checked
    against fixed category and account names, no budgeting backend. *)
Module Legacy.

(** [intentZodSchema] *)
Inductive Intent := transaction | question.

(** [transactionZodSchema]; [source_account_name] is nullable. *)
Record TransactionData := {
  description : string;
  amount : string;
  category : string;
  source_account_name : option string;
  message_to_user : string }.

Definition categoryNames : list string :=
  ["Food & Drink"; "Transportation"; "Shopping"; "Bills"; "Entertainment"; "Other"].

Definition accountNames : list string := ["Payroll"; "Gopay"; "Cash"; "Other"].

Record Env := {
  waha_sendSeen : string → Reply unit;
  waha_sendText : string → option string → Reply unit;
  gemini_intent : string → Reply Intent;
  gemini_transaction : string → Reply TransactionData;
  gemini_answer : string → Reply string }.

Section WithEnv.
Variable env : Env.

Definition sendTextMessage (to : string) (message : option string) : M unit :=
  call (WahaSendText to message) ;;;
  awaitOrApiError (waha_sendText env to message) "WAHA API Error: ".

Definition sendSeen (chatId : string) : M unit :=
  call (WahaSendSeen chatId) ;;;
  match waha_sendSeen env chatId with
  | Resolved _ => ret tt
  | Rejected _ => ret tt
  end.

Definition determineIntent (text : string) : M Intent :=
  call (GeminiIntent text) ;;;
  awaitOrApiError (gemini_intent env text) "Gemini API Error (determineIntent): ".

(** The schema admits the six categories, and [null] or one of the four
    accounts. *)
Definition passesSchema (data : TransactionData) : bool :=
  (geminiService.inList (category data) categoryNames
   && match source_account_name data with
      | Some n => geminiService.inList n accountNames
      | None => true
      end)%bool.

(** The call is logged with the names of the schema. *)
Definition processTransaction (text : string) : M TransactionData :=
  call (GeminiTransaction text accountNames categoryNames) ;;;
  let* data := awaitOrApiError (gemini_transaction env text)
                 "Gemini API Error (processTransaction): " in
  if passesSchema data then ret data
  else throw (ApiError INTERNAL_SERVER_ERROR
                "Gemini response validation error: Invalid enum value").

Definition getAnswer (text : string) : M string :=
  call (GeminiAnswer text) ;;;
  awaitOrApiError (gemini_answer env text) "Gemini API Error (getAnswer): ".

(** The async function of the first [handleWebhook]. *)
Definition handler (req : Request) : M Outcome :=
  match messageEvent req with
  | Some (eventId, messagePayload) =>
      let* existingEvent := findOne eventId in
      if existingEvent then ret (Sent OK "duplicate_ignored")
      else
        create eventId ;;;
        sendSeen (from messagePayload) ;;;
        let userInput := body messagePayload in
        let* intent := determineIntent userInput in
        assign None ;;;
        match intent with
        | transaction =>
            let* transactionData := processTransaction userInput in
            assign (Some (message_to_user transactionData))
        | question =>
            let* answer := getAnswer userInput in
            assign (Some answer)
        end ;;;
        let* reply := getFinalResponse in
        sendTextMessage (from messagePayload) reply ;;;
        ret (Sent OK "received")
  | None => ret (Sent OK "received")
  end.

Definition handleWebhook : Request → State → Outcome * State := catchAsync handler.

End WithEnv.
End Legacy.

(** Further sample data. *)
Module Scenario.
(** "Bayar token listrik dari Cash", extracted with a category the budget
    does not have. *)
Definition token : TransactionData :=
  {| description := "token listrik"; amount := "100000"; category := "Electricity";
     payee := Some "PLN"; source_account_name := "Cash";
     message_to_user := "Recorded." |}.

Definition noQuery : QueryData := {| query_type := account; name := None |}.

Definition unlistedWorld : Env :=
  Sample.world (transaction, expense) [Sample.warung] token noQuery.
Definition oneAccountWorld : Env :=
  Sample.world (query_balance, expense) [Sample.warung] (Sample.coffee "1" None)
    {| query_type := account; name := Some "gopay" |}.
Definition noNameWorld : Env :=
  Sample.world (query_balance, expense) [Sample.warung] (Sample.coffee "1" None) noQuery.
Definition queryDownWorld : Env := Sample.unreachable oneAccountWorld.
Definition questionWorld : Env :=
  Sample.world (question, expense) [Sample.warung] (Sample.coffee "1" None) noQuery.

Definition salary : CategoryGroup.t :=
  {| CategoryGroup.name := "Income"; CategoryGroup.is_income := true;
     CategoryGroup.categories :=
       [{| BudgetCategory.name := "Salary"; BudgetCategory.budgeted := 0;
           BudgetCategory.spent := 0; BudgetCategory.balance := 500000000 |}] |}.

Definition summaryWorld : Env :=
  withBudgetMonth (fun _ => Resolved (budgetMonthOf [salary; Sample.usual]))
    (Sample.world (query_balance, expense) [Sample.warung] (Sample.coffee "1" None)
       {| query_type := summary; name := Some "All" |}).

Definition oldData (categoryName : string) : Legacy.TransactionData :=
  {| Legacy.description := "kopi"; Legacy.amount := "20000";
     Legacy.category := categoryName; Legacy.source_account_name := None;
     Legacy.message_to_user := "Recorded." |}.

Definition oldWorld (intent : Legacy.Intent) (categoryName : string) : Legacy.Env :=
  {| Legacy.waha_sendSeen := fun _ => Resolved tt;
     Legacy.waha_sendText := fun _ _ => Resolved tt;
     Legacy.gemini_intent := fun _ => Resolved intent;
     Legacy.gemini_transaction := fun _ => Resolved (oldData categoryName);
     Legacy.gemini_answer := fun _ => Resolved "It is a budgeting assistant." |}.
End Scenario.

(** * Properties *)

(** ** Name resolution *)

Lemma find_Some_inv {A} (p : A → bool) l x :
  JS.find p l = Some x → x ∈ l ∧ p x = true.
Proof.
  induction l as [|y l IH]; simpl; [discriminate|].
  destruct (p y) eqn:Hp.
  - intros [= <-]. split; [left|done].
  - intros H. destruct (IH H). split; [by right|done].
Qed.

Lemma find_None_iff {A} (p : A → bool) l :
  JS.find p l = None ↔ ∀ x, x ∈ l → p x = false.
Proof.
  induction l as [|y l IH]; simpl.
  - split; [intros _ x Hx; inversion Hx|done].
  - destruct (p y) eqn:Hp.
    + split; [discriminate|]. intros H. rewrite (H y) in Hp; [discriminate|left].
    + rewrite IH. split.
      * intros H x Hx. inversion Hx; subst; auto.
      * intros H x Hx. apply H. by right.
Qed.

Lemma find_is_Some {A} (p : A → bool) l :
  is_Some (JS.find p l) ↔ ∃ x, x ∈ l ∧ p x = true.
Proof.
  split.
  - intros [x Hx]. exists x. by apply find_Some_inv.
  - intros (x & Hx & Hp). destruct (JS.find p l) eqn:Hf; [by eexists|].
    rewrite find_None_iff in Hf. rewrite (Hf x Hx) in Hp. discriminate.
Qed.

Lemma resolveByName_is_Some {A} (nameOf : A → string) name candidates :
  is_Some (resolveByName nameOf name candidates)
  ↔ ∃ c, c ∈ candidates ∧ JS.toLowerCase (nameOf c) = JS.toLowerCase name.
Proof.
  unfold resolveByName. rewrite find_is_Some. by setoid_rewrite String.eqb_eq.
Qed.

(** What [find] returns is the first element that satisfies [p]. *)
Lemma find_first {A} (p : A → bool) l x :
  JS.find p l = Some x
  → ∃ before after, l = (before ++ x :: after)%list ∧ p x = true
                    ∧ ∀ y, y ∈ before → p y = false.
Proof.
  induction l as [|y l IH]; simpl; [discriminate|].
  destruct (p y) eqn:Hp.
  - intros [= <-]. exists [], l. split; [done|]. split; [done|].
    intros z Hz. inversion Hz.
  - intros H. destruct (IH H) as (before & after & -> & Hx & Hb).
    exists (y :: before), after. split; [done|]. split; [done|].
    intros z Hz. inversion Hz; subst; auto.
Qed.

(** *** Lowercase on ASCII text *)

Lemma lowerAfter_ascii a before r :
  (N_of_ascii a < 128)%N
  → JS.lowerAfter before (JS.CodePoint (N_of_ascii a) :: r)
    = JS.CodePoint (N_of_ascii (lowerLatin a))
        :: JS.lowerAfter (JS.CodePoint (N_of_ascii a) :: before) r.
Proof.
  destruct a as [[] [] [] [] [] [] [] []]; intros H;
    try (by vm_compute in H); clear H; cbn [JS.lowerAfter]; reflexivity.
Qed.

Lemma encodeOne_ascii a :
  (N_of_ascii a < 128)%N
  → JS.encodeOne (N_of_ascii (lowerLatin a)) = String (lowerLatin a) "".
Proof.
  destruct a as [[] [] [] [] [] [] [] []]; intros H;
    try (by vm_compute in H); reflexivity.
Qed.

Lemma decodeFuel_ascii s fuel :
  isAscii s → (String.length s ≤ fuel)%nat
  → JS.decodeFuel fuel s
    = map (fun b => JS.CodePoint (N_of_ascii b)) (list_ascii_of_string s).
Proof.
  revert fuel. induction s as [|a r IH]; intros fuel Hs Hfuel.
  - by destruct fuel.
  - destruct fuel as [|k]; [simpl in Hfuel; lia|].
    apply Forall_cons in Hs as [Ha Hr].
    cbn [JS.decodeFuel]. unfold JS.decodeOne.
    apply N.ltb_lt in Ha. rewrite Ha. cbn [list_ascii_of_string map].
    f_equal. apply IH; [done|simpl in Hfuel; lia].
Qed.

Lemma lowerAfter_all_ascii l before :
  Forall (fun b => (N_of_ascii b < 128)%N) l
  → JS.encode (JS.lowerAfter before (map (fun b => JS.CodePoint (N_of_ascii b)) l))
    = string_of_list_ascii (map lowerLatin l).
Proof.
  revert before. induction l as [|a l IH]; intros before Hl; [done|].
  apply Forall_cons in Hl as [Ha Hl].
  cbn [map]. rewrite lowerAfter_ascii by done. cbn [JS.encode].
  rewrite encodeOne_ascii by done. cbn [string_of_list_ascii].
  change (String (lowerLatin a) "" ++ ?x) with (String (lowerLatin a) x).
  f_equal. by apply IH.
Qed.

Lemma toLowerCase_ascii s :
  isAscii s
  → JS.toLowerCase s = string_of_list_ascii (map lowerLatin (list_ascii_of_string s)).
Proof.
  intros Hs. unfold JS.toLowerCase, JS.decode.
  rewrite decodeFuel_ascii by done. by apply lowerAfter_all_ascii.
Qed.

(** C8. Resolving [name] among [candidates] succeeds exactly when some
    candidate's lowercased name is the lowercased [name], and what it
    returns is the first such candidate. Lowercasing changes, in ASCII
    text, the letters [A] to [Z] and nothing else, wherever they stand, and
    beyond ASCII it follows the Unicode mappings: "CAFÉ" finds "Café" and
    "наличные" finds "Наличные", while "cafe" does not find "Café" and
    "STRASSE" does not find "Straße". Nothing is trimmed and no substring
    is looked for: "gopay" and "GOPAY" find the account "Gopay";
    "Groceries " with a trailing space, " Groceries" with a leading one and
    "Grocer" do not find the category "Groceries". *)
Theorem resolveByName_exact :
  (∀ A (nameOf : A → string) name candidates,
     is_Some (resolveByName nameOf name candidates)
     ↔ ∃ c, c ∈ candidates ∧ JS.toLowerCase (nameOf c) = JS.toLowerCase name)
  ∧ (∀ A (nameOf : A → string) name candidates c,
       resolveByName nameOf name candidates = Some c
       → c ∈ candidates ∧ JS.toLowerCase (nameOf c) = JS.toLowerCase name)
  ∧ (∀ A (nameOf : A → string) name candidates c,
       resolveByName nameOf name candidates = Some c
       → ∃ before after,
           candidates = (before ++ c :: after)%list
           ∧ ∀ x, x ∈ before → JS.toLowerCase (nameOf x) ≠ JS.toLowerCase name)
  ∧ (∀ text, isAscii text
       → JS.toLowerCase text
         = string_of_list_ascii (map lowerLatin (list_ascii_of_string text)))
  ∧ resolveByName Account.name "gopay" Sample.accounts = Some Sample.gopay
  ∧ resolveByName Account.name "GOPAY" Sample.accounts = Some Sample.gopay
  ∧ resolveByName Category.name "Groceries " Sample.categories = None
  ∧ resolveByName Category.name " Groceries" Sample.categories = None
  ∧ resolveByName Category.name "Grocer" Sample.categories = None
  ∧ resolveByName Category.name "Groceries" Sample.categories = Some Sample.groceries
  ∧ resolveByName (fun n : string => n) "CAFÉ" ["Cash"; "Café"] = Some "Café"
  ∧ resolveByName (fun n : string => n) "наличные" ["Наличные"] = Some "Наличные"
  ∧ resolveByName (fun n : string => n) "cafe" ["Café"] = None
  ∧ resolveByName (fun n : string => n) "STRASSE" ["Straße"] = None
  ∧ resolveByName (fun n : string => n) "gopay" ["Cash"; "GoPay"; "Gopay"] = Some "GoPay".
Proof.
  split; [|split; [|split; [|split; [|by vm_compute]]]].
  - intros A nameOf name candidates. apply resolveByName_is_Some.
  - intros A nameOf name candidates c H. unfold resolveByName in H.
    apply find_Some_inv in H. by rewrite String.eqb_eq in H.
  - intros A nameOf name candidates c H. unfold resolveByName in H.
    apply find_first in H as (before & after & -> & _ & Hb).
    exists before, after. split; [done|]. intros x Hx. by apply String.eqb_neq, Hb.
  - apply toLowerCase_ascii.
Qed.

(** ** What a computation leaves alone *)

Create HintDb keeps.

Section Keeps.
Context (P : Call → bool).

Lemma same_refl s : same P s s.
Proof. by split. Qed.

Lemma same_trans s1 s2 s3 : same P s1 s2 → same P s2 s3 → same P s1 s3.
Proof. intros [H1 H2] [H3 H4]. split; congruence. Qed.

Lemma keeps_ret {A} (a : A) : keeps P (ret a).
Proof. intros s. apply same_refl. Qed.

Lemma keeps_throw {A} e : keeps P (@throw A e).
Proof. intros s. apply same_refl. Qed.

Lemma keeps_bind {A B} (m : M A) (k : A → M B) :
  keeps P m → (∀ a, keeps P (k a)) → keeps P (bind m k).
Proof.
  intros Hm Hk s. unfold bind. specialize (Hm s).
  destruct (m s) as [[a|e] s']; simpl in *; [|done].
  eapply same_trans; [exact Hm|apply Hk].
Qed.

Lemma keeps_call c : P c = false → keeps P (call c).
Proof.
  intros Hc s. split; [done|]. simpl.
  by rewrite filter_app, filter_cons, Hc, filter_nil, app_nil_r.
Qed.

Lemma keeps_assign v : keeps P (assign v).
Proof. by intros s. Qed.

Lemma keeps_setInitialized b : keeps P (setInitialized b).
Proof. by intros s. Qed.

Lemma keeps_getInitialized : keeps P getInitialized.
Proof. by intros s. Qed.

Lemma keeps_getFinalResponse : keeps P getFinalResponse.
Proof. by intros s. Qed.

Lemma keeps_awaitOrApiError {A} (r : Reply A) prefix : keeps P (awaitOrApiError r prefix).
Proof. destruct r; [apply keeps_ret|apply keeps_throw]. Qed.

Lemma keeps_await {A} (c : Completion A) : keeps P (await c).
Proof. destruct c; [apply keeps_ret|apply keeps_throw]. Qed.

Lemma keeps_start {A} (m : M A) : keeps P m → keeps P (start m).
Proof. intros Hm s. unfold start. specialize (Hm s). by destruct (m s). Qed.

Lemma keeps_awaitAll {A} (l : list (Completion A)) : keeps P (awaitAll l).
Proof.
  induction l as [|[a|e] l IH]; simpl.
  - apply keeps_ret.
  - apply keeps_bind; [done|]. intros v. apply keeps_ret.
  - apply keeps_throw.
Qed.

Lemma keeps_startAll {A B} (f : A → M B) l :
  (∀ x, keeps P (f x)) → keeps P (startAll f l).
Proof.
  intros Hf. induction l as [|x l IH]; simpl; [apply keeps_ret|].
  apply keeps_bind; [by apply keeps_start|]. intros p.
  apply keeps_bind; [done|]. intros ps. apply keeps_ret.
Qed.

Lemma keeps_tryCatchFinally {A} (body : M A) handler finalizer :
  keeps P body → (∀ e, keeps P (handler e)) → keeps P finalizer
  → keeps P (tryCatchFinally body handler finalizer).
Proof.
  intros Hb Hh Hf s. unfold tryCatchFinally. specialize (Hb s).
  destruct (body s) as [[a|e] s1]; simpl in Hb.
  - specialize (Hf s1). destruct (finalizer s1) as [[u|e'] s2]; simpl in *;
      by eapply same_trans.
  - specialize (Hh e s1). destruct (handler e s1) as [r s2]. simpl in Hh.
    specialize (Hf s2). destruct (finalizer s2) as [[u|e'] s3]; simpl in *;
      eapply same_trans; [exact Hb| |exact Hb|]; by eapply same_trans.
Qed.

End Keeps.

#[local] Hint Resolve keeps_ret keeps_throw keeps_assign keeps_setInitialized
  keeps_getInitialized keeps_getFinalResponse keeps_awaitOrApiError keeps_await
  keeps_start keeps_awaitAll keeps_startAll : keeps.

(** One step of a proof that a computation keeps [P]: split a sequence,
    take a branch, log a call that [P] rejects. *)
Ltac keeps_step :=
  lazymatch goal with
  | |- keeps _ (bind _ _) => apply keeps_bind; [|intros ?]
  | |- keeps _ (tryCatchFinally _ _ _) => apply keeps_tryCatchFinally; [| intros ? |]
  | |- keeps _ (match ?x with _ => _ end) => destruct x
  | |- keeps _ _ => solve [eauto with keeps]
  end.

Section Quiet.
Context (env : Env) (P : Call → bool).
Hypothesis P_text : ∀ c, P c = true → isSendText c = true.

(** The budgeting service and the language-model service record no event
    and issue no call that [P] accepts, when [P] accepts text messages at
    most. *)
Lemma keeps_other c : isSendText c = false → keeps P (call c).
Proof using P_text.
  intros Hc. apply keeps_call. destruct (P c) eqn:E; [|done].
  apply P_text in E. congruence.
Qed.

Ltac quiet := repeat first [apply keeps_other; reflexivity | keeps_step].

Lemma keeps_init : keeps P (actualService.init env).
Proof using P_text. unfold actualService.init. quiet. Qed.

Lemma keeps_ensureInitialized : keeps P (actualService.ensureInitialized env).
Proof using P_text. unfold actualService.ensureInitialized. quiet. apply keeps_init. Qed.

Lemma keeps_shutdown : keeps P (actualService.shutdown env).
Proof using P_text. unfold actualService.shutdown. quiet. Qed.

Lemma keeps_getAccounts : keeps P (actualService.getAccounts env).
Proof using P_text.
  unfold actualService.getAccounts. quiet. apply keeps_ensureInitialized.
Qed.

Lemma keeps_getCategories : keeps P (actualService.getCategories env).
Proof using P_text.
  unfold actualService.getCategories. quiet. apply keeps_ensureInitialized.
Qed.

Lemma keeps_getPayees : keeps P (actualService.getPayees env).
Proof using P_text.
  unfold actualService.getPayees. quiet. apply keeps_ensureInitialized.
Qed.

Lemma keeps_getAccountBalance a : keeps P (actualService.getAccountBalance env a).
Proof using P_text.
  unfold actualService.getAccountBalance. quiet. apply keeps_ensureInitialized.
Qed.

Lemma keeps_getBudgetMonth m : keeps P (actualService.getBudgetMonth env m).
Proof using P_text.
  unfold actualService.getBudgetMonth. quiet. apply keeps_ensureInitialized.
Qed.

Lemma keeps_addTransactions a ts : keeps P (actualService.addTransactions env a ts).
Proof using P_text.
  unfold actualService.addTransactions. quiet. apply keeps_ensureInitialized.
Qed.

Lemma keeps_processTransaction text an cn :
  keeps P (geminiService.processTransaction env text an cn).
Proof using P_text. unfold geminiService.processTransaction. quiet. Qed.

Lemma keeps_processBalanceQuery text an cn :
  keeps P (geminiService.processBalanceQuery env text an cn).
Proof using P_text. unfold geminiService.processBalanceQuery. quiet. Qed.

Lemma keeps_getAnswer text : keeps P (geminiService.getAnswer env text).
Proof using P_text. unfold geminiService.getAnswer. quiet. Qed.

Lemma keeps_determineIntent text : keeps P (geminiService.determineIntent env text).
Proof using P_text. unfold geminiService.determineIntent. quiet. Qed.

Lemma keeps_sendSeen chat : keeps P (wahaService.sendSeen env chat).
Proof using P_text. unfold wahaService.sendSeen. quiet. Qed.

Lemma keeps_recordTransaction accounts categories payees detail data :
  keeps P (recordTransaction env accounts categories payees detail data).
Proof using P_text.
  unfold recordTransaction. repeat first [apply keeps_addTransactions | keeps_step].
Qed.

Lemma keeps_transactionTry text detail : keeps P (transactionTry env text detail).
Proof using P_text.
  unfold transactionTry.
  repeat first [apply keeps_init | apply keeps_start | apply keeps_getAccounts
               | apply keeps_getCategories | apply keeps_getPayees
               | apply keeps_processTransaction | apply keeps_recordTransaction
               | keeps_step].
Qed.

Lemma keeps_transactionBranch text detail : keeps P (transactionBranch env text detail).
Proof using P_text.
  unfold transactionBranch.
  repeat first [apply keeps_transactionTry | apply keeps_shutdown | keeps_step].
Qed.

Lemma keeps_balancePromise acc : keeps P (balancePromise env acc).
Proof using P_text.
  unfold balancePromise. repeat first [apply keeps_getAccountBalance | keeps_step].
Qed.

Lemma keeps_answerQuery accounts data : keeps P (answerQuery env accounts data).
Proof using P_text.
  unfold answerQuery.
  repeat first [apply keeps_getAccountBalance | apply keeps_getBudgetMonth
               | apply keeps_startAll; intros ?; apply keeps_balancePromise
               | keeps_step].
Qed.

Lemma keeps_queryBranch text : keeps P (queryBranch env text).
Proof using P_text.
  unfold queryBranch, queryTry.
  repeat first [apply keeps_init | apply keeps_start | apply keeps_getAccounts
               | apply keeps_getCategories | apply keeps_processBalanceQuery
               | apply keeps_answerQuery | apply keeps_shutdown | keeps_step].
Qed.

Lemma keeps_dispatch text intent detail : keeps P (dispatch env text intent detail).
Proof using P_text.
  unfold dispatch.
  repeat first [apply keeps_transactionBranch | apply keeps_queryBranch
               | apply keeps_getAnswer | keeps_step].
Qed.

End Quiet.

(** ** The idempotency check *)

Lemma messageEvent_Some req eventId messagePayload :
  messageEvent req = Some (eventId, messagePayload)
  ↔ event req = "message" ∧ payload req = Some messagePayload
    ∧ id messagePayload = Some eventId ∧ JS.truthy eventId = true.
Proof.
  unfold messageEvent.
  destruct (String.eqb_spec (event req) "message") as [He|Hne].
  - destruct (payload req) as [p|]; [|split; [done|by intros (_ & [=] & _)]].
    destruct (id p) as [i|] eqn:Hid.
    + destruct (JS.truthy i) eqn:Ht.
      * split; [by intros [= <- <-]|]. intros (_ & [= <-] & Hi & _). congruence.
      * split; [done|]. intros (_ & [= <-] & Hi & Hi'). congruence.
    + split; [done|]. intros (_ & [= <-] & Hi & _). congruence.
  - split; [done|]. by intros [? _].
Qed.

Lemma truthy_stored s eventId : storeOk s → eventId ∈ events s → JS.truthy eventId = true.
Proof. unfold storeOk. destruct eventId; [done|done]. Qed.

(** A duplicate is answered after the lookup, with nothing else done. *)
Lemma handler_duplicate env req s eventId messagePayload :
  messageEvent req = Some (eventId, messagePayload) → eventId ∈ events s
  → handleWebhook env req s = (Sent OK "duplicate_ignored", logged [DbFindOne eventId] s).
Proof.
  intros Hm Hin. unfold handleWebhook, catchAsync, handler. rewrite Hm.
  unfold findOne, bind, call. simpl. by rewrite bool_decide_true.
Qed.

(** A new event is recorded, then processed. *)
Lemma handler_fresh env req s eventId messagePayload :
  messageEvent req = Some (eventId, messagePayload) → eventId ∉ events s
  → handleWebhook env req s
    = match processMessage env messagePayload (recorded eventId s) with
      | (Normal _, s') => (Sent OK "received", s')
      | (Throw e, s') => (Failed e, s')
      end.
Proof.
  intros Hm Hin. unfold handleWebhook, catchAsync, handler. rewrite Hm.
  unfold findOne, create, bind, call. simpl. rewrite bool_decide_false by done.
  simpl. rewrite <- app_assoc. simpl. unfold recorded, ret.
  by destruct (processMessage _ _ _) as [[[]|e] s'].
Qed.

(** Once the intent is classified, the branch runs and its reply is sent. *)
Lemma handler_classified env req s eventId messagePayload intent detail :
  messageEvent req = Some (eventId, messagePayload) → eventId ∉ events s
  → gemini_intent env (body messagePayload) = Resolved (intent, detail)
  → handleWebhook env req s
    = match dispatch env (body messagePayload) intent detail
              (classified eventId messagePayload s) with
      | (Normal _, s1) =>
          match wahaService.sendTextMessage env (from messagePayload)
                  (finalResponse s1) s1 with
          | (Normal _, s2) => (Sent OK "received", s2)
          | (Throw e, s2) => (Failed e, s2)
          end
      | (Throw e, s1) => (Failed e, s1)
      end.
Proof.
  intros Hm Hin Hi. rewrite (handler_fresh _ _ _ _ _ Hm Hin).
  unfold processMessage, wahaService.sendSeen, geminiService.determineIntent,
    bind, call, recorded, classified. simpl.
  destruct (waha_sendSeen env (from messagePayload)); simpl; rewrite Hi; simpl;
    rewrite <- !app_assoc; simpl;
    destruct (dispatch _ _ _ _ _) as [[[]|e] s1]; try done;
    unfold getFinalResponse; simpl;
    by destruct (wahaService.sendTextMessage _ _ _ _) as [[[]|e] s2].
Qed.

(** C9. A request whose event is not "message", or that has no payload, or
    whose payload has no id (or an empty one), is answered 200 "received"
    and leaves the state as it is: no record is read or created, no call is
    issued. *)
Theorem ignored_event env req s :
  event req ≠ "message" ∨ payload req = None
    ∨ (∃ p, payload req = Some p ∧ (id p = None ∨ id p = Some ""))
  → handleWebhook env req s = (Sent 200 "received", s).
Proof.
  intros H. unfold handleWebhook, catchAsync, handler.
  assert (messageEvent req = None) as ->; [|done].
  unfold messageEvent. destruct (String.eqb_spec (event req) "message") as [He|]; [|done].
  destruct H as [H|[->|(p & -> & [->| ->])]]; done.
Qed.

Lemma ignored_event_witness :
  handleWebhook (Sample.world (question, expense) [] (Sample.coffee "1" None)
                   Sample.allAccounts) Sample.status Sample.seen
  = (Sent 200 "received", Sample.seen).
Proof. apply ignored_event. right. left. reflexivity. Defined.

(** Processing a message records no event of its own. *)
Lemma processMessage_events env messagePayload s :
  events (snd (processMessage env messagePayload s)) = events s.
Proof.
  assert (keeps (fun _ => false) (processMessage env messagePayload)) as H;
    [|by destruct (H s)].
  unfold processMessage, wahaService.sendTextMessage.
  repeat first [apply keeps_sendSeen; done | apply keeps_determineIntent; done
               | apply keeps_dispatch; done | apply keeps_call; reflexivity
               | keeps_step].
Qed.

Lemma handler_fresh_events env req s eventId messagePayload :
  messageEvent req = Some (eventId, messagePayload) → eventId ∉ events s
  → events (snd (handleWebhook env req s)) = {[ eventId ]} ∪ events s.
Proof.
  intros Hm Hin. rewrite (handler_fresh _ _ _ _ _ Hm Hin).
  pose proof (processMessage_events env messagePayload (recorded eventId s)) as H.
  by destruct (processMessage _ _ _) as [[[]|e] s'].
Qed.

(** The collection never gets a record with a falsy [eventId]. *)
Lemma handleWebhook_storeOk env req s :
  storeOk s → storeOk (snd (handleWebhook env req s)).
Proof.
  intros Hs. destruct (messageEvent req) as [[eventId messagePayload]|] eqn:Hm.
  - destruct (decide (eventId ∈ events s)) as [Hin|Hin].
    + by rewrite (handler_duplicate _ _ _ _ _ Hm Hin).
    + unfold storeOk. rewrite (handler_fresh_events _ _ _ _ _ Hm Hin).
      apply messageEvent_Some in Hm as (_ & _ & _ & Ht).
      intros [<-%elem_of_singleton|?]%elem_of_union; done.
  - unfold handleWebhook, catchAsync, handler. by rewrite Hm.
Qed.

(** C1, as amended. For a "message" event whose payload id is [eventId],
    in a collection without falsy ids: when a record with that id is in the
    collection, the answer is "duplicate_ignored" and nothing but the
    lookup happened (no record is created, no gateway, model or budgeting
    call is issued); when there is none, the id is recorded first, and the
    answer is "received" if the processing that follows completes, while
    the request fails, the id still recorded, if the processing raises;
    either way the same request sent again is answered
    "duplicate_ignored" after the lookup alone. *)
Theorem idempotency_check env req s eventId messagePayload :
  event req = "message" → payload req = Some messagePayload
  → id messagePayload = Some eventId → storeOk s
  → (eventId ∈ events s
     → handleWebhook env req s
       = (Sent 200 "duplicate_ignored", logged [DbFindOne eventId] s))
  ∧ (eventId ∉ events s → JS.truthy eventId = true
     → handleWebhook env req s
       = match processMessage env messagePayload (recorded eventId s) with
         | (Normal _, s') => (Sent 200 "received", s')
         | (Throw e, s') => (Failed e, s')
         end
       ∧ events (snd (handleWebhook env req s)) = {[ eventId ]} ∪ events s)
  ∧ (JS.truthy eventId = true
     → ∀ env', handleWebhook env' req (snd (handleWebhook env req s))
               = (Sent 200 "duplicate_ignored",
                  logged [DbFindOne eventId] (snd (handleWebhook env req s)))).
Proof.
  intros He Hp Hi Hs.
  assert (JS.truthy eventId = true
          → messageEvent req = Some (eventId, messagePayload)) as Hm
    by (intros Ht; by apply messageEvent_Some).
  split; [|split].
  - intros Hin. apply (handler_duplicate _ _ _ _ messagePayload); [|done].
    apply Hm. by eapply truthy_stored.
  - intros Hin Ht.
    split; [by apply handler_fresh; auto|by eapply handler_fresh_events; auto].
  - intros Ht env'. apply (handler_duplicate _ _ _ _ messagePayload); [by auto|].
    destruct (decide (eventId ∈ events s)) as [Hin|Hin].
    + by rewrite (handler_duplicate _ _ _ _ _ (Hm Ht) Hin).
    + rewrite (handler_fresh_events _ _ _ _ _ (Hm Ht) Hin). set_solver.
Qed.

Lemma idempotency_check_witness :
  handleWebhook (Sample.world (question, expense) [] (Sample.coffee "1" None)
                   Sample.allAccounts) Sample.message Sample.seen
  = (Sent 200 "duplicate_ignored", logged [DbFindOne "evt-1"] Sample.seen).
Proof.
  refine (proj1 (idempotency_check _ Sample.message Sample.seen "evt-1"
                   Sample.messagePayload eq_refl eq_refl eq_refl _) _).
  - unfold storeOk. simpl. intros H%elem_of_singleton. discriminate.
  - simpl. by apply elem_of_singleton.
Defined.

(** C1, as stated, fails: "evt-1" has no record, and the first request
    with that id is not answered "received", neither when the language
    model does not answer the classification (the error of
    [determineIntent] fails the request), nor when every library call
    resolves and the extraction of a transfer has a [null] payee. *)
Lemma first_invocation_not_received :
  ("evt-1" ∉ events Sample.empty)
  ∧ fst (handleWebhook Sample.modelDownWorld Sample.message Sample.empty)
    = Failed (ApiError 500
                "Gemini API Error (determineIntent): 503 Service Unavailable")
  ∧ calls (snd (handleWebhook Sample.modelDownWorld Sample.message Sample.empty))
    = [DbFindOne "evt-1"; DbCreate "evt-1"; WahaSendSeen "628@c.us";
       GeminiIntent "Beli kopi 20k dari Cash"]
  ∧ fst (handleWebhook Sample.nullPayeeWorld Sample.message Sample.empty)
    = Failed nullToLowerCase.
Proof.
  split; [apply not_elem_of_empty|]. repeat split; by vm_compute.
Qed.

(** ** The transaction branch *)

(** Unfold the services and the monad, and run what is determined. *)
Ltac run :=
  unfold actualService.init, actualService.getAccounts, actualService.getCategories,
    actualService.getPayees, actualService.getAccountBalance,
    actualService.getBudgetMonth, actualService.addTransactions,
    actualService.shutdown, actualService.ensureInitialized,
    geminiService.processTransaction, geminiService.processBalanceQuery,
    wahaService.sendTextMessage, awaitOrApiError, tryCatchFinally,
    bind, start, await, call, ret, throw, assign, getInitialized, setInitialized,
    getFinalResponse;
  cbn [fst snd events isInitialized finalResponse calls].

Lemma transactionTry_served env text detail accounts categories payees data s :
  serves env accounts categories payees
  → extracts env text accounts categories data
  → transactionTry env text detail s
    = recordTransaction env accounts categories payees detail data
        (extracted text accounts categories s).
Proof.
  intros ((Hi & Hd & Ha & Hc) & Hp) (Hx & Hcat & Hsrc).
  unfold transactionTry, extracted, initCalls. run.
  destruct s as [ev [] fr cs]; cbn [fst snd events isInitialized finalResponse calls];
    rewrite ?Hi, ?Hd, ?Ha, ?Hc, ?Hp; cbn [fst snd events isInitialized finalResponse calls];
    rewrite ?Hi, ?Hd, ?Ha, ?Hc, ?Hp, Hx, Hcat, Hsrc; cbn [andb];
    do 2 f_equal; rewrite <- ?app_assoc; reflexivity.
Qed.

Lemma posted_app a b : posted (a ++ b) = (posted a ++ posted b)%list.
Proof. apply omap_app. Qed.

Lemma textsSent_app a b : textsSent (a ++ b) = (textsSent a ++ textsSent b)%list.
Proof. apply omap_app. Qed.

Lemma posted_initCalls s : posted (initCalls s) = [].
Proof. unfold initCalls. by destruct (isInitialized s). Qed.

Lemma textsSent_initCalls s : textsSent (initCalls s) = [].
Proof. unfold initCalls. by destruct (isInitialized s). Qed.

Lemma balancesAsked_app a b :
  balancesAsked (a ++ b) = (balancesAsked a ++ balancesAsked b)%list.
Proof. apply omap_app. Qed.

Lemma balancesAsked_initCalls s : balancesAsked (initCalls s) = [].
Proof. unfold initCalls. by destruct (isInitialized s). Qed.

Lemma textsSent_filter cs : textsSent cs = textsSent (filter isSendText cs).
Proof.
  induction cs as [|c cs IH]; [done|].
  rewrite filter_cons. destruct c; simpl; congruence.
Qed.

Lemma same_textsSent s s' :
  same isSendText s s' → textsSent (calls s') = textsSent (calls s).
Proof.
  intros [_ H]. rewrite (textsSent_filter (calls s')), (textsSent_filter (calls s)).
  by f_equal.
Qed.

(** A name the schema accepted resolves. *)
Lemma listed_resolves {A} (nameOf : A → string) name candidates :
  geminiService.inList name (map nameOf candidates) = true
  → is_Some (resolveByName nameOf name candidates).
Proof.
  unfold geminiService.inList. rewrite existsb_exists.
  intros (n & Hin & Heq). apply String.eqb_eq in Heq as <-.
  apply in_map_iff in Hin as (c & Hc & Hin).
  apply resolveByName_is_Some. exists c. split; [by apply list_elem_of_In|by rewrite Hc].
Qed.

Ltac simp :=
  cbn [fst snd events isInitialized finalResponse calls extracted classified asked].

(** Read the postings and the texts off a log. *)
Ltac observe :=
  simp; rewrite ?posted_app, ?textsSent_app, ?posted_initCalls, ?textsSent_initCalls;
  simpl; rewrite <- ?app_assoc, ?app_nil_r; simpl.

Section TransactionIntent.
Context (env : Env) (req : Request) (s : State) (eventId : string)
  (messagePayload : Payload) (detail : TransactionDetail).
Hypothesis Hmessage : messageEvent req = Some (eventId, messagePayload).
Hypothesis Hfresh : eventId ∉ events s.
Hypothesis Hintent :
  gemini_intent env (body messagePayload) = Resolved (transaction, detail).

(** C2 (the code against the claim). When the [try] block of the
    transaction branch raises [e], the request fails and no text message is
    sent: the apology is assigned to [finalResponse] and never delivered. *)
Theorem transaction_error_not_replied e s1 :
  transactionTry env (body messagePayload) detail (classified eventId messagePayload s)
    = (Throw e, s1)
  → (∃ e', fst (handleWebhook env req s) = Failed e')
    ∧ textsSent (calls (snd (handleWebhook env req s))) = textsSent (calls s)
    ∧ (actual_shutdown env = Resolved tt
       → fst (handleWebhook env req s) = Failed e
         ∧ finalResponse (snd (handleWebhook env req s)) = Some transactionFailure).
Proof using Hmessage Hfresh Hintent.
  intros Htry.
  pose proof (same_textsSent _ _
                (keeps_transactionTry env isSendText (fun c H => H) (body messagePayload)
                   detail (classified eventId messagePayload s))) as Hk.
  rewrite Htry in Hk. cbn [snd] in Hk.
  rewrite (handler_classified _ _ _ _ _ _ _ Hmessage Hfresh Hintent).
  unfold dispatch, transactionBranch, tryCatchFinally. rewrite Htry.
  run. destruct (actual_shutdown env) as [[]|m]; simp;
    (split; [by eexists|]); (split; [|done]);
    rewrite textsSent_app, Hk; by observe.
Qed.

Section Extracted.
Context (accounts : list Account.t) (categories : list Category.t)
  (payees : list Payee.t) (data : TransactionData).
Hypothesis Hserves : serves env accounts categories payees.
Hypothesis Hextracts : extracts env (body messagePayload) accounts categories data.

(** C5, as amended. A transfer whose four lookups succeed, on a server
    that accepts the two postings: exactly two postings are made, the
    withdrawal on the source account (minus the absolute value of the
    amount times 100, payee the destination's transfer payee) and then the
    deposit on the destination account (the absolute value, payee the
    source's transfer payee), both dated today and not cleared; when the
    session is then closed, the one text sent is the model's
    [message_to_user], and the answer is "received" when the gateway takes
    it. *)
Theorem transfer_posts_two src dst destinationName stp dtp ids1 ids2 :
  let withdrawal :=
    {| Transaction.date := today env;
       Transaction.amount := (- abs (JS.parseFloat (amount data) * 100))%float;
       Transaction.payee := Some (Payee.id dtp);
       Transaction.payee_name := None;
       Transaction.notes :=
         match description data with
         | EmptyString => "Transfer to " ++ Account.name dst
         | text => text
         end;
       Transaction.category := None;
       Transaction.cleared := false |} in
  let deposit :=
    {| Transaction.date := today env;
       Transaction.amount := abs (JS.parseFloat (amount data) * 100)%float;
       Transaction.payee := Some (Payee.id stp);
       Transaction.payee_name := None;
       Transaction.notes :=
         match description data with
         | EmptyString => "Transfer from " ++ Account.name src
         | text => text
         end;
       Transaction.category := None;
       Transaction.cleared := false |} in
  detail = transfer
  → resolveByName Account.name (source_account_name data) accounts = Some src
  → payee data = Some destinationName
  → resolveByName Account.name destinationName accounts = Some dst
  → transferPayeeOf (Account.id src) payees = Some stp
  → transferPayeeOf (Account.id dst) payees = Some dtp
  → actual_addTransactions env (Account.id src) [withdrawal] false = Resolved ids1
  → actual_addTransactions env (Account.id dst) [deposit] false = Resolved ids2
  → posted (calls (snd (handleWebhook env req s)))
    = (posted (calls s)
       ++ [(Account.id src, [withdrawal]); (Account.id dst, [deposit])])%list
    ∧ (actual_shutdown env = Resolved tt
       → textsSent (calls (snd (handleWebhook env req s)))
         = (textsSent (calls s)
            ++ [(from messagePayload, Some (message_to_user data))])%list
         ∧ (waha_sendText env (from messagePayload) (Some (message_to_user data))
              = Resolved tt
            → fst (handleWebhook env req s) = Sent 200 "received")).
Proof using Hmessage Hfresh Hintent Hserves Hextracts.
  intros withdrawal deposit Hdetail Hsrc Hp Hdst Hstp Hdtp Hw Hd.
  rewrite (handler_classified _ _ _ _ _ _ _ Hmessage Hfresh Hintent).
  unfold dispatch, transactionBranch, tryCatchFinally.
  rewrite (transactionTry_served _ _ _ _ _ _ _ _ Hserves Hextracts).
  unfold recordTransaction. rewrite Hsrc, Hdetail, Hp, Hdst, Hstp, Hdtp.
  assert (withdrawalOf (today env) (amountInCentsOf data) data dst dtp = withdrawal)
    as -> by (unfold withdrawalOf, withdrawal; by destruct (description data)).
  assert (depositOf (today env) (amountInCentsOf data) data src stp = deposit)
    as -> by (unfold depositOf, deposit; by destruct (description data)).
  run. simp. rewrite Hw. simp. rewrite Hd. simp.
  destruct (actual_shutdown env) as [[]|m']; simp.
  - destruct (waha_sendText env _ _) as [[]|m] eqn:Hs; simp;
      (split; [by observe|]); intros _; (split; [by observe|done]).
  - split; [by observe|done].
Qed.

(** C3, as amended. A transfer whose source account resolves and whose
    payee is a name: when a later lookup fails, nothing is posted and, when
    the session is then closed, the one text sent names the lookup that
    failed, looked at in this order: the destination account (by the name
    the model gave), then the transfer payee of the destination account,
    then the transfer payee of the source account (each by the name of its
    account). *)
Theorem transfer_lookup_failure src destinationName :
  let replied text :=
    posted (calls (snd (handleWebhook env req s))) = posted (calls s)
    ∧ (actual_shutdown env = Resolved tt
       → textsSent (calls (snd (handleWebhook env req s)))
         = (textsSent (calls s) ++ [(from messagePayload, Some text)])%list) in
  detail = transfer
  → resolveByName Account.name (source_account_name data) accounts = Some src
  → payee data = Some destinationName
  → match resolveByName Account.name destinationName accounts with
    | None =>
        replied ("Sorry, I couldn't find a destination account named "
                 ++ quoted destinationName " for the transfer.")
    | Some dst =>
        match transferPayeeOf (Account.id dst) payees,
              transferPayeeOf (Account.id src) payees with
        | None, _ =>
            replied ("Sorry, I couldn't find the internal transfer payee for account "
                     ++ quoted (Account.name dst) ".")
        | Some _, None =>
            replied ("Sorry, I couldn't find the internal transfer payee for account "
                     ++ quoted (Account.name src) ".")
        | Some _, Some _ => True
        end
    end.
Proof using Hmessage Hfresh Hintent Hserves Hextracts.
  intros replied Hdetail Hsrc Hp. unfold replied.
  rewrite (handler_classified _ _ _ _ _ _ _ Hmessage Hfresh Hintent).
  unfold dispatch, transactionBranch, tryCatchFinally.
  rewrite (transactionTry_served _ _ _ _ _ _ _ _ Hserves Hextracts).
  unfold recordTransaction. rewrite Hsrc, Hdetail, Hp.
  destruct (resolveByName Account.name destinationName accounts) as [dst|];
    [destruct (transferPayeeOf (Account.id dst) payees);
     [destruct (transferPayeeOf (Account.id src) payees); [done|]|]|];
    run; (destruct (actual_shutdown env) as [[]|m']; simp;
          [destruct (waha_sendText env _ _) as [[]|m]; simp|]);
    (split; [by observe|]); try done; intros _; by observe.
Qed.

(** C4, as amended. An expense or an income whose account and category
    resolve: exactly one posting is made, on the source account, of one
    transaction dated today whose amount is the absolute value of the
    amount times 100 for an income and minus that absolute value for an
    expense, with the description as notes, the extracted payee as payee
    name, the id of the resolved category, and not cleared. The amount
    "5000000" gives 500000000. *)
Theorem expense_or_income_posts_one src resolved :
  detail ≠ transfer
  → resolveByName Account.name (source_account_name data) accounts = Some src
  → resolveByName Category.name (category data) categories = Some resolved
  → posted (calls (snd (handleWebhook env req s)))
    = (posted (calls s)
       ++ [(Account.id src,
            [{| Transaction.date := today env;
                Transaction.amount :=
                  match detail with
                  | income => JS.Math_abs (amountInCentsOf data)
                  | _ => JS.neg (JS.Math_abs (amountInCentsOf data))
                  end;
                Transaction.payee := None;
                Transaction.payee_name := payee data;
                Transaction.notes := description data;
                Transaction.category := Some (Category.id resolved);
                Transaction.cleared := false |}])])%list
    ∧ JS.Math_abs (JS.times (JS.parseFloat "5000000") 100) = 500000000%float.
Proof using Hmessage Hfresh Hintent Hserves Hextracts.
  intros Hdetail Hsrc Hcat. split; [|by vm_compute].
  rewrite (handler_classified _ _ _ _ _ _ _ Hmessage Hfresh Hintent).
  unfold dispatch, transactionBranch, tryCatchFinally.
  rewrite (transactionTry_served _ _ _ _ _ _ _ _ Hserves Hextracts).
  unfold recordTransaction. rewrite Hsrc, Hcat.
  destruct detail; [| |done]; run; simp;
    destruct (actual_addTransactions env _ _ _) as [ids|m]; simp;
    destruct (actual_shutdown env) as [[]|m']; simp;
    try (destruct (waha_sendText env _ _) as [[]|m'']; simp); by observe.
Qed.

(** C10. A transfer whose extraction has a [null] payee: the branch raises
    on the dereference, so nothing is posted and no text is sent, the last
    call is the shutdown of the budgeting session, and the request fails
    (with the [TypeError] when the shutdown resolves, which also clears
    the session flag). *)
Theorem transfer_null_payee :
  detail = transfer → payee data = None
  → posted (calls (snd (handleWebhook env req s))) = posted (calls s)
    ∧ textsSent (calls (snd (handleWebhook env req s))) = textsSent (calls s)
    ∧ last (calls (snd (handleWebhook env req s))) = Some ActualShutdown
    ∧ (∃ e, fst (handleWebhook env req s) = Failed e)
    ∧ (actual_shutdown env = Resolved tt
       → fst (handleWebhook env req s) = Failed nullToLowerCase
         ∧ isInitialized (snd (handleWebhook env req s)) = false).
Proof using Hmessage Hfresh Hintent Hserves Hextracts.
  intros Hdetail Hp.
  destruct (listed_resolves Account.name (source_account_name data) accounts)
    as [src Hsrc]; [apply Hextracts|].
  rewrite (handler_classified _ _ _ _ _ _ _ Hmessage Hfresh Hintent).
  unfold dispatch, transactionBranch, tryCatchFinally.
  rewrite (transactionTry_served _ _ _ _ _ _ _ _ Hserves Hextracts).
  unfold recordTransaction. rewrite Hsrc, Hdetail, Hp.
  run. destruct (actual_shutdown env) as [[]|m]; simp;
    (split; [by observe|]); (split; [by observe|]);
    (split; [by rewrite last_snoc|]); (split; [by eexists|done]).
Qed.

End Extracted.
End TransactionIntent.

(** ** The question branch *)

(** X16. A question is answered by the model and the answer is sent; the
    budgeting server is not involved. *)
Lemma question_answered env req s eventId messagePayload detail answer :
  messageEvent req = Some (eventId, messagePayload) → eventId ∉ events s
  → gemini_intent env (body messagePayload) = Resolved (question, detail)
  → gemini_answer env (body messagePayload) = Resolved answer
  → calls (snd (handleWebhook env req s))
    = (calls s ++ [DbFindOne eventId; DbCreate eventId;
                   WahaSendSeen (from messagePayload);
                   GeminiIntent (body messagePayload);
                   GeminiAnswer (body messagePayload);
                   WahaSendText (from messagePayload) (Some answer)])%list
    ∧ (waha_sendText env (from messagePayload) (Some answer) = Resolved tt
       → fst (handleWebhook env req s) = Sent 200 "received").
Proof.
  intros Hm Hf Hi Ha. rewrite (handler_classified _ _ _ _ _ _ _ Hm Hf Hi).
  unfold dispatch, geminiService.getAnswer. run. rewrite Ha. simp.
  destruct (waha_sendText env _ _) as [[]|m]; simp;
    (split; [by rewrite <- !app_assoc|done]).
Qed.

(** *** The theorems at the sample worlds *)

Lemma fresh_sample : "evt-1" ∉ events Sample.empty.
Proof. apply not_elem_of_empty. Defined.

Lemma transaction_error_not_replied_witness :
  textsSent (calls (snd (handleWebhook Sample.downWorld Sample.message Sample.empty))) = []
  ∧ fst (handleWebhook Sample.downWorld Sample.message Sample.empty)
    = Failed (ApiError 500 "Actual API Init Error: connect ECONNREFUSED")
  ∧ finalResponse (snd (handleWebhook Sample.downWorld Sample.message Sample.empty))
    = Some transactionFailure.
Proof.
  edestruct (transaction_error_not_replied Sample.downWorld Sample.message Sample.empty
               "evt-1" Sample.messagePayload expense eq_refl fresh_sample eq_refl)
    as (_ & H1 & H2); [vm_compute; reflexivity|].
  split; [exact H1|exact (H2 eq_refl)].
Defined.

Lemma transfer_posts_two_witness :
  (posted (calls (snd (handleWebhook Sample.transferWorld Sample.message Sample.empty)))
   = [("a1", [{| Transaction.date := "2025-01-15"; Transaction.amount := (-2000000);
                 Transaction.payee := Some "p2"; Transaction.payee_name := None;
                 Transaction.notes := "kopi"; Transaction.category := None;
                 Transaction.cleared := false |}]);
      ("a2", [{| Transaction.date := "2025-01-15"; Transaction.amount := 2000000;
                 Transaction.payee := Some "p1"; Transaction.payee_name := None;
                 Transaction.notes := "kopi"; Transaction.category := None;
                 Transaction.cleared := false |}])]
   ∧ textsSent (calls (snd (handleWebhook Sample.transferWorld Sample.message
                              Sample.empty)))
     = [("628@c.us", Some "Recorded.")]
   ∧ fst (handleWebhook Sample.transferWorld Sample.message Sample.empty)
     = Sent 200 "received")
  ∧ posted (calls (snd (handleWebhook Sample.minusTransferWorld Sample.message
                          Sample.empty)))
    = [("a1", [{| Transaction.date := "2025-01-15"; Transaction.amount := (-2000000);
                  Transaction.payee := Some "p2"; Transaction.payee_name := None;
                  Transaction.notes := "Transfer to Gopay"; Transaction.category := None;
                  Transaction.cleared := false |}]);
       ("a2", [{| Transaction.date := "2025-01-15"; Transaction.amount := 2000000;
                  Transaction.payee := Some "p1"; Transaction.payee_name := None;
                  Transaction.notes := "Transfer from Cash"; Transaction.category := None;
                  Transaction.cleared := false |}])].
Proof.
  split.
  - destruct (transfer_posts_two Sample.transferWorld Sample.message Sample.empty "evt-1"
                Sample.messagePayload transfer eq_refl fresh_sample eq_refl
                Sample.accounts Sample.categories
                [Sample.cashTransfer; Sample.gopayTransfer; Sample.warung]
                (Sample.coffee "20000" (Some "gopay"))
                ltac:(repeat split) ltac:(repeat split)
                Sample.cash Sample.gopay "gopay" Sample.cashTransfer Sample.gopayTransfer
                [] [] eq_refl eq_refl eq_refl eq_refl eq_refl eq_refl eq_refl eq_refl)
      as (H1 & H2).
    destruct (H2 eq_refl) as (H3 & H4).
    split; [exact H1|]. split; [exact H3|exact (H4 eq_refl)].
  - exact (proj1 (transfer_posts_two Sample.minusTransferWorld Sample.message
                    Sample.empty "evt-1" Sample.messagePayload transfer eq_refl
                    fresh_sample eq_refl Sample.accounts Sample.categories
                    [Sample.cashTransfer; Sample.gopayTransfer; Sample.warung]
                    Sample.unnamedTransfer
                    ltac:(repeat split) ltac:(repeat split)
                    Sample.cash Sample.gopay "GOPAY" Sample.cashTransfer
                    Sample.gopayTransfer
                    [] [] eq_refl eq_refl eq_refl eq_refl eq_refl eq_refl eq_refl
                    eq_refl)).
Defined.

(** C5, as stated, fails: the four lookups of this transfer succeed, the
    server rejects the posting of the withdrawal, and so one posting is
    attempted, the deposit is never posted, no text is sent and the request
    fails. *)
Lemma transfer_posting_rejected :
  resolveByName Account.name "Cash" Sample.accounts = Some Sample.cash
  ∧ resolveByName Account.name "gopay" Sample.accounts = Some Sample.gopay
  ∧ transferPayeeOf "a1" [Sample.cashTransfer; Sample.gopayTransfer; Sample.warung]
    = Some Sample.cashTransfer
  ∧ transferPayeeOf "a2" [Sample.cashTransfer; Sample.gopayTransfer; Sample.warung]
    = Some Sample.gopayTransfer
  ∧ posted (calls (snd (handleWebhook (Sample.readOnly Sample.transferWorld)
                          Sample.message Sample.empty)))
    = [("a1", [{| Transaction.date := "2025-01-15"; Transaction.amount := (-2000000);
                  Transaction.payee := Some "p2"; Transaction.payee_name := None;
                  Transaction.notes := "kopi"; Transaction.category := None;
                  Transaction.cleared := false |}])]
  ∧ textsSent (calls (snd (handleWebhook (Sample.readOnly Sample.transferWorld)
                             Sample.message Sample.empty))) = []
  ∧ fst (handleWebhook (Sample.readOnly Sample.transferWorld) Sample.message
           Sample.empty)
    = Failed (ApiError 500 "Actual API Error (addTransactions): budget is read-only").
Proof. by vm_compute. Qed.

Lemma transfer_lookup_failure_witness :
  (posted (calls (snd (handleWebhook Sample.missingPayeeWorld Sample.message
                         Sample.empty))) = []
   ∧ textsSent (calls (snd (handleWebhook Sample.missingPayeeWorld Sample.message
                              Sample.empty)))
     = [("628@c.us",
         Some ("Sorry, I couldn't find the internal transfer payee for account "
               ++ String "034"%char ("Gopay" ++ String "034"%char ".")))])
  ∧ textsSent (calls (snd (handleWebhook Sample.noTransferPayeeWorld Sample.message
                             Sample.empty)))
    = [("628@c.us",
        Some ("Sorry, I couldn't find the internal transfer payee for account "
              ++ String "034"%char ("Gopay" ++ String "034"%char ".")))]
  ∧ textsSent (calls (snd (handleWebhook Sample.missingSourcePayeeWorld Sample.message
                             Sample.empty)))
    = [("628@c.us",
        Some ("Sorry, I couldn't find the internal transfer payee for account "
              ++ String "034"%char ("Cash" ++ String "034"%char ".")))]
  ∧ textsSent (calls (snd (handleWebhook Sample.unknownDestinationWorld Sample.message
                             Sample.empty)))
    = [("628@c.us",
        Some ("Sorry, I couldn't find a destination account named "
              ++ String "034"%char ("Dana" ++ String "034"%char " for the transfer.")))].
Proof.
  split; [split|split; [|split]].
  - exact (proj1 (transfer_lookup_failure Sample.missingPayeeWorld Sample.message
                    Sample.empty "evt-1" Sample.messagePayload transfer eq_refl
                    fresh_sample eq_refl Sample.accounts Sample.categories
                    [Sample.cashTransfer; Sample.warung]
                    (Sample.coffee "20000" (Some "gopay"))
                    ltac:(repeat split) ltac:(repeat split)
                    Sample.cash "gopay" eq_refl eq_refl eq_refl)).
  - exact (proj2 (transfer_lookup_failure Sample.missingPayeeWorld Sample.message
                    Sample.empty "evt-1" Sample.messagePayload transfer eq_refl
                    fresh_sample eq_refl Sample.accounts Sample.categories
                    [Sample.cashTransfer; Sample.warung]
                    (Sample.coffee "20000" (Some "gopay"))
                    ltac:(repeat split) ltac:(repeat split)
                    Sample.cash "gopay" eq_refl eq_refl eq_refl) eq_refl).
  - exact (proj2 (transfer_lookup_failure Sample.noTransferPayeeWorld Sample.message
                    Sample.empty "evt-1" Sample.messagePayload transfer eq_refl
                    fresh_sample eq_refl Sample.accounts Sample.categories
                    [Sample.warung]
                    (Sample.coffee "20000" (Some "gopay"))
                    ltac:(repeat split) ltac:(repeat split)
                    Sample.cash "gopay" eq_refl eq_refl eq_refl) eq_refl).
  - exact (proj2 (transfer_lookup_failure Sample.missingSourcePayeeWorld Sample.message
                    Sample.empty "evt-1" Sample.messagePayload transfer eq_refl
                    fresh_sample eq_refl Sample.accounts Sample.categories
                    [Sample.gopayTransfer; Sample.warung]
                    (Sample.coffee "20000" (Some "gopay"))
                    ltac:(repeat split) ltac:(repeat split)
                    Sample.cash "gopay" eq_refl eq_refl eq_refl) eq_refl).
  - exact (proj2 (transfer_lookup_failure Sample.unknownDestinationWorld Sample.message
                    Sample.empty "evt-1" Sample.messagePayload transfer eq_refl
                    fresh_sample eq_refl Sample.accounts Sample.categories
                    [Sample.cashTransfer; Sample.gopayTransfer; Sample.warung]
                    (Sample.coffee "20000" (Some "Dana"))
                    ltac:(repeat split) ltac:(repeat split)
                    Sample.cash "Dana" eq_refl eq_refl eq_refl) eq_refl).
Defined.

(** C3, as stated, fails: the destination account of this transfer has no
    transfer payee, the session cannot be closed, and so the request fails
    and no reply is sent; the text that names the failed lookup is only
    assigned to [finalResponse]. *)
Lemma lookup_failure_not_replied :
  resolveByName Account.name "Cash" Sample.accounts = Some Sample.cash
  ∧ resolveByName Account.name "gopay" Sample.accounts = Some Sample.gopay
  ∧ transferPayeeOf "a2" [Sample.cashTransfer; Sample.warung] = None
  ∧ posted (calls (snd (handleWebhook (Sample.stuck Sample.missingPayeeWorld)
                          Sample.message Sample.empty))) = []
  ∧ textsSent (calls (snd (handleWebhook (Sample.stuck Sample.missingPayeeWorld)
                             Sample.message Sample.empty))) = []
  ∧ fst (handleWebhook (Sample.stuck Sample.missingPayeeWorld) Sample.message
           Sample.empty)
    = Failed (LibraryError "budget file is locked")
  ∧ finalResponse (snd (handleWebhook (Sample.stuck Sample.missingPayeeWorld)
                          Sample.message Sample.empty))
    = Some ("Sorry, I couldn't find the internal transfer payee for account "
            ++ String "034"%char ("Gopay" ++ String "034"%char ".")).
Proof. by vm_compute. Qed.

Lemma expense_or_income_posts_one_witness :
  posted (calls (snd (handleWebhook Sample.incomeWorld Sample.message Sample.empty)))
  = [("a1", [{| Transaction.date := "2025-01-15"; Transaction.amount := 500000000;
                Transaction.payee := None; Transaction.payee_name := Some "Kantor";
                Transaction.notes := "kopi"; Transaction.category := Some "c1";
                Transaction.cleared := false |}])].
Proof.
  assert (income ≠ transfer) as Hne by discriminate.
  exact (proj1 (expense_or_income_posts_one Sample.incomeWorld Sample.message Sample.empty
                  "evt-1" Sample.messagePayload income eq_refl fresh_sample eq_refl
                  Sample.accounts Sample.categories [Sample.warung]
                  (Sample.coffee "5000000" (Some "Kantor"))
                  ltac:(repeat split) ltac:(repeat split)
                  Sample.cash Sample.food Hne eq_refl eq_refl)).
Defined.

(** C4, as stated, fails: for an expense whose extracted amount is "-20000"
    the one transaction posted has the amount -2000000, and minus the
    amount times 100 is 2000000. *)
Lemma expense_of_negative_amount :
  ∃ t, posted (calls (snd (handleWebhook Sample.minusWorld Sample.message Sample.empty)))
       = [("a1", [t])]
       ∧ Transaction.amount t = (-2000000)%float
       ∧ JS.neg (JS.times (JS.parseFloat "-20000") 100) = 2000000%float
       ∧ Transaction.amount t ≠ JS.neg (JS.times (JS.parseFloat "-20000") 100).
Proof.
  eexists. split; [vm_compute; reflexivity|]. split; [reflexivity|].
  split; [by vm_compute|].
  intros H. apply (f_equal Prim2SF) in H. vm_compute in H. discriminate.
Qed.

Lemma transfer_null_payee_witness :
  posted (calls (snd (handleWebhook Sample.nullPayeeWorld Sample.message Sample.empty)))
  = []
  ∧ textsSent (calls (snd (handleWebhook Sample.nullPayeeWorld Sample.message Sample.empty)))
    = []
  ∧ fst (handleWebhook Sample.nullPayeeWorld Sample.message Sample.empty)
    = Failed nullToLowerCase.
Proof.
  destruct (transfer_null_payee Sample.nullPayeeWorld Sample.message Sample.empty "evt-1"
              Sample.messagePayload transfer eq_refl fresh_sample eq_refl
              Sample.accounts Sample.categories [Sample.cashTransfer; Sample.gopayTransfer]
              (Sample.coffee "20000" None) ltac:(repeat split) ltac:(repeat split)
              eq_refl eq_refl) as (H1 & H2 & _ & _ & H3).
  split; [exact H1|]. split; [exact H2|exact (proj1 (H3 eq_refl))].
Defined.

(** ** The balance branch *)

Lemma queryTry_served env text accounts categories data s :
  lists env accounts categories → queries env text accounts categories data
  → queryTry env text s = answerQuery env accounts data (asked text accounts categories s).
Proof.
  intros (Hi & Hd & Ha & Hc) Hq. unfold queries in Hq.
  unfold queryTry, asked, initCalls. run.
  destruct s as [ev [] fr cs]; simp;
    rewrite ?Hi, ?Hd, ?Ha, ?Hc; simp; rewrite ?Hi, ?Hd, ?Ha, ?Hc, Hq;
    do 2 f_equal; rewrite <- ?app_assoc; reflexivity.
Qed.

Lemma logged_logged a b s : logged b (logged a s) = logged (a ++ b) s.
Proof. unfold logged. simpl. by rewrite app_assoc. Qed.

Lemma logged_nil s : logged [] s = s.
Proof. destruct s. unfold logged. simpl. by rewrite app_nil_r. Qed.

(** The balance requests of the all-accounts reply go out in the order of
    the accounts, one per open account. *)
Lemma startAll_balancePromise env (balances : string → float) accounts :
  (∀ acc, acc ∈ accounts → Account.closed acc = false
     → actual_getAccountBalance env (Account.id acc) = Resolved (balances (Account.id acc)))
  → ∀ s, isInitialized s = true
  → startAll (balancePromise env) accounts s
    = (Normal (map Normal
                 (map (fun acc => if negb (Account.closed acc)
                                  then Some (balanceLine env acc
                                               (balances (Account.id acc)))
                                  else None) accounts)),
       logged (map (fun acc => ActualGetAccountBalance (Account.id acc))
                 (List.filter (fun acc => negb (Account.closed acc)) accounts)) s).
Proof.
  induction accounts as [|acc accounts IH]; intros Hb s Hs.
  - simpl. by rewrite logged_nil.
  - cbn [startAll map List.filter]. unfold bind at 1. unfold start at 1.
    unfold balancePromise at 1. destruct (Account.closed acc) eqn:Hc; cbn [negb].
    + unfold ret at 1. unfold bind at 1. rewrite IH; [|intros a Ha Hca; apply Hb; [by right|done]|done].
      reflexivity.
    + run. rewrite Hs. rewrite (Hb acc); [|left|done]. simp.
      change ({| events := events s; isInitialized := isInitialized s;
                 finalResponse := finalResponse s;
                 calls := calls s ++ [ActualGetAccountBalance (Account.id acc)] |})
        with (logged [ActualGetAccountBalance (Account.id acc)] s).
      rewrite IH; [|intros a Ha Hca; apply Hb; [by right|done]|done].
      by rewrite logged_logged.
Qed.

Lemma awaitAll_settled {A} (l : list A) s : awaitAll (map Normal l) s = (Normal l, s).
Proof.
  induction l as [|a l IH]; [done|]. simpl. unfold bind. by rewrite IH.
Qed.

Lemma filterBoolean_lines env (balances : string → float) accounts :
  filterBoolean
    (map (fun acc => if negb (Account.closed acc)
                     then Some (balanceLine env acc (balances (Account.id acc)))
                     else None) accounts)
  = openAccountLines env balances accounts.
Proof.
  unfold openAccountLines. induction accounts as [|acc accounts IH]; [done|].
  cbn [map List.filter]. destruct (Account.closed acc); cbn [negb map].
  - exact IH.
  - rewrite <- IH. reflexivity.
Qed.

Lemma append_empty (t : string) : t ++ "" = t.
Proof.
  induction t as [|c t IH]; [done|].
  change (String c (t ++ "") = String c t). by rewrite IH.
Qed.

(** [join] with a line feed puts one before each element but the first. *)
Lemma join_lines first rest : JS.join nl (first :: rest) = linesOf first rest.
Proof.
  unfold linesOf. revert first. induction rest as [|line rest IH]; intros first.
  - cbn [JS.join fold_right]. by rewrite append_empty.
  - change (JS.join nl (first :: line :: rest))
      with (first ++ nl ++ JS.join nl (line :: rest)).
    by rewrite IH.
Qed.

Section BalanceIntent.
Context (env : Env) (req : Request) (s : State) (eventId : string)
  (messagePayload : Payload) (detail : TransactionDetail)
  (accounts : list Account.t) (categories : list Category.t) (data : QueryData).
Hypothesis Hmessage : messageEvent req = Some (eventId, messagePayload).
Hypothesis Hfresh : eventId ∉ events s.
Hypothesis Hintent :
  gemini_intent env (body messagePayload) = Resolved (query_balance, detail).
Hypothesis Hlists : lists env accounts categories.
Hypothesis Hqueries : queries env (body messagePayload) accounts categories data.

(** C7, as amended. An account query whose name is "all" in any letter
    case, on a server that answers the balance request of every open
    account and closes the session: a balance is requested for each open
    account and for no closed one, and the text sent is the heading
    followed by one line per open account and none for a closed one, in the
    order of the accounts, each with the name of the account and its
    balance divided by 100 as the formatter of the runtime prints it. *)
Theorem all_accounts_reply queried (balances : string → float) :
  query_type data = account → name data = Some queried
  → JS.toLowerCase queried = "all"
  → (∀ acc, acc ∈ accounts → Account.closed acc = false
       → actual_getAccountBalance env (Account.id acc)
         = Resolved (balances (Account.id acc)))
  → actual_shutdown env = Resolved tt
  → textsSent (calls (snd (handleWebhook env req s)))
    = (textsSent (calls s)
       ++ [(from messagePayload,
            Some (linesOf "*🏦 All Account Balances:*"
                    (map (fun acc =>
                            ("*" ++ Account.name acc ++ ":* "
                             ++ intl_formatCurrency env
                                  (balances (Account.id acc) / 100)%float)%string)
                       (List.filter (fun acc => negb (Account.closed acc))
                          accounts))))])%list
    ∧ balancesAsked (calls (snd (handleWebhook env req s)))
      = (balancesAsked (calls s)
         ++ map Account.id (List.filter (fun acc => negb (Account.closed acc)) accounts))%list.
Proof using Hmessage Hfresh Hintent Hlists Hqueries.
  intros Hty Hname Hall Hbal Hsh.
  assert (∀ l, textsSent (map (fun acc => ActualGetAccountBalance (Account.id acc)) l)
               = []) as Htexts by (induction l; done).
  assert (∀ l, balancesAsked (map (fun acc => ActualGetAccountBalance (Account.id acc)) l)
               = map Account.id l) as Hasked
    by (induction l as [|? ? IH]; [done|]; simpl; by rewrite <- IH).
  split;
    rewrite (handler_classified _ _ _ _ _ _ _ Hmessage Hfresh Hintent);
    unfold dispatch, queryBranch, tryCatchFinally;
    rewrite (queryTry_served _ _ _ _ _ _ Hlists Hqueries);
    unfold answerQuery; rewrite Hty, Hname, Hall; cbn [String.eqb Ascii.eqb Bool.eqb];
    unfold bind at 1; rewrite (startAll_balancePromise env balances accounts Hbal) by done;
    unfold bind at 1; rewrite awaitAll_settled, filterBoolean_lines, join_lines;
    unfold openAccountLines; run; rewrite Hsh; simp;
    destruct (waha_sendText env _ _) as [[]|m]; unfold logged; simp.
  - rewrite !textsSent_app, textsSent_initCalls, Htexts. simpl. by rewrite !app_nil_r.
  - rewrite !textsSent_app, textsSent_initCalls, Htexts. simpl. by rewrite !app_nil_r.
  - rewrite !balancesAsked_app, Hasked, balancesAsked_initCalls. simpl.
    by rewrite !app_nil_r.
  - rewrite !balancesAsked_app, Hasked, balancesAsked_initCalls. simpl.
    by rewrite !app_nil_r.
Qed.

(** The summary reads [categoryGroups], the property the server's answer
    has, and replies. *)
Lemma budget_summary_reply groups :
  query_type data ≠ account → namesOneCategory data = None
  → actual_getBudgetMonth env (thisMonth env) = Resolved (budgetMonthOf groups)
  → actual_shutdown env = Resolved tt
  → textsSent (calls (snd (handleWebhook env req s)))
    = (textsSent (calls s)
       ++ [(from messagePayload, Some (JS.join nl (summaryParts env groups)))])%list.
Proof using Hmessage Hfresh Hintent Hlists Hqueries.
  intros Hty Hname Hmonth Hsh.
  rewrite (handler_classified _ _ _ _ _ _ _ Hmessage Hfresh Hintent).
  unfold dispatch, queryBranch, tryCatchFinally.
  rewrite (queryTry_served _ _ _ _ _ _ Hlists Hqueries).
  unfold answerQuery. rewrite Hname.
  destruct (query_type data); [done| |]; run; rewrite Hmonth; simp;
    unfold budgetMonthOf; rewrite lookup_singleton_eq; simp; rewrite Hsh; simp;
    destruct (waha_sendText env _ _) as [[]|m]; by observe.
Qed.

(** C6 (the code against the claim). A budget or summary query that names
    one category, on a server whose answer has its groups under
    [categoryGroups]: the branch reads [categorGroups], which the answer
    does not have, and raises; no text is sent, neither the amounts of the
    category nor a not-found message, and the request fails. *)
Theorem budget_category_not_answered queried groups :
  query_type data ≠ account → namesOneCategory data = Some queried
  → actual_getBudgetMonth env (thisMonth env) = Resolved (budgetMonthOf groups)
  → textsSent (calls (snd (handleWebhook env req s))) = textsSent (calls s)
    ∧ (∃ e, fst (handleWebhook env req s) = Failed e)
    ∧ (actual_shutdown env = Resolved tt
       → fst (handleWebhook env req s) = Failed undefinedFlatMap
         ∧ finalResponse (snd (handleWebhook env req s)) = Some balanceFailure).
Proof using Hmessage Hfresh Hintent Hlists Hqueries.
  intros Hty Hname Hmonth.
  rewrite (handler_classified _ _ _ _ _ _ _ Hmessage Hfresh Hintent).
  unfold dispatch, queryBranch, tryCatchFinally.
  rewrite (queryTry_served _ _ _ _ _ _ Hlists Hqueries).
  unfold answerQuery. rewrite Hname.
  destruct (query_type data); [done| |]; run; rewrite Hmonth; simp;
    unfold budgetMonthOf; rewrite lookup_singleton_ne by done; simp;
    destruct (actual_shutdown env) as [[]|m]; simp;
    (split; [by observe|]); (split; [by eexists|done]).
Qed.

End BalanceIntent.

Lemma all_accounts_reply_witness :
  textsSent (calls (snd (handleWebhook Sample.balanceWorld Sample.message Sample.empty)))
  = [("628@c.us",
      Some ("*🏦 All Account Balances:*"
            ++ String "010"%char ("*Cash:* Rp" ++ Sample.nbsp ++ "150.000,00")
            ++ String "010"%char ("*Gopay:* -Rp" ++ Sample.nbsp ++ "2.500,50")))]
  ∧ balancesAsked
      (calls (snd (handleWebhook Sample.balanceWorld Sample.message Sample.empty)))
    = ["a1"; "a2"].
Proof.
  exact (all_accounts_reply Sample.balanceWorld Sample.message Sample.empty "evt-1"
           Sample.messagePayload expense Sample.accounts Sample.categories
           Sample.allAccounts eq_refl fresh_sample eq_refl
           ltac:(repeat split) eq_refl "ALL" Sample.balanceOf eq_refl eq_refl eq_refl
           (fun _ _ _ => eq_refl) eq_refl).
Defined.

(** C7, as stated, fails. When the server rejects the balance request of
    one open account (here Gopay) no line of any account is sent: the
    request fails without a reply. And the fraction digits are those of the
    runtime: where its locale data give the rupiah none, the balance
    15000000 of an account is listed as [Rp 150.000], with no decimal
    place. *)
Lemma all_accounts_not_listed :
  textsSent (calls (snd (handleWebhook Sample.lostBalanceWorld Sample.message
                           Sample.empty))) = []
  ∧ fst (handleWebhook Sample.lostBalanceWorld Sample.message Sample.empty)
    = Failed (ApiError 500 "Actual API Error (getAccountBalance): No such account")
  ∧ textsSent (calls (snd (handleWebhook Sample.wholeRupiahWorld Sample.message
                             Sample.empty)))
    = [("628@c.us",
        Some ("*🏦 All Account Balances:*"
              ++ String "010"%char ("*Cash:* Rp" ++ Sample.nbsp ++ "150.000")
              ++ String "010"%char ("*Gopay:* Rp" ++ Sample.nbsp ++ "150.000")))].
Proof. by vm_compute. Qed.

Lemma budget_category_not_answered_witness :
  textsSent (calls (snd (handleWebhook Sample.budgetWorld Sample.message Sample.empty)))
  = []
  ∧ fst (handleWebhook Sample.budgetWorld Sample.message Sample.empty)
    = Failed undefinedFlatMap.
Proof.
  assert (budget ≠ account) as Hne by discriminate.
  destruct (budget_category_not_answered Sample.budgetWorld Sample.message Sample.empty
              "evt-1" Sample.messagePayload expense Sample.accounts Sample.categories
              Sample.foodQuery eq_refl fresh_sample eq_refl
              ltac:(repeat split) eq_refl "food & drink" [Sample.usual]
              Hne eq_refl eq_refl) as (H1 & _ & H2).
  split; [exact H1|exact (proj1 (H2 eq_refl))].
Defined.

(** * Further properties *)

(** ** The session of the budgeting client *)

(** X1. Whatever the server answers, the transaction branch and the balance
    branch end with the shutdown of the session as their last call, and a
    shutdown that resolves leaves the session flag cleared. *)
Theorem session_released env text detail s :
  last (calls (snd (transactionBranch env text detail s))) = Some ActualShutdown
  ∧ last (calls (snd (queryBranch env text s))) = Some ActualShutdown
  ∧ (actual_shutdown env = Resolved tt
     → isInitialized (snd (transactionBranch env text detail s)) = false
       ∧ isInitialized (snd (queryBranch env text s)) = false).
Proof.
  unfold transactionBranch, queryBranch, tryCatchFinally.
  destruct (transactionTry env text detail s) as [[[]|e1] s1];
    destruct (queryTry env text s) as [[[]|e2] s2];
    run; destruct (actual_shutdown env) as [[]|m]; simp;
    rewrite !last_snoc; repeat split; done.
Qed.

(** X2. [init] returns only with the session flag set, having issued
    [actual.init] and [downloadBudget] exactly when the flag was not set;
    it raises only from a closed session, leaves the flag cleared, and the
    error is the [ApiError] 500 "Actual API Init Error: " followed by the
    message of the call that was rejected, after which no further call is
    issued. *)
Theorem init_postcondition env s :
  match actualService.init env s with
  | (Normal _, s') =>
      isInitialized s' = true ∧ calls s' = (calls s ++ initCalls s)%list
  | (Throw e, s') =>
      isInitialized s = false ∧ isInitialized s' = false
      ∧ ∃ m, e = ApiError 500 ("Actual API Init Error: " ++ m)
             ∧ (actual_init env = Rejected m ∧ calls s' = (calls s ++ [ActualInit])%list
                ∨ actual_downloadBudget env = Rejected m
                  ∧ calls s' = (calls s ++ [ActualInit; ActualDownloadBudget])%list)
  end.
Proof.
  unfold initCalls. run. destruct s as [ev [] fr cs]; simp.
  - by rewrite app_nil_r.
  - destruct (actual_init env) as [[]|m]; simp.
    + destruct (actual_downloadBudget env) as [[]|m]; simp.
      * by rewrite <- app_assoc.
      * repeat split; try done. exists m. split; [done|]. right. by rewrite <- app_assoc.
    + repeat split; try done. exists m. split; [done|]. by left.
Qed.

(** X3. With a server whose shutdown resolves, a request that starts with
    the session closed ends with the session closed, whatever else
    happens. *)
Theorem session_closed_between_requests env req s :
  actual_shutdown env = Resolved tt → isInitialized s = false
  → isInitialized (snd (handleWebhook env req s)) = false.
Proof.
  intros Hsh Hs. unfold handleWebhook, catchAsync, handler.
  destruct (messageEvent req) as [[eventId pl]|]; [|done].
  unfold findOne, create, processMessage, wahaService.sendSeen,
    geminiService.determineIntent, dispatch, transactionBranch, queryBranch,
    geminiService.getAnswer.
  run. destruct (bool_decide _); simp; [done|].
  destruct (waha_sendSeen env _); simp;
    (destruct (gemini_intent env _) as [[[] d]|m]; simp; [| | |done]).
  all: try (match goal with |- context [transactionTry ?e ?t ?d ?s0] =>
              destruct (transactionTry e t d s0) as [[[]|e1] s1] end).
  all: try (match goal with |- context [queryTry ?e ?t ?s0] =>
              destruct (queryTry e t s0) as [[[]|e1] s1] end).
  all: simp; rewrite ?Hsh; simp.
  all: try (destruct (gemini_answer env _) as [ans|m1]; simp).
  all: try (destruct (waha_sendText env _ _) as [[]|m2]; simp); done.
Qed.

Lemma session_closed_between_requests_witness :
  isInitialized (snd (handleWebhook Sample.transferWorld Sample.message Sample.empty))
  = false.
Proof.
  exact (session_closed_between_requests Sample.transferWorld Sample.message
           Sample.empty eq_refl eq_refl).
Defined.

(** ** The errors of the services *)

Lemma raises_ret {A} (a : A) : raisesApiError (ret a).
Proof. intros s e s' H. discriminate. Qed.

Lemma raises_throw {A} message : raisesApiError (@throw A (ApiError 500 message)).
Proof. intros s e s' [= <- _]. by eexists. Qed.

Lemma raises_bind {A B} (m : M A) (k : A → M B) :
  raisesApiError m → (∀ a, raisesApiError (k a)) → raisesApiError (bind m k).
Proof.
  intros Hm Hk s e s' H. unfold bind in H.
  destruct (m s) as [[a|e0] s0] eqn:E.
  - by eapply Hk.
  - injection H as <- <-. by eapply Hm.
Qed.

Lemma raises_call c : raisesApiError (call c).
Proof. intros s e s' H. discriminate. Qed.

Lemma raises_awaitOrApiError {A} (r : Reply A) prefix :
  raisesApiError (awaitOrApiError r prefix).
Proof. destruct r; [apply raises_ret|apply raises_throw]. Qed.

Lemma raises_getInitialized : raisesApiError getInitialized.
Proof. intros s e s' H. discriminate. Qed.

Lemma raises_setInitialized b : raisesApiError (setInitialized b).
Proof. intros s e s' H. discriminate. Qed.

Ltac raises :=
  repeat first
    [ apply raises_bind; [|intros ?] | apply raises_call | apply raises_awaitOrApiError
    | apply raises_ret | apply raises_throw | apply raises_getInitialized
    | apply raises_setInitialized
    | match goal with |- raisesApiError (if ?b then _ else _) => destruct b end ].

(** X4. Every error the gateway, language-model and budgeting services
    raise is an [ApiError] with the status 500, with two exceptions:
    [sendSeen] raises nothing at all, and a rejected [actual.shutdown()]
    comes out of [shutdown] as it is. *)
Theorem services_raise_ApiError env :
  (∀ to message, raisesApiError (wahaService.sendTextMessage env to message))
  ∧ (∀ text, raisesApiError (geminiService.determineIntent env text))
  ∧ (∀ text an cn, raisesApiError (geminiService.processTransaction env text an cn))
  ∧ (∀ text an cn, raisesApiError (geminiService.processBalanceQuery env text an cn))
  ∧ (∀ text, raisesApiError (geminiService.getAnswer env text))
  ∧ raisesApiError (actualService.init env)
  ∧ (∀ a ts, raisesApiError (actualService.addTransactions env a ts))
  ∧ (∀ month, raisesApiError (actualService.getBudgetMonth env month))
  ∧ raisesApiError (actualService.getAccounts env)
  ∧ raisesApiError (actualService.getCategories env)
  ∧ raisesApiError (actualService.getPayees env)
  ∧ (∀ a, raisesApiError (actualService.getAccountBalance env a))
  ∧ (∀ chat s, fst (wahaService.sendSeen env chat s) = Normal tt)
  ∧ (∀ s message, actual_shutdown env = Rejected message
       → actualService.shutdown env s
         = (Throw (LibraryError message), logged [ActualShutdown] s)).
Proof.
  repeat split; intros;
    try (unfold wahaService.sendTextMessage, geminiService.determineIntent,
           geminiService.processTransaction, geminiService.processBalanceQuery,
           geminiService.getAnswer, actualService.addTransactions,
           actualService.getBudgetMonth, actualService.getAccounts,
           actualService.getCategories, actualService.getPayees,
           actualService.getAccountBalance;
         by raises).
  - unfold wahaService.sendSeen. run. by destruct (waha_sendSeen env chat).
  - unfold actualService.shutdown. run. by rewrite H.
Qed.

Lemma processMessage_sendSeen answer env messagePayload s :
  processMessage (withSendSeen answer env) messagePayload s
  = processMessage env messagePayload s.
Proof.
  unfold processMessage.
  change (geminiService.determineIntent (withSendSeen answer env))
    with (geminiService.determineIntent env).
  change (dispatch (withSendSeen answer env)) with (dispatch env).
  change (wahaService.sendTextMessage (withSendSeen answer env))
    with (wahaService.sendTextMessage env).
  unfold wahaService.sendSeen, bind at 1 3. unfold bind at 1 3, call.
  cbn [waha_sendSeen withSendSeen].
  by destruct (answer (from messagePayload)), (waha_sendSeen env (from messagePayload)).
Qed.

(** X5. What the gateway answers to the "seen" mark changes nothing: the
    response and the final state of a request are the same under any two
    answers. *)
Theorem sendSeen_does_not_matter answer env req s :
  handleWebhook (withSendSeen answer env) req s = handleWebhook env req s.
Proof.
  unfold handleWebhook, catchAsync, handler.
  destruct (messageEvent req) as [[eventId pl]|]; [|done].
  unfold bind. destruct (findOne eventId s) as [[[]|e] s0]; try done.
  destruct (create eventId s0) as [[[]|e] s1]; try done.
  by rewrite processMessage_sendSeen.
Qed.

(** ** The extraction and the names it may use *)

(** X6. An extraction that [processTransaction] returns resolves: its
    source account and its category are found among the accounts and the
    categories whose names were passed in. *)
Theorem validated_names_resolve env text accounts categories s data s' :
  geminiService.processTransaction env text (map Account.name accounts)
    (map Category.name categories) s = (Normal data, s')
  → is_Some (resolveByName Account.name (source_account_name data) accounts)
    ∧ is_Some (resolveByName Category.name (category data) categories)
    ∧ gemini_transaction env text (map Account.name accounts)
        (map Category.name categories) = Resolved data.
Proof.
  unfold geminiService.processTransaction. run.
  destruct (gemini_transaction env _ _ _) as [d|m]; simp; [|discriminate].
  destruct (geminiService.inList (category d) _) eqn:Hc; [|discriminate].
  destruct (geminiService.inList (source_account_name d) _) eqn:Ha; [|discriminate].
  intros [= <- _]. split; [by apply listed_resolves|]. split; [by apply listed_resolves|done].
Qed.

Lemma validated_names_resolve_witness :
  is_Some (resolveByName Account.name "Cash" Sample.accounts)
  ∧ is_Some (resolveByName Category.name "Food & Drink" Sample.categories)
  ∧ gemini_transaction Sample.incomeWorld "Gaji" (map Account.name Sample.accounts)
      (map Category.name Sample.categories)
    = Resolved (Sample.coffee "5000000" (Some "Kantor")).
Proof.
  eapply (validated_names_resolve Sample.incomeWorld "Gaji" Sample.accounts
            Sample.categories Sample.empty (Sample.coffee "5000000" (Some "Kantor"))).
  vm_compute. reflexivity.
Defined.

(** X7. An expense or an income whose [try] block completes has posted:
    the entities were served, the extraction came back, its source account
    and category resolved, exactly one transaction was posted on the source
    account, and [finalResponse] is the model's message. The not-found
    replies for the source account and the category are never the outcome
    of a completed block. *)
Theorem completed_entry_is_posted env text detail s s' :
  detail ≠ transfer
  → transactionTry env text detail s = (Normal tt, s')
  → ∃ accounts categories data sourceAccount resolved,
      actual_getAccounts env = Resolved accounts
      ∧ actual_getCategories env = Resolved categories
      ∧ gemini_transaction env text (map Account.name accounts)
          (map Category.name categories) = Resolved data
      ∧ resolveByName Account.name (source_account_name data) accounts
        = Some sourceAccount
      ∧ resolveByName Category.name (category data) categories = Some resolved
      ∧ posted (calls s')
        = (posted (calls s)
           ++ [(Account.id sourceAccount,
                [newTransactionOf (today env) (amountInCentsOf data) detail data
                   resolved])])%list
      ∧ finalResponse s' = Some (message_to_user data).
Proof.
  intros Hd. unfold transactionTry.
  unfold bind at 1.
  destruct (actualService.init env s) as [[[]|e] s0] eqn:Hinit; [|discriminate].
  assert (isInitialized s0 = true ∧ posted (calls s0) = posted (calls s)) as [Hi0 Hp0].
  { revert Hinit. unfold actualService.init. run. destruct s as [ev [] fr cs]; simp.
    - by intros [= <-].
    - destruct (actual_init env) as [[]|m]; simp; [|discriminate].
      destruct (actual_downloadBudget env) as [[]|m]; simp; [|discriminate].
      intros [= <-]. simpl. split; [done|]. by rewrite !posted_app, !app_nil_r. }
  destruct s0 as [ev0 i0 fr0 cs0]. simpl in Hi0, Hp0. subst i0. run.
  destruct (actual_getAccounts env) as [accounts|m1],
    (actual_getCategories env) as [categories|m2],
    (actual_getPayees env) as [payees|m3]; simp; try discriminate.
  destruct (gemini_transaction env _ _ _) as [data|m] eqn:Hg; simp; [|discriminate].
  destruct (geminiService.inList (category data) _) eqn:Hc; [|discriminate].
  destruct (geminiService.inList (source_account_name data) _) eqn:Ha; [|discriminate].
  cbn [andb]. unfold recordTransaction.
  destruct (listed_resolves Account.name _ _ Ha) as [src Hsrc].
  destruct (listed_resolves Category.name _ _ Hc) as [cat Hcat].
  rewrite Hsrc, Hcat.
  destruct detail; [| |done]; run; simp;
    (destruct (actual_addTransactions env _ _ _) as [ids|m]; simp; [|discriminate]);
    intros [= <-]; simp; exists accounts, categories, data, src, cat;
    repeat (split; [done|]);
    (split; [|done]); rewrite !posted_app, Hp0; simpl; by rewrite !app_nil_r.
Qed.

Lemma completed_entry_is_posted_witness :
  ∃ accounts categories data sourceAccount resolved,
    actual_getAccounts Sample.incomeWorld = Resolved accounts
    ∧ actual_getCategories Sample.incomeWorld = Resolved categories
    ∧ gemini_transaction Sample.incomeWorld "Gaji" (map Account.name accounts)
        (map Category.name categories) = Resolved data
    ∧ resolveByName Account.name (source_account_name data) accounts = Some sourceAccount
    ∧ resolveByName Category.name (category data) categories = Some resolved
    ∧ posted (calls (snd (transactionTry Sample.incomeWorld "Gaji" income Sample.empty)))
      = (posted (calls Sample.empty)
         ++ [(Account.id sourceAccount,
              [newTransactionOf (today Sample.incomeWorld) (amountInCentsOf data) income
                 data resolved])])%list
    ∧ finalResponse (snd (transactionTry Sample.incomeWorld "Gaji" income Sample.empty))
      = Some (message_to_user data).
Proof.
  assert (income ≠ transfer) as Hne by discriminate.
  apply (completed_entry_is_posted Sample.incomeWorld "Gaji" income Sample.empty _ Hne).
  vm_compute. reflexivity.
Defined.

Section RejectedExtraction.
Context (env : Env) (req : Request) (s : State) (eventId : string)
  (messagePayload : Payload) (detail : TransactionDetail)
  (accounts : list Account.t) (categories : list Category.t) (payees : list Payee.t)
  (data : TransactionData).
Hypothesis Hmessage : messageEvent req = Some (eventId, messagePayload).
Hypothesis Hfresh : eventId ∉ events s.
Hypothesis Hintent :
  gemini_intent env (body messagePayload) = Resolved (transaction, detail).
Hypothesis Hserves : serves env accounts categories payees.
Hypothesis Hanswer :
  gemini_transaction env (body messagePayload) (map Account.name accounts)
    (map Category.name categories) = Resolved data.

(** X8. When the model answers with a category or a source account whose
    name is not among those passed in, the request fails: nothing is
    posted, no text is sent, not even a not-found reply, and with a
    shutdown that resolves the error is an [ApiError] 500. *)
Theorem unlisted_name_fails_request :
  geminiService.inList (category data) (map Category.name categories) = false
  ∨ geminiService.inList (source_account_name data) (map Account.name accounts) = false
  → posted (calls (snd (handleWebhook env req s))) = posted (calls s)
    ∧ textsSent (calls (snd (handleWebhook env req s))) = textsSent (calls s)
    ∧ (∃ e, fst (handleWebhook env req s) = Failed e)
    ∧ (actual_shutdown env = Resolved tt
       → ∃ message, fst (handleWebhook env req s) = Failed (ApiError 500 message)).
Proof using Hmessage Hfresh Hintent Hserves Hanswer.
  intros Hbad. destruct Hserves as ((Hi & Hd & Ha & Hc) & Hp).
  assert ((geminiService.inList (category data) (map Category.name categories)
           && geminiService.inList (source_account_name data) (map Account.name accounts))%bool
          = false) as Hand.
  { destruct Hbad as [-> | ->]; [done|apply andb_false_r]. }
  rewrite (handler_classified _ _ _ _ _ _ _ Hmessage Hfresh Hintent).
  unfold dispatch, transactionBranch, transactionTry. run.
  destruct s as [ev [] fr cs]; simp;
    rewrite ?Hi, ?Hd, ?Ha, ?Hc, ?Hp; simp; rewrite ?Hi, ?Hd, ?Ha, ?Hc, ?Hp, Hanswer, Hand;
    simp; destruct (actual_shutdown env) as [[]|m]; simp;
    (split; [by observe|]); (split; [by observe|]); (split; [by eexists|]);
    try done; intros _; by eexists.
Qed.

End RejectedExtraction.

Lemma unlisted_name_fails_request_witness :
  posted (calls (snd (handleWebhook Scenario.unlistedWorld Sample.message Sample.empty)))
  = posted (calls Sample.empty)
  ∧ textsSent (calls (snd (handleWebhook Scenario.unlistedWorld Sample.message
                             Sample.empty)))
    = textsSent (calls Sample.empty)
  ∧ ∃ message, fst (handleWebhook Scenario.unlistedWorld Sample.message Sample.empty)
               = Failed (ApiError 500 message).
Proof.
  destruct (unlisted_name_fails_request Scenario.unlistedWorld Sample.message Sample.empty
              "evt-1" Sample.messagePayload expense Sample.accounts Sample.categories
              [Sample.warung] Scenario.token eq_refl fresh_sample eq_refl
              ltac:(repeat split) eq_refl (or_introl eq_refl)) as (H1 & H2 & _ & H3).
  split; [exact H1|]. split; [exact H2|exact (H3 eq_refl)].
Defined.

(** ** The balance branch, further *)

Lemma summaryParts_income env groups :
  summaryParts env (List.filter (fun g => negb (CategoryGroup.is_income g)) groups)
  = summaryParts env groups.
Proof.
  unfold summaryParts. f_equal.
  induction groups as [|g groups IH]; [done|].
  cbn [List.filter flat_map]. destruct (CategoryGroup.is_income g) eqn:Hg; cbn [negb].
  - exact IH.
  - cbn [flat_map]. rewrite Hg. cbn [negb]. by rewrite IH.
Qed.

Lemma posted_filter cs : posted cs = posted (filter isAddTransactions cs).
Proof.
  induction cs as [|c cs IH]; [done|].
  rewrite filter_cons. destruct c; simpl; congruence.
Qed.

Lemma same_posted s s' :
  same isAddTransactions s s' → posted (calls s') = posted (calls s).
Proof.
  intros [_ H]. rewrite (posted_filter (calls s')), (posted_filter (calls s)).
  by f_equal.
Qed.

Ltac unfold_services :=
  unfold actualService.getAccounts, actualService.getCategories,
    actualService.getPayees, actualService.getAccountBalance,
    actualService.getBudgetMonth, actualService.shutdown,
    actualService.ensureInitialized, actualService.init,
    geminiService.processBalanceQuery, geminiService.getAnswer,
    geminiService.determineIntent, wahaService.sendSeen,
    wahaService.sendTextMessage.

Lemma balancePromise_posts_nothing env acc :
  keeps isAddTransactions (balancePromise env acc).
Proof.
  unfold balancePromise. unfold_services.
  repeat first [apply keeps_call; reflexivity | keeps_step].
Qed.

(** The balance branch reads: it posts nothing. *)
Lemma queryBranch_posts_nothing env text : keeps isAddTransactions (queryBranch env text).
Proof.
  unfold queryBranch, queryTry, answerQuery. unfold_services.
  repeat first [apply keeps_call; reflexivity
               | apply keeps_startAll; intros ?; apply balancePromise_posts_nothing
               | apply keeps_start
               | keeps_step].
Qed.

Section BalanceIntentFurther.
Context (env : Env) (req : Request) (s : State) (eventId : string)
  (messagePayload : Payload) (detail : TransactionDetail).
Hypothesis Hmessage : messageEvent req = Some (eventId, messagePayload).
Hypothesis Hfresh : eventId ∉ events s.
Hypothesis Hintent :
  gemini_intent env (body messagePayload) = Resolved (query_balance, detail).

(** X9. When the [try] block of the balance branch raises [e], the request
    fails, nothing is posted and no text is sent: the apology is assigned
    to [finalResponse] and not delivered. *)
Theorem query_error_not_replied e s1 :
  queryTry env (body messagePayload) (classified eventId messagePayload s) = (Throw e, s1)
  → (∃ e', fst (handleWebhook env req s) = Failed e')
    ∧ textsSent (calls (snd (handleWebhook env req s))) = textsSent (calls s)
    ∧ posted (calls (snd (handleWebhook env req s))) = posted (calls s)
    ∧ (actual_shutdown env = Resolved tt
       → fst (handleWebhook env req s) = Failed e
         ∧ finalResponse (snd (handleWebhook env req s)) = Some balanceFailure).
Proof using Hmessage Hfresh Hintent.
  intros Htry.
  pose proof (same_textsSent _ _
                (keeps_queryBranch env isSendText (fun c H => H) (body messagePayload)
                   (classified eventId messagePayload s))) as Hk.
  pose proof (same_posted _ _
                (queryBranch_posts_nothing env (body messagePayload)
                   (classified eventId messagePayload s))) as Hq.
  rewrite (handler_classified _ _ _ _ _ _ _ Hmessage Hfresh Hintent).
  unfold dispatch. revert Hk Hq. unfold queryBranch, tryCatchFinally. rewrite Htry.
  run. destruct (actual_shutdown env) as [[]|m]; simp; intros Hk Hq;
    (split; [by eexists|]); rewrite Hk, Hq; (split; [by observe|]);
    (split; [by observe|done]).
Qed.

Section Queried.
Context (accounts : list Account.t) (categories : list Category.t) (data : QueryData).
Hypothesis Hlists : lists env accounts categories.
Hypothesis Hqueries : queries env (body messagePayload) accounts categories data.

(** X10. An account query for a name other than "all", on a server that
    closes the session: when the name resolves, the balance of that
    account alone is requested and the text sent is the heading and the
    line of the account; when it does not, no balance is requested and the
    text sent says that the account was not found. *)
Theorem one_account_reply queried :
  query_type data = account → name data = Some queried
  → JS.toLowerCase queried ≠ "all"
  → actual_shutdown env = Resolved tt
  → match resolveByName Account.name queried accounts with
    | Some found =>
        ∀ balance,
          actual_getAccountBalance env (Account.id found) = Resolved balance
          → balancesAsked (calls (snd (handleWebhook env req s)))
            = (balancesAsked (calls s) ++ [Account.id found])%list
            ∧ textsSent (calls (snd (handleWebhook env req s)))
              = (textsSent (calls s)
                 ++ [(from messagePayload,
                      Some (JS.join nl ["*🏦 Account Balance:*";
                                        balanceLine env found balance]))])%list
    | None =>
        balancesAsked (calls (snd (handleWebhook env req s))) = balancesAsked (calls s)
        ∧ textsSent (calls (snd (handleWebhook env req s)))
          = (textsSent (calls s)
             ++ [(from messagePayload, Some (accountNotFound queried))])%list
    end.
Proof using Hmessage Hfresh Hintent Hlists Hqueries.
  intros Hty Hname Hall Hsh.
  assert (String.eqb (JS.toLowerCase queried) "all" = false) as Hneq
    by by apply String.eqb_neq.
  rewrite (handler_classified _ _ _ _ _ _ _ Hmessage Hfresh Hintent).
  unfold dispatch, queryBranch, tryCatchFinally.
  rewrite (queryTry_served _ _ _ _ _ _ Hlists Hqueries).
  unfold answerQuery. rewrite Hty, Hname, Hneq.
  destruct (resolveByName Account.name queried accounts) as [found|].
  - intros balance Hb. run. rewrite Hb. simp. rewrite Hsh. simp.
    destruct (waha_sendText env _ _) as [[]|m]; simp;
      (split; [rewrite !balancesAsked_app, balancesAsked_initCalls; simpl;
               by rewrite !app_nil_r|by observe]).
  - run. rewrite Hsh. simp.
    destruct (waha_sendText env _ _) as [[]|m]; simp;
      (split; [rewrite !balancesAsked_app, balancesAsked_initCalls; simpl;
               by rewrite !app_nil_r|by observe]).
Qed.

(** X11. A budget or summary query whose name is [null], empty or "all" in
    any letter case, on a server that closes the session: the text sent is
    the summary, and it is the summary of the groups that are not income
    groups; an income group adds nothing to it. *)
Theorem summary_lists_spending_groups groups :
  query_type data ≠ account
  → name data = None ∨ name data = Some ""
    ∨ (∃ n, name data = Some n ∧ JS.toLowerCase n = "all")
  → actual_getBudgetMonth env (thisMonth env) = Resolved (budgetMonthOf groups)
  → actual_shutdown env = Resolved tt
  → textsSent (calls (snd (handleWebhook env req s)))
    = (textsSent (calls s)
       ++ [(from messagePayload,
            Some (JS.join nl
                    (summaryParts env
                       (List.filter (fun g => negb (CategoryGroup.is_income g))
                          groups))))])%list.
Proof using Hmessage Hfresh Hintent Hlists Hqueries.
  intros Hty Hname Hmonth Hsh. rewrite summaryParts_income.
  apply (budget_summary_reply env req s eventId messagePayload detail accounts
           categories data); try done.
  unfold namesOneCategory.
  destruct Hname as [-> | [-> | (n & -> & Hn)]]; try done.
  rewrite Hn. cbn. by rewrite andb_false_r.
Qed.

(** X12. An account query without a name raises on its dereference: no
    balance is requested, no text is sent, the session is shut down last,
    and with a shutdown that resolves the request fails with the
    [TypeError]. *)
Theorem account_query_without_name :
  query_type data = account → name data = None
  → balancesAsked (calls (snd (handleWebhook env req s))) = balancesAsked (calls s)
    ∧ textsSent (calls (snd (handleWebhook env req s))) = textsSent (calls s)
    ∧ last (calls (snd (handleWebhook env req s))) = Some ActualShutdown
    ∧ (actual_shutdown env = Resolved tt
       → fst (handleWebhook env req s) = Failed nullToLowerCase).
Proof using Hmessage Hfresh Hintent Hlists Hqueries.
  intros Hty Hname.
  rewrite (handler_classified _ _ _ _ _ _ _ Hmessage Hfresh Hintent).
  unfold dispatch, queryBranch, tryCatchFinally.
  rewrite (queryTry_served _ _ _ _ _ _ Hlists Hqueries).
  unfold answerQuery. rewrite Hty, Hname. run.
  destruct (actual_shutdown env) as [[]|m]; simp;
    (split; [rewrite !balancesAsked_app, balancesAsked_initCalls; simpl;
               by rewrite !app_nil_r|]); (split; [by observe|]);
    (split; [by rewrite last_snoc|done]).
Qed.

End Queried.
End BalanceIntentFurther.

Lemma query_error_not_replied_witness :
  textsSent (calls (snd (handleWebhook Scenario.queryDownWorld Sample.message
                           Sample.empty))) = textsSent (calls Sample.empty)
  ∧ fst (handleWebhook Scenario.queryDownWorld Sample.message Sample.empty)
    = Failed (ApiError 500 "Actual API Init Error: connect ECONNREFUSED")
  ∧ finalResponse (snd (handleWebhook Scenario.queryDownWorld Sample.message
                          Sample.empty)) = Some balanceFailure.
Proof.
  edestruct (query_error_not_replied Scenario.queryDownWorld Sample.message Sample.empty
               "evt-1" Sample.messagePayload expense eq_refl fresh_sample eq_refl)
    as (_ & H1 & _ & H2); [vm_compute; reflexivity|].
  split; [exact H1|exact (H2 eq_refl)].
Defined.

Lemma one_account_reply_witness :
  balancesAsked (calls (snd (handleWebhook Scenario.oneAccountWorld Sample.message
                               Sample.empty))) = ["a2"]
  ∧ textsSent (calls (snd (handleWebhook Scenario.oneAccountWorld Sample.message
                             Sample.empty)))
    = [("628@c.us",
        Some (JS.join nl ["*🏦 Account Balance:*";
                          "*Gopay:* -Rp" ++ Sample.nbsp ++ "2.500,50"]))].
Proof.
  exact (one_account_reply Scenario.oneAccountWorld Sample.message Sample.empty "evt-1"
           Sample.messagePayload expense eq_refl fresh_sample eq_refl
           Sample.accounts Sample.categories
           {| query_type := account; name := Some "gopay" |}
           ltac:(repeat split) eq_refl "gopay" eq_refl eq_refl
           ltac:(discriminate) eq_refl (Sample.balanceOf "a2") eq_refl).
Defined.

Lemma summary_lists_spending_groups_witness :
  textsSent (calls (snd (handleWebhook Scenario.summaryWorld Sample.message Sample.empty)))
  = [("628@c.us",
      Some (JS.join nl ["*📊 Monthly Budget Summary:*"; nl ++ "*Usual*";
                        "- Food & Drink: Rp" ++ Sample.nbsp ++ "1.990.000,00"]))].
Proof.
  assert (summary ≠ account) as Hne by discriminate.
  exact (summary_lists_spending_groups Scenario.summaryWorld Sample.message Sample.empty
           "evt-1" Sample.messagePayload expense eq_refl fresh_sample eq_refl
           Sample.accounts Sample.categories
           {| query_type := summary; name := Some "All" |}
           ltac:(repeat split) eq_refl [Scenario.salary; Sample.usual] Hne
           (or_intror (or_intror (ex_intro _ "All" (conj eq_refl eq_refl))))
           eq_refl eq_refl).
Defined.

Lemma account_query_without_name_witness :
  balancesAsked (calls (snd (handleWebhook Scenario.noNameWorld Sample.message
                               Sample.empty))) = []
  ∧ textsSent (calls (snd (handleWebhook Scenario.noNameWorld Sample.message
                             Sample.empty))) = []
  ∧ fst (handleWebhook Scenario.noNameWorld Sample.message Sample.empty)
    = Failed nullToLowerCase.
Proof.
  destruct (account_query_without_name Scenario.noNameWorld Sample.message Sample.empty
              "evt-1" Sample.messagePayload expense eq_refl fresh_sample eq_refl
              Sample.accounts Sample.categories Scenario.noQuery
              ltac:(repeat split) eq_refl eq_refl eq_refl) as (H1 & H2 & _ & H3).
  split; [exact H1|]. split; [exact H2|exact (H3 eq_refl)].
Defined.

(** ** What a request can do at all *)

(** X13. Only a fresh message that the model classifies as a transaction
    can post to the budget: when the posted entries differ after a request,
    the request was such a message. *)
Theorem only_transactions_post env req s :
  posted (calls (snd (handleWebhook env req s))) ≠ posted (calls s)
  → ∃ eventId messagePayload detail,
      messageEvent req = Some (eventId, messagePayload) ∧ (eventId ∉ events s)
      ∧ gemini_intent env (body messagePayload) = Resolved (transaction, detail).
Proof.
  intros Hposted.
  destruct (messageEvent req) as [[eventId pl]|] eqn:Hm.
  2:{ exfalso. apply Hposted. unfold handleWebhook, catchAsync, handler. by rewrite Hm. }
  destruct (decide (eventId ∈ events s)) as [Hin|Hin].
  { exfalso. apply Hposted. rewrite (handler_duplicate _ _ _ _ _ Hm Hin).
    unfold logged. by observe. }
  destruct (gemini_intent env (body pl)) as [[intent detail]|m] eqn:Hi.
  - destruct intent; [by eauto 6| |]; exfalso; apply Hposted;
      rewrite (handler_classified _ _ _ _ _ _ _ Hm Hin Hi); unfold dispatch.
    + unfold geminiService.getAnswer. run.
      destruct (gemini_answer env _) as [ans|m]; simp;
        [destruct (waha_sendText env _ _) as [[]|m']; simp|]; by observe.
    + pose proof (same_posted _ _ (queryBranch_posts_nothing env (body pl)
                                     (classified eventId pl s))) as Hq.
      destruct (queryBranch env (body pl) _) as [[[]|e] s1]; cbn [snd] in Hq.
      * unfold wahaService.sendTextMessage. run.
        destruct (waha_sendText env _ _) as [[]|m']; simp;
          rewrite posted_app, Hq; by observe.
      * simp. rewrite Hq. by observe.
  - exfalso. apply Hposted. rewrite (handler_fresh _ _ _ _ _ Hm Hin).
    unfold processMessage, wahaService.sendSeen, geminiService.determineIntent,
      recorded. run.
    destruct (waha_sendSeen env _); simp; rewrite Hi; simp; by observe.
Qed.

Lemma only_transactions_post_witness :
  ∃ eventId messagePayload detail,
    messageEvent Sample.message = Some (eventId, messagePayload)
    ∧ (eventId ∉ events Sample.empty)
    ∧ gemini_intent Sample.transferWorld (body messagePayload)
      = Resolved (transaction, detail).
Proof.
  apply (only_transactions_post Sample.transferWorld Sample.message Sample.empty).
  vm_compute. discriminate.
Defined.

(** X14. A request sends at most one text, and only to the sender of its
    own message. *)
Theorem one_text_to_sender env req s :
  ∃ texts,
    textsSent (calls (snd (handleWebhook env req s))) = (textsSent (calls s) ++ texts)%list
    ∧ (texts = []
       ∨ ∃ messagePayload text,
           payload req = Some messagePayload ∧ texts = [(from messagePayload, text)]).
Proof.
  destruct (messageEvent req) as [[eventId pl]|] eqn:Hm.
  2:{ exists []. unfold handleWebhook, catchAsync, handler. rewrite Hm.
      split; [by rewrite app_nil_r|by left]. }
  destruct (decide (eventId ∈ events s)) as [Hin|Hin].
  { exists []. rewrite (handler_duplicate _ _ _ _ _ Hm Hin). unfold logged.
    split; [by observe|by left]. }
  pose proof Hm as (_ & Hp & _)%messageEvent_Some.
  destruct (gemini_intent env (body pl)) as [[intent detail]|m] eqn:Hi.
  - rewrite (handler_classified _ _ _ _ _ _ _ Hm Hin Hi).
    pose proof (same_textsSent _ _
                  (keeps_dispatch env isSendText (fun c H => H) (body pl) intent detail
                     (classified eventId pl s))) as Hk.
    destruct (dispatch env (body pl) intent detail _) as [[[]|e] s1]; cbn [snd] in Hk.
    + exists [(from pl, finalResponse s1)]. split; [|right; eauto].
      unfold wahaService.sendTextMessage. run.
      destruct (waha_sendText env _ _) as [[]|m']; simp;
        rewrite textsSent_app, Hk; by observe.
    + exists []. split; [|by left]. simp. rewrite Hk. by observe.
  - exists []. split; [|by left]. rewrite (handler_fresh _ _ _ _ _ Hm Hin).
    unfold processMessage, wahaService.sendSeen, geminiService.determineIntent,
      recorded. run.
    destruct (waha_sendSeen env _); simp; rewrite Hi; simp; by observe.
Qed.

(** X15. The collection of handled events only grows, by nothing but the
    truthy id of the request's own payload, and it stays free of falsy
    ids. *)
Theorem store_grows_by_own_id env req s :
  events s ⊆ events (snd (handleWebhook env req s))
  ∧ (∀ x, x ∈ events (snd (handleWebhook env req s))
       → x ∈ events s
         ∨ ∃ messagePayload,
             payload req = Some messagePayload ∧ id messagePayload = Some x
             ∧ JS.truthy x = true)
  ∧ (storeOk s → storeOk (snd (handleWebhook env req s))).
Proof.
  split; [|split; [|apply handleWebhook_storeOk]].
  - destruct (messageEvent req) as [[eventId pl]|] eqn:Hm.
    + destruct (decide (eventId ∈ events s)) as [Hin|Hin].
      * by rewrite (handler_duplicate _ _ _ _ _ Hm Hin).
      * rewrite (handler_fresh_events _ _ _ _ _ Hm Hin). set_solver.
    + unfold handleWebhook, catchAsync, handler. by rewrite Hm.
  - intros x. destruct (messageEvent req) as [[eventId pl]|] eqn:Hm.
    + destruct (decide (eventId ∈ events s)) as [Hin|Hin].
      * rewrite (handler_duplicate _ _ _ _ _ Hm Hin). by left.
      * rewrite (handler_fresh_events _ _ _ _ _ Hm Hin).
        apply messageEvent_Some in Hm as (_ & Hp & Hi & Ht).
        intros [->%elem_of_singleton|Hx]%elem_of_union; [right; eauto|by left].
    + unfold handleWebhook, catchAsync, handler. rewrite Hm. by left.
Qed.

Lemma question_answered_witness :
  calls (snd (handleWebhook Scenario.questionWorld Sample.message Sample.empty))
  = [DbFindOne "evt-1"; DbCreate "evt-1"; WahaSendSeen "628@c.us";
     GeminiIntent "Beli kopi 20k dari Cash"; GeminiAnswer "Beli kopi 20k dari Cash";
     WahaSendText "628@c.us" (Some "It is a budgeting assistant.")]
  ∧ fst (handleWebhook Scenario.questionWorld Sample.message Sample.empty)
    = Sent 200 "received".
Proof.
  destruct (question_answered Scenario.questionWorld Sample.message Sample.empty "evt-1"
              Sample.messagePayload expense "It is a budgeting assistant."
              eq_refl fresh_sample eq_refl eq_refl) as (H1 & H2).
  split; [exact H1|exact (H2 eq_refl)].
Defined.

(** ** The first revision of the controller *)

(** X17. The first revision has no budgeting backend: a fresh message
    classified as a transaction is extracted against the fixed account and
    category names and only acknowledged with the model's message; an
    extraction outside the fixed names fails the request with an
    [ApiError] 500 and sends nothing. No other library is called. *)
Theorem legacy_transaction_only_acknowledged env req s eventId messagePayload data :
  messageEvent req = Some (eventId, messagePayload) → eventId ∉ events s
  → Legacy.gemini_intent env (body messagePayload) = Resolved Legacy.transaction
  → Legacy.gemini_transaction env (body messagePayload) = Resolved data
  → if Legacy.passesSchema data then
      calls (snd (Legacy.handleWebhook env req s))
      = (calls s ++ [DbFindOne eventId; DbCreate eventId;
                     WahaSendSeen (from messagePayload);
                     GeminiIntent (body messagePayload);
                     GeminiTransaction (body messagePayload) Legacy.accountNames
                       Legacy.categoryNames;
                     WahaSendText (from messagePayload)
                       (Some (Legacy.message_to_user data))])%list
      ∧ (Legacy.waha_sendText env (from messagePayload)
           (Some (Legacy.message_to_user data)) = Resolved tt
         → fst (Legacy.handleWebhook env req s) = Sent 200 "received")
    else
      calls (snd (Legacy.handleWebhook env req s))
      = (calls s ++ [DbFindOne eventId; DbCreate eventId;
                     WahaSendSeen (from messagePayload);
                     GeminiIntent (body messagePayload);
                     GeminiTransaction (body messagePayload) Legacy.accountNames
                       Legacy.categoryNames])%list
      ∧ ∃ message, fst (Legacy.handleWebhook env req s) = Failed (ApiError 500 message).
Proof.
  intros Hm Hf Hi Hd. unfold Legacy.handleWebhook, catchAsync, Legacy.handler.
  rewrite Hm. unfold findOne, create, Legacy.sendSeen, Legacy.determineIntent,
    Legacy.processTransaction, Legacy.sendTextMessage. run.
  rewrite bool_decide_false by done. simp.
  destruct (Legacy.waha_sendSeen env _); simp; rewrite Hi; simp; rewrite Hd; simp;
    destruct (Legacy.passesSchema data); simp;
    try (destruct (Legacy.waha_sendText env _ _) as [[]|m]; simp);
    (split; [by rewrite <- !app_assoc|]); try done; by eexists.
Qed.

Lemma legacy_transaction_only_acknowledged_witness :
  (calls (snd (Legacy.handleWebhook (Scenario.oldWorld Legacy.transaction "Food & Drink")
                 Sample.message Sample.empty))
   = [DbFindOne "evt-1"; DbCreate "evt-1"; WahaSendSeen "628@c.us";
      GeminiIntent "Beli kopi 20k dari Cash";
      GeminiTransaction "Beli kopi 20k dari Cash" Legacy.accountNames
        Legacy.categoryNames;
      WahaSendText "628@c.us" (Some "Recorded.")]
   ∧ fst (Legacy.handleWebhook (Scenario.oldWorld Legacy.transaction "Food & Drink")
            Sample.message Sample.empty) = Sent 200 "received")
  ∧ textsSent (calls (snd (Legacy.handleWebhook
                             (Scenario.oldWorld Legacy.transaction "Groceries")
                             Sample.message Sample.empty))) = [].
Proof.
  split.
  - destruct (legacy_transaction_only_acknowledged
                (Scenario.oldWorld Legacy.transaction "Food & Drink") Sample.message
                Sample.empty "evt-1" Sample.messagePayload
                (Scenario.oldData "Food & Drink") eq_refl fresh_sample eq_refl eq_refl)
      as (H1 & H2).
    split; [exact H1|exact (H2 eq_refl)].
  - destruct (legacy_transaction_only_acknowledged
                (Scenario.oldWorld Legacy.transaction "Groceries") Sample.message
                Sample.empty "evt-1" Sample.messagePayload
                (Scenario.oldData "Groceries") eq_refl fresh_sample eq_refl eq_refl)
      as (H1 & _).
    by rewrite H1.
Defined.

(** X18. On a message that both revisions classify as a question, with
    the same answers of the gateway and of the model, the first revision
    and the current one behave alike: the same library calls, the same
    stored events and the same response. *)
Theorem revisions_agree_on_questions old env req s eventId messagePayload detail :
  messageEvent req = Some (eventId, messagePayload)
  → Legacy.gemini_intent old (body messagePayload) = Resolved Legacy.question
  → gemini_intent env (body messagePayload) = Resolved (question, detail)
  → Legacy.waha_sendSeen old (from messagePayload) = waha_sendSeen env (from messagePayload)
  → Legacy.gemini_answer old (body messagePayload) = gemini_answer env (body messagePayload)
  → (∀ text, Legacy.waha_sendText old (from messagePayload) text
             = waha_sendText env (from messagePayload) text)
  → Legacy.handleWebhook old req s = handleWebhook env req s.
Proof.
  intros Hm Hio Hi Hseen Hans Htext.
  unfold Legacy.handleWebhook, handleWebhook, catchAsync, Legacy.handler, handler.
  rewrite Hm. unfold processMessage, dispatch, findOne, create, Legacy.sendSeen,
    Legacy.determineIntent, Legacy.getAnswer, Legacy.sendTextMessage,
    wahaService.sendSeen, geminiService.determineIntent, geminiService.getAnswer,
    wahaService.sendTextMessage. run.
  destruct (bool_decide _); simp; [done|].
  rewrite Hseen. destruct (waha_sendSeen env _); simp; rewrite Hio, Hi; simp;
    rewrite Hans; (destruct (gemini_answer env _) as [ans|m1]; simp; [|done]);
    rewrite Htext; by destruct (waha_sendText env _ _) as [[]|m2].
Qed.

Lemma revisions_agree_on_questions_witness :
  Legacy.handleWebhook (Scenario.oldWorld Legacy.question "Other") Sample.message
    Sample.empty
  = handleWebhook Scenario.questionWorld Sample.message Sample.empty.
Proof.
  apply (revisions_agree_on_questions _ _ _ _ "evt-1" Sample.messagePayload expense);
    try reflexivity.
Defined.
